(** * Pipeline Flow Wizard: configuration store, step editors, shell and export

    A shallow embedding of the wizard's state handling:
    - [ConfigContext]  : the shared store ([applyConfig], [getConfig]);
    - [Index]          : the shell's step index and its transitions;
    - [JenkinsfileSetup], [DockerfileSetup], [KubernetesSetup],
      [DeploymentConfig], [MonitoringSetup], [RepositorySetup] : the step
      editors, their change handlers, [handleApplyChanges], [handleNextStep];
    - [ExportProject]  : [generateSampleContent] and the exported [files].

    JavaScript values are the inductive [any]; strings are byte strings;
    [String.prototype.replace] is modelled with a backtracking matcher for
    the regular expressions the handlers use. *)

From Stdlib Require Import ZArith String Ascii List Bool Lia DecimalString DecimalZ.
From stdpp Require Import base gmap strings list.

Set Warnings "-register-all".

(** ** Strings *)

Module Str.
Definition nl : ascii := "010"%char.
Definition cr : ascii := "013"%char.
Definition dquote : ascii := "034"%char.

(* the one-character string holding a double quote *)
Definition q : string := String dquote "".

Fixpoint unlines (ls : list string) : string :=
  match ls with
  | [] => ""
  | [l] => l
  | l :: ls' => l +:+ String nl (unlines ls')
  end.

Fixpoint drop (n : nat) (s : string) : string :=
  match n, s with
  | S n', String _ s' => drop n' s'
  | _, _ => s
  end.

Fixpoint take (n : nat) (s : string) : string :=
  match n, s with
  | S n', String c s' => String c (take n' s')
  | _, _ => ""
  end.

Fixpoint rev_onto (r acc : string) : string :=
  match r with
  | "" => acc
  | String c r' => rev_onto r' (String c acc)
  end.

(* s.startsWith(p) *)
Fixpoint startsWith (p s : string) : bool :=
  match p, s with
  | "", _ => true
  | String a p', String b s' => Ascii.eqb a b && startsWith p' s'
  | String _ _, "" => false
  end.

(* s.includes(p) *)
Fixpoint includes (p s : string) : bool :=
  startsWith p s || match s with String _ s' => includes p s' | "" => false end.

(* number of positions of [s] at which [p] occurs *)
Fixpoint occurrences (p s : string) : nat :=
  (if startsWith p s then 1 else 0) +
  match s with String _ s' => occurrences p s' | "" => 0 end.

(* s.split(sep)[0] for a one-character separator *)
Fixpoint beforeChar (sep : ascii) (s : string) : string :=
  match s with
  | "" => ""
  | String c s' => if Ascii.eqb c sep then "" else String c (beforeChar sep s')
  end.

Definition toUpperChar (c : ascii) : ascii :=
  let n := nat_of_ascii c in
  if (97 <=? n)%nat && (n <=? 122)%nat then ascii_of_nat (n - 32) else c.

(* s.charAt(0).toUpperCase() + s.slice(1) *)
Definition capitalize (s : string) : string :=
  match s with
  | "" => ""
  | String c s' => String (toUpperChar c) s'
  end.

(* decimal numeral of an integer *)
Definition ofZ (z : Z) : string := NilEmpty.string_of_int (Z.to_int z).
End Str.

(** ** JavaScript values *)

(* the built-in objects a property read can reach through Object.prototype *)
Inductive native : Type :=
| ObjectPrototype                    (* Object.prototype itself *)
| BuiltinFunction (name : string).   (* Object, Object.prototype.toString, ... *)

Definition native_eqb (a b : native) : bool :=
  match a, b with
  | ObjectPrototype, ObjectPrototype => true
  | BuiltinFunction m, BuiltinFunction n => String.eqb m n
  | _, _ => false
  end.

Inductive any : Type :=
| VUndefined
| VNull
| VBool (b : bool)
| VStr (s : string)
| VArr (items : list any)
| VObj (props : gmap string any)
| VNative (n : native).

(* ToBoolean *)
Definition truthy (v : any) : bool :=
  match v with
  | VUndefined | VNull => false
  | VBool b => b
  | VStr s => negb (String.eqb s "")
  | VArr _ | VObj _ | VNative _ => true
  end.

(* a || b *)
Definition or_else (a b : any) : any := if truthy a then a else b.

(* a && b *)
Definition and_then (a b : any) : any := if truthy a then b else a.

(* ToString, as applied by template literals and by the replacement
   argument of String.prototype.replace *)
Fixpoint toString (v : any) : string :=
  match v with
  | VUndefined => "undefined"
  | VNull => "null"
  | VBool true => "true"
  | VBool false => "false"
  | VStr s => s
  | VArr items =>
      (fix join (l : list any) : string :=
         match l with
         | [] => ""
         | x :: l' =>
             let sx := match x with VUndefined | VNull => "" | _ => toString x end in
             match l' with [] => sx | _ => sx +:+ "," +:+ join l' end
         end) items
  | VObj _ | VNative ObjectPrototype => "[object Object]"
  (* the text of a built-in function as V8 and JavaScriptCore give it; the
     standard fixes its shape (NativeFunction), not its white space *)
  | VNative (BuiltinFunction name) => "function " +:+ name +:+ "() { [native code] }"
  end.

(* v.p for a value that is neither undefined nor null, at the property
   names the wizard reads (none of them is a property of strings, arrays or
   booleans, so only objects can answer) *)
Definition getProp (v : any) (p : string) : any :=
  match v with
  | VObj props => default VUndefined (props !! p)
  | _ => VUndefined
  end.

(* v?.p *)
Definition optProp (v : any) (p : string) : any :=
  match v with
  | VUndefined | VNull => VUndefined
  | _ => getProp v p
  end.

Fixpoint indexed (i : nat) (l : list any) : gmap string any :=
  match l with
  | [] => ∅
  | x :: l' => <[Str.ofZ (Z.of_nat i) := x]> (indexed (S i) l')
  end.

Fixpoint chars (s : string) : list any :=
  match s with
  | "" => []
  | String c s' => VStr (String c "") :: chars s'
  end.

(* the own enumerable properties copied by the spread {...v} *)
Definition spread (v : any) : gmap string any :=
  match v with
  | VObj props => props
  | VArr items => indexed 0 items
  | VStr s => indexed 0 (chars s)
  | VUndefined | VNull | VBool _ | VNative _ => ∅
  end.

(* { ...prev, [name]: v } *)
Definition withProp (prev : any) (name : string) (v : any) : any :=
  VObj (<[name := v]> (spread prev)).

(* an object literal { k1: v1, ..., kn: vn } *)
Definition obj (fields : list (string * any)) : any :=
  VObj (list_to_map fields).

(** ** Regular expressions and String.prototype.replace *)

Module RegExp.
Inductive regex : Type :=
| Empty                              (* the empty pattern *)
| Chr (c : ascii)                    (* a literal or escaped character *)
| Dot                                (* .       *)
| Digit                              (* \d      *)
| AnyChar                            (* [\s\S]  *)
| Eol                                (* $ under the m flag *)
| Seq (r1 r2 : regex)
| Alt (r1 r2 : regex)
| Star (greedy : bool) (r : regex)   (* r* and r*? *)
| Group (i : nat) (r : regex).       (* the capture group $(i+1) *)

(* r+ *)
Definition Plus (r : regex) : regex := Seq r (Star true r).

(* a pattern made of literal characters only *)
Fixpoint lit (s : string) : regex :=
  match s with
  | "" => Empty
  | String c "" => Chr c
  | String c s' => Seq (Chr c) (lit s')
  end.

Fixpoint seqs (rs : list regex) : regex :=
  match rs with
  | [] => Empty
  | [r] => r
  | r :: rs' => Seq r (seqs rs')
  end.

Fixpoint groups (r : regex) : list nat :=
  match r with
  | Seq r1 r2 | Alt r1 r2 => groups r1 ++ groups r2
  | Star _ r1 => groups r1
  | Group i r1 => i :: groups r1
  | _ => []
  end.

Definition isLineTerminator (c : ascii) : bool :=
  Ascii.eqb c Str.nl || Ascii.eqb c Str.cr.

(* U+2028 LINE SEPARATOR and U+2029 PARAGRAPH SEPARATOR, as the bytes a text
   holds them in (UTF-8) *)
Definition lineSeparator : string := String "226" (String "128" (String "168" "")).
Definition paragraphSeparator : string := String "226" (String "128" (String "169" "")).

(* the input starts with a LineTerminator: \n, \r, U+2028 or U+2029 *)
Definition atLineTerminator (s : string) : bool :=
  match s with
  | String a _ =>
      isLineTerminator a || Str.startsWith lineSeparator s
      || Str.startsWith paragraphSeparator s
  | "" => false
  end.

Definition isDigit (c : ascii) : bool :=
  let n := nat_of_ascii c in (48 <=? n)%nat && (n <=? 57)%nat.

Definition first {A} (x y : option A) : option A :=
  match x with Some _ => x | None => y end.

(* the captures of a match, None for a group that took no part *)
Abbreviation captures := (list (option string)).

Definition clear (ids : list nat) (caps : captures) : captures :=
  fold_right (fun i cs => <[i := None]> cs) caps ids.

Abbreviation result := (captures * string)%type.

(* Backtracking matcher in continuation-passing style: [run r s caps k]
   matches [r] at the start of [s] and hands the captures and the rest of
   the input to [k]; the result is what is left of the input after the
   whole match.  An iteration of a star that consumes nothing is rejected
   and the groups inside a star are cleared on every iteration, as in
   ECMAScript. *)
Fixpoint run (r : regex) (s : string) (caps : captures)
    (k : captures -> string -> option result) {struct r} : option result :=
  match r with
  | Empty => k caps s
  | Chr c =>
      match s with
      | String a s' => if Ascii.eqb a c then k caps s' else None
      | "" => None
      end
  | Dot =>
      match s with
      | String _ s' => if atLineTerminator s then None else k caps s'
      | "" => None
      end
  | Digit =>
      match s with
      | String a s' => if isDigit a then k caps s' else None
      | "" => None
      end
  | AnyChar =>
      match s with
      | String _ s' => k caps s'
      | "" => None
      end
  | Eol =>
      match s with
      | String _ _ => if atLineTerminator s then k caps s else None
      | "" => k caps s
      end
  | Seq r1 r2 => run r1 s caps (fun caps' s' => run r2 s' caps' k)
  | Alt r1 r2 => first (run r1 s caps k) (run r2 s caps k)
  | Star greedy r1 =>
      (fix loop (n : nat) (s : string) (caps : captures) {struct n} : option result :=
         match n with
         | O => k caps s
         | S n' =>
             let again :=
               run r1 s (clear (groups r1) caps) (fun caps' s' =>
                 if (String.length s' <? String.length s)%nat
                 then loop n' s' caps' else None) in
             if greedy then first again (k caps s) else first (k caps s) again
         end) (String.length s) s caps
  | Group i r1 =>
      run r1 s caps (fun caps' s' =>
        k (<[i := Some (Str.take (String.length s - String.length s') s)]> caps') s')
  end.

(* the match of [r] anchored at the start of [s]: its length and captures *)
Definition matchAt (r : regex) (s : string) : option (nat * captures) :=
  match run r s (replicate (length (groups r)) None) (fun caps rest => Some (caps, rest)) with
  | Some (caps, rest) => Some ((String.length s - String.length rest)%nat, caps)
  | None => None
  end.
End RegExp.

Definition digitOf (c : ascii) : option nat :=
  if RegExp.isDigit c then Some (nat_of_ascii c - 48) else None.

(* the text a capture reference stands for: captures[index - 1] when
   1 <= index <= m (empty for a group that took no part), else nothing *)
Definition capture (caps : list (option string)) (index : nat) : option string :=
  match index with
  | O => None
  | S i => match caps !! i with
           | Some (Some s) => Some s
           | Some None => Some ""
           | None => None
           end
  end.

(* GetSubstitution: $$, $&, $`, $' and the capture references $n and $nn
   are expanded, every other use of $ stays as written (there are no named
   groups) *)
Fixpoint getSubstitution (matched before after : string) (caps : list (option string))
    (replacement : string) : string :=
  match replacement with
  | "" => ""
  | String c rest =>
      if Ascii.eqb c "$" then
        match rest with
        | String d rest' =>
            if Ascii.eqb d "$" then String "$" (getSubstitution matched before after caps rest')
            else if Ascii.eqb d "&" then matched +:+ getSubstitution matched before after caps rest'
            else if Ascii.eqb d "`" then before +:+ getSubstitution matched before after caps rest'
            else if Ascii.eqb d "'" then after +:+ getSubstitution matched before after caps rest'
            else
              match digitOf d with
              | Some n1 =>
                  let two :=
                    match rest' with
                    | String e rest'' =>
                        match digitOf e with
                        | Some n2 =>
                            if (10 * n1 + n2 <=? length caps)%nat
                            then match capture caps (10 * n1 + n2) with
                                 | Some t => Some (t +:+ getSubstitution matched before after caps rest'')
                                 | None => Some (String c (String d (String e
                                             (getSubstitution matched before after caps rest''))))
                                 end
                            else None
                        | None => None
                        end
                    | "" => None
                    end in
                  match two with
                  | Some out => out
                  | None =>
                      match capture caps n1 with
                      | Some t => t +:+ getSubstitution matched before after caps rest'
                      | None => String c (String d (getSubstitution matched before after caps rest'))
                      end
                  end
              | None => String c (getSubstitution matched before after caps rest)
              end
        | "" => String c ""
        end
      else String c (getSubstitution matched before after caps rest)
  end.

Section Replace.
(* the match starting at the head of the given suffix, if any *)
Variable matchAt : string -> option (nat * list (option string)).
Variable replacement : string.

(* One left-to-right pass over the input.  [rbefore] holds the characters
   already passed, newest first; [skip] counts the characters of the last
   match still to be passed over; [active] tells whether a match may still
   be replaced (always under the g flag, until the first match otherwise).
   After an empty match the next character is copied and the scan moves on
   by one. *)
Fixpoint replaceFrom (global : bool) (rbefore s : string) (skip : nat) (active : bool)
  : string :=
  match skip with
  | S skip' =>
      match s with
      | String c s' => replaceFrom global (String c rbefore) s' skip' active
      | "" => ""
      end
  | O =>
      match (if active then matchAt s else None) with
      | Some (n, caps) =>
          let out :=
            getSubstitution (Str.take n s) (Str.rev_onto rbefore "") (Str.drop n s) caps
              replacement in
          match s with
          | String c s' =>
              match n with
              | O => out +:+ String c (replaceFrom global (String c rbefore) s' O global)
              | S n' => out +:+ replaceFrom global (String c rbefore) s' n' global
              end
          | "" => out
          end
      | None =>
          match s with
          | String c s' => String c (replaceFrom global (String c rbefore) s' O active)
          | "" => ""
          end
      end
  end.
End Replace.

(* s.replace(/r/, replacement) and s.replace(/r/g, replacement) *)
Definition replaceRegExp (r : RegExp.regex) (global : bool) (replacement s : string) : string :=
  replaceFrom (RegExp.matchAt r) replacement global "" s 0 true.

(* s.replace(search, replacement) with a string pattern: first occurrence only *)
Definition replaceString (search replacement s : string) : string :=
  replaceFrom
    (fun t => if Str.startsWith search t then Some (String.length search, []) else None)
    replacement false "" s 0 true.

(** ** The shared configuration store (context/ConfigContext.tsx) *)

Module ConfigContext.
(* const [configs, setConfigs] = useState<Record<string, any>>({}) *)
Definition initial : gmap string any := ∅.

(* applyConfig: setConfigs(prev => ({ ...prev, [stepId]: config })) *)
Definition applyConfig (stepId : string) (config : any) (prev : gmap string any)
  : gmap string any :=
  <[stepId := config]> prev.

(* The store is a plain object: a name it does not hold itself is looked
   up in Object.prototype, whose string-keyed properties are these twelve,
   __proto__ giving the prototype and the others a function. *)
Definition inherited (p : string) : option native :=
  if String.eqb p "__proto__" then Some ObjectPrototype
  else if String.eqb p "constructor" then Some (BuiltinFunction "Object")
  else if existsb (String.eqb p)
            [ "toString"; "toLocaleString"; "valueOf"; "hasOwnProperty";
              "isPrototypeOf"; "propertyIsEnumerable";
              "__defineGetter__"; "__defineSetter__";
              "__lookupGetter__"; "__lookupSetter__" ]
  then Some (BuiltinFunction p)
  else None.

(* configs[stepId]: the own property, else the inherited one, else undefined *)
Definition read (configs : gmap string any) (stepId : string) : any :=
  default (from_option VNative VUndefined (inherited stepId)) (configs !! stepId).

(* getConfig: return configs[stepId] || {} *)
Definition getConfig (configs : gmap string any) (stepId : string) : any :=
  or_else (read configs stepId) (VObj ∅).
End ConfigContext.
(** ** Components: state setters, calls on props and context, effects *)

(* what a handler asks of its props and of the context *)
Inductive call : Type :=
| ApplyConfig (stepId : string) (config : any)    (* applyConfig(stepId, config) *)
| GoToNextStep                                       (* goToNextStep() *)
| Toast (title description : string).                (* toast({ title, description }) *)

(* the trace of a handler: state setters of the component, calls, and a
   TypeError that ends the handler *)
Inductive action (setter : Type) : Type :=
| Set_ (s : setter)
| Call (c : call)
| Throw.
Arguments Set_ {setter} s.
Arguments Call {setter} c.
Arguments Throw {setter}.

(* A component with one change-tracking effect: [reduce] applies a state
   setter; [invalidates st s] tells whether setter [s], issued in the render
   that shows [st], changes a dependency of the effect (Object.is on the
   value set against the rendered one); [effect] is the body of the effect. *)
Class Component (state setter : Type) : Type := {
  reduce : setter -> state -> state;
  invalidates : state -> setter -> bool;
  effect : list setter
}.

Section Render.
Context {state setter : Type} `{Component state setter}.

Definition settle (st : state) (a : action setter) : state :=
  match a with
  | Set_ s => reduce s st
  | Call _ | Throw => st
  end.

Definition touches (st : state) (a : action setter) : bool :=
  match a with
  | Set_ s => invalidates st s
  | Call _ | Throw => false
  end.

Definition runEffect (st : state) : state :=
  fold_left (fun s x => reduce x s) effect st.

(* the state shown after the handler's setters are applied and, when a
   dependency changed, the effect has run *)
Definition commit (st : state) (trace : list (action setter)) : state :=
  let st' := fold_left settle trace st in
  if existsb (touches st) trace then runEffect st' else st'.

(* the calls of a trace, in order *)
Definition calls (trace : list (action setter)) : list call :=
  omap (fun a => match a with Call c => Some c | _ => None end) trace.

Definition applies (trace : list (action setter)) : list (string * any) :=
  omap (fun a => match a with Call (ApplyConfig i c) => Some (i, c) | _ => None end) trace.
End Render.

(* Object.is of a rendered slot against the value set.  Primitives compare
   by content.  An array or an object compares by identity: the handlers
   never build one for a slot compared here, they can only hand a slot its
   own rendered value back, which is the same object.  A built-in is the
   one object of its name. *)
Definition sameValue (rendered set : any) : bool :=
  match rendered, set with
  | VUndefined, VUndefined | VNull, VNull => true
  | VBool a, VBool b => Bool.eqb a b
  | VStr a, VStr b => String.eqb a b
  | VArr _, VArr _ | VObj _, VObj _ => true
  | VNative a, VNative b => native_eqb a b
  | _, _ => false
  end.

(* v.replace(...) on a value: a TypeError unless [v] is a string *)
Definition replaceOn {setter} (v : any) (f : string -> string)
    (k : string -> list (action setter)) : list (action setter) :=
  match v with
  | VStr s => k (f s)
  | _ => [Throw]
  end.

(* v.includes(needle) on a value: strings and arrays have the method *)
Definition includesOn {setter} (v : any) (needle : string)
    (k : bool -> list (action setter)) : list (action setter) :=
  match v with
  | VStr s => k (Str.includes needle s)
  | VArr items =>
      k (existsb (fun x => match x with VStr t => String.eqb t needle | _ => false end) items)
  | _ => [Throw]
  end.

(** ** The wizard shell (pages/Index.tsx, components/Sidebar.tsx) *)

Module Index.
Record StepItem : Type := { name : string; id : Z }.

(* Sidebar: the navigation buttons *)
Definition steps : list StepItem := [
  {| name := "Overview"; id := 0 |};
  {| name := "Repository Setup"; id := 1 |};
  {| name := "Jenkinsfile"; id := 2 |};
  {| name := "Dockerfile"; id := 3 |};
  {| name := "Kubernetes Manifests"; id := 4 |};
  {| name := "Deployment Config"; id := 5 |};
  {| name := "Monitoring Setup"; id := 6 |};
  {| name := "Export Project"; id := 7 |};
  {| name := "Settings"; id := 8 |}
].

(* const [activeStep, setActiveStep] = useState(0) *)
Definition initial : Z := 0.

(* setActiveStep((prev) => Math.min(prev + 1, 8)) *)
Definition handleNextStep (prev : Z) : Z := Z.min (prev + 1) 8.

(* what the user can do to the shell: press a step's next button, or
   click the n-th navigation button of the sidebar *)
Inductive event : Type :=
| Next
| Navigate (button : nat).

Definition step (activeStep : Z) (e : event) : Z :=
  match e with
  | Next => handleNextStep activeStep
  | Navigate button =>
      match steps !! button with
      | Some item => id item          (* onClick={() => setActiveStep(step.id)} *)
      | None => activeStep            (* no such button *)
      end
  end.

Definition run (es : list event) : Z := fold_left step es initial.

(* the step component rendered for an index *)
Inductive view : Type :=
| Overview | RepositorySetup | JenkinsfileSetup | DockerfileSetup | KubernetesSetup
| DeploymentConfig | MonitoringSetup | ExportProject | Settings.

Definition render (activeStep : Z) : option view :=
  match activeStep with
  | 0 => Some Overview
  | 1 => Some RepositorySetup
  | 2 => Some JenkinsfileSetup
  | 3 => Some DockerfileSetup
  | 4 => Some KubernetesSetup
  | 5 => Some DeploymentConfig
  | 6 => Some MonitoringSetup
  | 7 => Some ExportProject
  | 8 => Some Settings
  | _ => None
  end%Z.
End Index.

(* the store and the step index, and a call's effect on them *)
Record world : Type := { configs : gmap string any; activeStep : Z }.

Definition perform (w : world) (c : call) : world :=
  match c with
  | ApplyConfig stepId config =>
      {| configs := ConfigContext.applyConfig stepId config (configs w);
         activeStep := activeStep w |}
  | GoToNextStep =>
      {| configs := configs w; activeStep := Index.handleNextStep (activeStep w) |}
  | Toast _ _ => w
  end.

Definition performAll (w : world) (cs : list call) : world := fold_left perform cs w.

(** ** Repository step (components/steps/RepositorySetup.tsx) *)

Module RepositorySetup.
Record state : Type := { repoConfig : any }.

Inductive setter : Type :=
| SetRepoConfig (f : any -> any).

#[global] Instance component : Component state setter := {
  reduce s st := match s with SetRepoConfig f => {| repoConfig := f (repoConfig st) |} end;
  invalidates _ _ := false;
  effect := []
}.

Definition init : state :=
  {| repoConfig := obj [
       ("repoUrl", VStr "https://github.com/yourusername/go-microservice.git");
       ("branch", VStr "main");
       ("credentials", VStr "jenkins-git-credentials");
       ("jenkinsUrl", VStr "http://jenkins.example.com:8080");
       ("jenkinsCredentials", VStr "jenkins-admin-credentials") ] |}.

Definition handleChange (name value : string) : list (action setter) :=
  [Set_ (SetRepoConfig (fun prev => withProp prev name (VStr value)))].

(* <Button onClick={goToNextStep}> *)
Definition next : list (action setter) := [Call GoToNextStep].

(* everything the step's view lets the user do *)
Inductive input : Type :=
| Change (name value : string)
| Continue.

Definition handle (i : input) : list (action setter) :=
  match i with
  | Change name value => handleChange name value
  | Continue => next
  end.
End RepositorySetup.

(** ** Jenkinsfile step (components/steps/JenkinsfileSetup.tsx) *)

Module JenkinsfileSetup.
Import Str RegExp.

Definition defaultJenkinsfile : string :=
  Str.unlines [
    "pipeline {";
    "  agent any";
    "  ";
    "  environment {";
    "    DOCKER_USERNAME = 'DOCKER_USERNAME'";
    "    IMAGE_NAME = 'go-microservice'";
    "    IMAGE_TAG = " +:+ q +:+ "${BUILD_NUMBER}" +:+ q;
    "    KUBECONFIG = credentials('kubeconfig')";
    "  }";
    "  ";
    "  stages {";
    "    stage('Checkout') {";
    "      steps {";
    "        checkout scm";
    "      }";
    "    }";
    "    ";
    "    stage('Build') {";
    "      steps {";
    "        sh 'go build -o app'";
    "        sh 'go test ./...'";
    "      }";
    "    }";
    "    ";
    "    stage('Docker Build') {";
    "      steps {";
    "        withCredentials([string(credentialsId: 'docker-credentials', variable: 'DOCKER_PASSWORD')]) {";
    "          sh " +:+ q +:+ "docker login -u $DOCKER_USERNAME -p ${DOCKER_PASSWORD}" +:+ q;
    "          sh " +:+ q +:+ "docker build -t $DOCKER_USERNAME/$IMAGE_NAME:${IMAGE_TAG} ." +:+ q;
    "          sh " +:+ q +:+ "docker push $DOCKER_USERNAME/$IMAGE_NAME:${IMAGE_TAG}" +:+ q;
    "        }";
    "      }";
    "    }";
    "    ";
    "    stage('Deploy to Kubernetes') {";
    "      steps {";
    "        sh " +:+ q +:+ "envsubst < k8s/deployment.yaml | kubectl apply -f -" +:+ q;
    "        sh " +:+ q +:+ "kubectl apply -f k8s/service.yaml" +:+ q;
    "        sh " +:+ q +:+ "kubectl apply -f k8s/configmap.yaml" +:+ q;
    "        sh " +:+ q +:+ "kubectl rollout status deployment/$IMAGE_NAME" +:+ q;
    "      }";
    "    }";
    "    ";
    "    stage('Health Check') {";
    "      steps {";
    "        sh 'sleep 10' // Wait for deployment to stabilize";
    "        sh 'curl -f $(kubectl get svc $IMAGE_NAME -o jsonpath=" +:+ q +:+ "{.status.loadBalancer.ingress[0].ip}" +:+ q +:+ ")/health || exit 1'";
    "      }";
    "    }";
    "    ";
    "    stage('Setup Monitoring') {";
    "      steps {";
    "        sh " +:+ q +:+ "kubectl apply -f k8s/prometheus.yaml" +:+ q;
    "        sh " +:+ q +:+ "kubectl apply -f k8s/grafana.yaml" +:+ q;
    "      }";
    "    }";
    "  }";
    "  ";
    "  post {";
    "    success {";
    "      echo 'Pipeline completed successfully!'";
    "    }";
    "    failure {";
    "      echo 'Pipeline failed!'";
    "    }";
    "  }";
    "}"
  ].

Definition defaultVars : any := obj [
  ("dockerUsername", VStr "DOCKER_USERNAME");
  ("imageName", VStr "go-microservice");
  ("kubeConfigId", VStr "kubeconfig");
  ("dockerCredentialsId", VStr "docker-credentials") ].

Record state : Type := {
  jenkinsfile : any;
  vars : any;
  hasUnsavedChanges : bool
}.

Inductive setter : Type :=
| SetJenkinsfile (v : any)
| SetVars (f : any -> any)
| SetHasUnsavedChanges (b : bool).

(* useEffect(() => { setHasUnsavedChanges(true); }, [jenkinsfile, vars]) *)
#[global] Instance component : Component state setter := {
  reduce s st :=
    match s with
    | SetJenkinsfile v =>
        {| jenkinsfile := v; vars := vars st; hasUnsavedChanges := hasUnsavedChanges st |}
    | SetVars f =>
        {| jenkinsfile := jenkinsfile st; vars := f (vars st);
           hasUnsavedChanges := hasUnsavedChanges st |}
    | SetHasUnsavedChanges b =>
        {| jenkinsfile := jenkinsfile st; vars := vars st; hasUnsavedChanges := b |}
    end;
  invalidates st s :=
    match s with
    | SetJenkinsfile v => negb (sameValue (jenkinsfile st) v)
    | SetVars _ => true
    | SetHasUnsavedChanges _ => false
    end;
  effect := [SetHasUnsavedChanges true]
}.

(* the first render: the useState initialisers *)
Definition init (configs : gmap string any) : state :=
  let savedConfig := ConfigContext.getConfig configs "jenkinsfile" in
  {| jenkinsfile := or_else (getProp savedConfig "jenkinsfile") (VStr defaultJenkinsfile);
     vars := or_else (getProp savedConfig "vars") defaultVars;
     hasUnsavedChanges := false |}.

(* the step as shown after mounting: first render, then the effect *)
Definition mount (configs : gmap string any) : state := runEffect (init configs).

(* the branches of handleVarChange, run on the text [updatedJenkinsfile]
   starts from *)
Definition substitute (name value : string) (updatedJenkinsfile : string) : string :=
  if String.eqb name "dockerUsername" then
    replaceString "DOCKER_USERNAME" value updatedJenkinsfile
  else if String.eqb name "imageName" then
    let updatedJenkinsfile :=
      replaceRegExp (lit "IMAGE_NAME = 'go-microservice'") true
        ("IMAGE_NAME = '" +:+ value +:+ "'") updatedJenkinsfile in
    replaceRegExp (lit "deployment/go-microservice") true ("deployment/" +:+ value)
      updatedJenkinsfile
  else if String.eqb name "kubeConfigId" then
    replaceRegExp (lit "credentials('kubeconfig')") true
      ("credentials('" +:+ value +:+ "')") updatedJenkinsfile
  else if String.eqb name "dockerCredentialsId" then
    replaceRegExp (lit "credentials('docker-credentials')") true
      ("credentials('" +:+ value +:+ "')") updatedJenkinsfile
  else updatedJenkinsfile.

Definition handleVarChange (name value : string) (st : state) : list (action setter) :=
  (* let updatedJenkinsfile = defaultJenkinsfile; ... *)
  let updatedJenkinsfile := substitute name value defaultJenkinsfile in
  [ Set_ (SetVars (fun prev => withProp prev name (VStr value)));
    Set_ (SetJenkinsfile (VStr updatedJenkinsfile)) ].

(* <CodeEditor code={jenkinsfile} onCodeChange={setJenkinsfile} /> *)
Definition handleCodeChange (code : string) (st : state) : list (action setter) :=
  [ Set_ (SetJenkinsfile (VStr code)) ].

Definition currentConfig (st : state) : any :=
  obj [ ("jenkinsfile", jenkinsfile st); ("vars", vars st) ].

Definition handleApplyChanges (st : state) : list (action setter) :=
  [ Call (ApplyConfig "jenkinsfile" (currentConfig st));
    Set_ (SetHasUnsavedChanges false) ].

Definition handleNextStep (st : state) : list (action setter) :=
  (if hasUnsavedChanges st then handleApplyChanges st else []) ++ [ Call GoToNextStep ].
End JenkinsfileSetup.

(** ** Dockerfile step (components/steps/DockerfileSetup.tsx) *)

Module DockerfileSetup.
Import Str RegExp.

Definition defaultDockerfile : string :=
  Str.unlines [
    "# Build stage";
    "FROM golang:1.18-alpine AS builder";
    "";
    "WORKDIR /app";
    "";
    "# Copy go mod and sum files";
    "COPY go.mod go.sum ./";
    "";
    "# Download dependencies";
    "RUN go mod download";
    "";
    "# Copy source code";
    "COPY . .";
    "";
    "# Build the application";
    "RUN CGO_ENABLED=0 GOOS=linux go build -a -installsuffix cgo -o main ./cmd/api";
    "";
    "# Final stage";
    "FROM alpine:3.16";
    "";
    "WORKDIR /app";
    "";
    "# Install runtime dependencies";
    "RUN apk --no-cache add ca-certificates";
    "";
    "# Copy binary from build stage";
    "COPY --from=builder /app/main .";
    "";
    "# Copy configuration files";
    "COPY --from=builder /app/config/config.yaml ./config/";
    "";
    "# Expose the application port";
    "EXPOSE 8080";
    "";
    "# Set the entry point";
    "CMD [" +:+ q +:+ "./main" +:+ q +:+ "]"
  ].

Definition defaultVars : any := obj [
  ("goVersion", VStr "1.18-alpine");
  ("baseImage", VStr "alpine:3.16");
  ("port", VStr "8080");
  ("mainPath", VStr "./cmd/api") ].

Record state : Type := {
  dockerfile : any;
  vars : any;
  hasUnsavedChanges : bool
}.

Inductive setter : Type :=
| SetDockerfile (v : any)
| SetVars (f : any -> any)
| SetHasUnsavedChanges (b : bool).

(* useEffect(() => { setHasUnsavedChanges(true); }, [dockerfile, vars]) *)
#[global] Instance component : Component state setter := {
  reduce s st :=
    match s with
    | SetDockerfile v =>
        {| dockerfile := v; vars := vars st; hasUnsavedChanges := hasUnsavedChanges st |}
    | SetVars f =>
        {| dockerfile := dockerfile st; vars := f (vars st);
           hasUnsavedChanges := hasUnsavedChanges st |}
    | SetHasUnsavedChanges b =>
        {| dockerfile := dockerfile st; vars := vars st; hasUnsavedChanges := b |}
    end;
  invalidates st s :=
    match s with
    | SetDockerfile v => negb (sameValue (dockerfile st) v)
    | SetVars _ => true
    | SetHasUnsavedChanges _ => false
    end;
  effect := [SetHasUnsavedChanges true]
}.

Definition init (configs : gmap string any) : state :=
  let savedConfig := ConfigContext.getConfig configs "dockerfile" in
  {| dockerfile := or_else (getProp savedConfig "dockerfile") (VStr defaultDockerfile);
     vars := or_else (getProp savedConfig "vars") defaultVars;
     hasUnsavedChanges := false |}.

Definition mount (configs : gmap string any) : state := runEffect (init configs).

(* the branches of handleVarChange, run on the text [updatedDockerfile]
   starts from *)
Definition substitute (name value : string) (updatedDockerfile : string) : string :=
  if String.eqb name "goVersion" then
    replaceRegExp (seqs [lit "golang:1"; Dot; lit "18-alpine"]) true
      ("golang:" +:+ value) updatedDockerfile
  else if String.eqb name "baseImage" then
    replaceRegExp (seqs [lit "alpine:3"; Dot; lit "16"]) true value updatedDockerfile
  else if String.eqb name "port" then
    replaceRegExp (lit "EXPOSE 8080") true ("EXPOSE " +:+ value) updatedDockerfile
  else if String.eqb name "mainPath" then
    replaceRegExp (lit "./cmd/api") true value updatedDockerfile
  else updatedDockerfile.

Definition handleVarChange (name value : string) (st : state) : list (action setter) :=
  (* let updatedDockerfile = defaultDockerfile; ... *)
  let updatedDockerfile := substitute name value defaultDockerfile in
  [ Set_ (SetVars (fun prev => withProp prev name (VStr value)));
    Set_ (SetDockerfile (VStr updatedDockerfile)) ].

Definition handleInputChange (name value : string) (st : state) : list (action setter) :=
  handleVarChange name value st.

(* <CodeEditor code={dockerfile} onCodeChange={setDockerfile} /> *)
Definition handleCodeChange (code : string) (st : state) : list (action setter) :=
  [ Set_ (SetDockerfile (VStr code)) ].

Definition currentConfig (st : state) : any :=
  obj [ ("dockerfile", dockerfile st); ("vars", vars st) ].

Definition handleApplyChanges (st : state) : list (action setter) :=
  [ Call (ApplyConfig "dockerfile" (currentConfig st));
    Set_ (SetHasUnsavedChanges false) ].

Definition handleNextStep (st : state) : list (action setter) :=
  (if hasUnsavedChanges st then handleApplyChanges st else []) ++ [ Call GoToNextStep ].
End DockerfileSetup.

(** ** Kubernetes step (components/steps/KubernetesSetup.tsx) *)

Module KubernetesSetup.
Import Str RegExp.

Definition defaultDeploymentYaml : string :=
  Str.unlines [
    "apiVersion: apps/v1";
    "kind: Deployment";
    "metadata:";
    "  name: go-microservice";
    "  namespace: default";
    "  labels:";
    "    app: go-microservice";
    "spec:";
    "  replicas: 2";
    "  selector:";
    "    matchLabels:";
    "      app: go-microservice";
    "  strategy:";
    "    type: RollingUpdate";
    "    rollingUpdate:";
    "      maxSurge: 1";
    "      maxUnavailable: 0";
    "  template:";
    "    metadata:";
    "      labels:";
    "        app: go-microservice";
    "    spec:";
    "      containers:";
    "      - name: go-microservice";
    "        image: DOCKER_USERNAME/go-microservice:latest";
    "        imagePullPolicy: Always";
    "        ports:";
    "        - containerPort: 8080";
    "        resources:";
    "          requests:";
    "            cpu: 100m";
    "            memory: 128Mi";
    "          limits:";
    "            cpu: 300m";
    "            memory: 256Mi";
    "        env:";
    "        - name: REDIS_HOST";
    "          value: redis";
    "        - name: REDIS_PORT";
    "          value: " +:+ q +:+ "6379" +:+ q;
    "        livenessProbe:";
    "          httpGet:";
    "            path: /health";
    "            port: 8080";
    "          initialDelaySeconds: 10";
    "          periodSeconds: 10";
    "        readinessProbe:";
    "          httpGet:";
    "            path: /ready";
    "            port: 8080";
    "          initialDelaySeconds: 5";
    "          periodSeconds: 5"
  ].

Definition defaultServiceYaml : string :=
  Str.unlines [
    "apiVersion: v1";
    "kind: Service";
    "metadata:";
    "  name: go-microservice";
    "  namespace: default";
    "  labels:";
    "    app: go-microservice";
    "spec:";
    "  type: ClusterIP";
    "  ports:";
    "  - port: 80";
    "    targetPort: 8080";
    "    protocol: TCP";
    "    name: http";
    "  selector:";
    "    app: go-microservice"
  ].

Definition defaultRedisYaml : string :=
  Str.unlines [
    "apiVersion: apps/v1";
    "kind: Deployment";
    "metadata:";
    "  name: redis";
    "  namespace: default";
    "  labels:";
    "    app: redis";
    "spec:";
    "  replicas: 1";
    "  selector:";
    "    matchLabels:";
    "      app: redis";
    "  template:";
    "    metadata:";
    "      labels:";
    "        app: redis";
    "    spec:";
    "      containers:";
    "      - name: redis";
    "        image: redis:6.2-alpine";
    "        ports:";
    "        - containerPort: 6379";
    "        resources:";
    "          requests:";
    "            cpu: 100m";
    "            memory: 128Mi";
    "          limits:";
    "            cpu: 200m";
    "            memory: 256Mi";
    "---";
    "apiVersion: v1";
    "kind: Service";
    "metadata:";
    "  name: redis";
    "  namespace: default";
    "  labels:";
    "    app: redis";
    "spec:";
    "  type: ClusterIP";
    "  ports:";
    "  - port: 6379";
    "    targetPort: 6379";
    "    protocol: TCP";
    "  selector:";
    "    app: redis"
  ].

Definition defaultConfigMapYaml : string :=
  Str.unlines [
    "apiVersion: v1";
    "kind: ConfigMap";
    "metadata:";
    "  name: go-microservice-config";
    "  namespace: default";
    "data:";
    "  config.yaml: |";
    "    server:";
    "      port: 8080";
    "      timeout: 30s";
    "    ";
    "    redis:";
    "      host: redis";
    "      port: 6379";
    "      db: 0";
    "    ";
    "    logging:";
    "      level: info";
    "      format: json"
  ].

Definition defaultPersistentVolumeYaml : string :=
  Str.unlines [
    "apiVersion: v1";
    "kind: PersistentVolume";
    "metadata:";
    "  name: APP_NAME-pv";
    "  namespace: NAMESPACE";
    "  labels:";
    "    app: APP_NAME";
    "spec:";
    "  capacity:";
    "    storage: 5Gi";
    "  accessModes:";
    "    - ReadWriteOnce";
    "  persistentVolumeReclaimPolicy: Retain";
    "  storageClassName: STORAGE_CLASS";
    "  CLOUD_PROVIDER_SPECIFIC";
    ""
  ].

Definition defaultPersistentVolumeClaimYaml : string :=
  Str.unlines [
    "apiVersion: v1";
    "kind: PersistentVolumeClaim";
    "metadata:";
    "  name: APP_NAME-pvc";
    "  namespace: NAMESPACE";
    "  labels:";
    "    app: APP_NAME";
    "spec:";
    "  accessModes:";
    "    - ReadWriteOnce";
    "  storageClassName: STORAGE_CLASS";
    "  resources:";
    "    requests:";
    "      storage: 5Gi";
    ""
  ].

Definition cloudProviderConfigs_aws : string :=
  Str.unlines [
    "  awsElasticBlockStore:";
    "    volumeID: vol-XXXX # Replace with your EBS volume ID";
    "    fsType: ext4"
  ].

Definition cloudProviderConfigs_gcp : string :=
  Str.unlines [
    "  gcePersistentDisk:";
    "    pdName: DISK_NAME # Replace with your GCP disk name";
    "    fsType: ext4"
  ].

Definition cloudProviderConfigs_azure : string :=
  Str.unlines [
    "  azureDisk:";
    "    diskName: DISK_NAME # Replace with your Azure disk name";
    "    diskURI: https://STORAGE_ACCOUNT.blob.core.windows.net/vhds/DISK_NAME.vhd";
    "    kind: Managed";
    "    fsType: ext4"
  ].

Definition cloudProviderConfigs_onprem : string :=
  Str.unlines [
    "  hostPath:";
    "    path: PATH_VALUE";
    "    type: DirectoryOrCreate"
  ].

Definition cloudProviderConfigs : gmap string any :=
  list_to_map [
    ("aws", VStr cloudProviderConfigs_aws);
    ("gcp", VStr cloudProviderConfigs_gcp);
    ("azure", VStr cloudProviderConfigs_azure);
    ("onprem", VStr cloudProviderConfigs_onprem) ].

Definition storageClasses : gmap string (list string) :=
  list_to_map [
    ("aws", ["gp2"; "gp3"; "io1"; "io2"; "sc1"; "st1"; "standard"]);
    ("gcp", ["standard"; "premium-rwo"; "balanced"; "ssd"]);
    ("azure", ["default"; "managed-premium"; "managed-csi"; "managed-csi-premium"]);
    ("onprem", ["local-storage"; "nfs"; "local-path"; "custom"]) ].

Definition defaultVars : any := obj [
  ("namespace", VStr "default");
  ("replicas", VStr "2");
  ("serviceType", VStr "ClusterIP");
  ("dockerUsername", VStr "DOCKER_USERNAME");
  ("appName", VStr "go-microservice");
  ("redisVersion", VStr "6.2-alpine") ].

Record state : Type := {
  deploymentYaml : any;
  serviceYaml : any;
  redisYaml : any;
  configMapYaml : any;
  persistentVolumeYaml : any;
  persistentVolumeClaimYaml : any;
  enablePersistence : any;
  cloudProvider : any;
  storageClass : any;
  diskSize : any;
  volumePath : any;
  vars : any;
  hasUnsavedChanges : bool
}.

Inductive setter : Type :=
| SetDeploymentYaml (v : any)
| SetServiceYaml (v : any)
| SetRedisYaml (v : any)
| SetConfigMapYaml (v : any)
| SetPersistentVolumeYaml (v : any)
| SetPersistentVolumeClaimYaml (v : any)
| SetEnablePersistence (v : any)
| SetCloudProvider (v : any)
| SetStorageClass (v : any)
| SetDiskSize (v : any)
| SetVolumePath (v : any)
| SetVars (f : any -> any)
| SetHasUnsavedChanges (b : bool).

Definition reduce_ (s : setter) (st : state) : state :=
  match s with
  | SetDeploymentYaml v =>
      {| deploymentYaml := v; serviceYaml := serviceYaml st; redisYaml := redisYaml st;
         configMapYaml := configMapYaml st; persistentVolumeYaml := persistentVolumeYaml st;
         persistentVolumeClaimYaml := persistentVolumeClaimYaml st;
         enablePersistence := enablePersistence st; cloudProvider := cloudProvider st;
         storageClass := storageClass st; diskSize := diskSize st;
         volumePath := volumePath st; vars := vars st;
         hasUnsavedChanges := hasUnsavedChanges st |}
  | SetServiceYaml v =>
      {| deploymentYaml := deploymentYaml st; serviceYaml := v; redisYaml := redisYaml st;
         configMapYaml := configMapYaml st; persistentVolumeYaml := persistentVolumeYaml st;
         persistentVolumeClaimYaml := persistentVolumeClaimYaml st;
         enablePersistence := enablePersistence st; cloudProvider := cloudProvider st;
         storageClass := storageClass st; diskSize := diskSize st;
         volumePath := volumePath st; vars := vars st;
         hasUnsavedChanges := hasUnsavedChanges st |}
  | SetRedisYaml v =>
      {| deploymentYaml := deploymentYaml st; serviceYaml := serviceYaml st; redisYaml := v;
         configMapYaml := configMapYaml st; persistentVolumeYaml := persistentVolumeYaml st;
         persistentVolumeClaimYaml := persistentVolumeClaimYaml st;
         enablePersistence := enablePersistence st; cloudProvider := cloudProvider st;
         storageClass := storageClass st; diskSize := diskSize st;
         volumePath := volumePath st; vars := vars st;
         hasUnsavedChanges := hasUnsavedChanges st |}
  | SetConfigMapYaml v =>
      {| deploymentYaml := deploymentYaml st; serviceYaml := serviceYaml st;
         redisYaml := redisYaml st; configMapYaml := v;
         persistentVolumeYaml := persistentVolumeYaml st;
         persistentVolumeClaimYaml := persistentVolumeClaimYaml st;
         enablePersistence := enablePersistence st; cloudProvider := cloudProvider st;
         storageClass := storageClass st; diskSize := diskSize st;
         volumePath := volumePath st; vars := vars st;
         hasUnsavedChanges := hasUnsavedChanges st |}
  | SetPersistentVolumeYaml v =>
      {| deploymentYaml := deploymentYaml st; serviceYaml := serviceYaml st;
         redisYaml := redisYaml st; configMapYaml := configMapYaml st;
         persistentVolumeYaml := v;
         persistentVolumeClaimYaml := persistentVolumeClaimYaml st;
         enablePersistence := enablePersistence st; cloudProvider := cloudProvider st;
         storageClass := storageClass st; diskSize := diskSize st;
         volumePath := volumePath st; vars := vars st;
         hasUnsavedChanges := hasUnsavedChanges st |}
  | SetPersistentVolumeClaimYaml v =>
      {| deploymentYaml := deploymentYaml st; serviceYaml := serviceYaml st;
         redisYaml := redisYaml st; configMapYaml := configMapYaml st;
         persistentVolumeYaml := persistentVolumeYaml st; persistentVolumeClaimYaml := v;
         enablePersistence := enablePersistence st; cloudProvider := cloudProvider st;
         storageClass := storageClass st; diskSize := diskSize st;
         volumePath := volumePath st; vars := vars st;
         hasUnsavedChanges := hasUnsavedChanges st |}
  | SetEnablePersistence v =>
      {| deploymentYaml := deploymentYaml st; serviceYaml := serviceYaml st;
         redisYaml := redisYaml st; configMapYaml := configMapYaml st;
         persistentVolumeYaml := persistentVolumeYaml st;
         persistentVolumeClaimYaml := persistentVolumeClaimYaml st; enablePersistence := v;
         cloudProvider := cloudProvider st; storageClass := storageClass st;
         diskSize := diskSize st; volumePath := volumePath st; vars := vars st;
         hasUnsavedChanges := hasUnsavedChanges st |}
  | SetCloudProvider v =>
      {| deploymentYaml := deploymentYaml st; serviceYaml := serviceYaml st;
         redisYaml := redisYaml st; configMapYaml := configMapYaml st;
         persistentVolumeYaml := persistentVolumeYaml st;
         persistentVolumeClaimYaml := persistentVolumeClaimYaml st;
         enablePersistence := enablePersistence st; cloudProvider := v;
         storageClass := storageClass st; diskSize := diskSize st;
         volumePath := volumePath st; vars := vars st;
         hasUnsavedChanges := hasUnsavedChanges st |}
  | SetStorageClass v =>
      {| deploymentYaml := deploymentYaml st; serviceYaml := serviceYaml st;
         redisYaml := redisYaml st; configMapYaml := configMapYaml st;
         persistentVolumeYaml := persistentVolumeYaml st;
         persistentVolumeClaimYaml := persistentVolumeClaimYaml st;
         enablePersistence := enablePersistence st; cloudProvider := cloudProvider st;
         storageClass := v; diskSize := diskSize st; volumePath := volumePath st;
         vars := vars st; hasUnsavedChanges := hasUnsavedChanges st |}
  | SetDiskSize v =>
      {| deploymentYaml := deploymentYaml st; serviceYaml := serviceYaml st;
         redisYaml := redisYaml st; configMapYaml := configMapYaml st;
         persistentVolumeYaml := persistentVolumeYaml st;
         persistentVolumeClaimYaml := persistentVolumeClaimYaml st;
         enablePersistence := enablePersistence st; cloudProvider := cloudProvider st;
         storageClass := storageClass st; diskSize := v; volumePath := volumePath st;
         vars := vars st; hasUnsavedChanges := hasUnsavedChanges st |}
  | SetVolumePath v =>
      {| deploymentYaml := deploymentYaml st; serviceYaml := serviceYaml st;
         redisYaml := redisYaml st; configMapYaml := configMapYaml st;
         persistentVolumeYaml := persistentVolumeYaml st;
         persistentVolumeClaimYaml := persistentVolumeClaimYaml st;
         enablePersistence := enablePersistence st; cloudProvider := cloudProvider st;
         storageClass := storageClass st; diskSize := diskSize st; volumePath := v;
         vars := vars st; hasUnsavedChanges := hasUnsavedChanges st |}
  | SetVars f =>
      {| deploymentYaml := deploymentYaml st; serviceYaml := serviceYaml st;
         redisYaml := redisYaml st; configMapYaml := configMapYaml st;
         persistentVolumeYaml := persistentVolumeYaml st;
         persistentVolumeClaimYaml := persistentVolumeClaimYaml st;
         enablePersistence := enablePersistence st; cloudProvider := cloudProvider st;
         storageClass := storageClass st; diskSize := diskSize st;
         volumePath := volumePath st; vars := f (vars st);
         hasUnsavedChanges := hasUnsavedChanges st |}
  | SetHasUnsavedChanges b =>
      {| deploymentYaml := deploymentYaml st; serviceYaml := serviceYaml st;
         redisYaml := redisYaml st; configMapYaml := configMapYaml st;
         persistentVolumeYaml := persistentVolumeYaml st;
         persistentVolumeClaimYaml := persistentVolumeClaimYaml st;
         enablePersistence := enablePersistence st; cloudProvider := cloudProvider st;
         storageClass := storageClass st; diskSize := diskSize st;
         volumePath := volumePath st; vars := vars st; hasUnsavedChanges := b |}
  end.

Definition invalidates_ (st : state) (s : setter) : bool :=
  match s with
  | SetDeploymentYaml v => negb (sameValue (deploymentYaml st) v)
  | SetServiceYaml v => negb (sameValue (serviceYaml st) v)
  | SetRedisYaml v => negb (sameValue (redisYaml st) v)
  | SetConfigMapYaml v => negb (sameValue (configMapYaml st) v)
  | SetPersistentVolumeYaml v => negb (sameValue (persistentVolumeYaml st) v)
  | SetPersistentVolumeClaimYaml v => negb (sameValue (persistentVolumeClaimYaml st) v)
  | SetEnablePersistence v => negb (sameValue (enablePersistence st) v)
  | SetCloudProvider v => negb (sameValue (cloudProvider st) v)
  | SetStorageClass v => negb (sameValue (storageClass st) v)
  | SetDiskSize v => negb (sameValue (diskSize st) v)
  | SetVolumePath v => negb (sameValue (volumePath st) v)
  | SetVars _ => true
  | SetHasUnsavedChanges _ => false
  end.

(* useEffect(() => { setHasUnsavedChanges(true); }, [deploymentYaml, ..., vars]) *)
#[global] Instance component : Component state setter := {
  reduce := reduce_;
  invalidates := invalidates_;
  effect := [SetHasUnsavedChanges true]
}.

Definition init (configs : gmap string any) : state :=
  let savedConfig := ConfigContext.getConfig configs "kubernetes" in
  {| deploymentYaml := or_else (getProp savedConfig "deploymentYaml") (VStr defaultDeploymentYaml);
     serviceYaml := or_else (getProp savedConfig "serviceYaml") (VStr defaultServiceYaml);
     redisYaml := or_else (getProp savedConfig "redisYaml") (VStr defaultRedisYaml);
     configMapYaml := or_else (getProp savedConfig "configMapYaml") (VStr defaultConfigMapYaml);
     persistentVolumeYaml :=
       or_else (getProp savedConfig "persistentVolumeYaml") (VStr defaultPersistentVolumeYaml);
     persistentVolumeClaimYaml :=
       or_else (getProp savedConfig "persistentVolumeClaimYaml")
         (VStr defaultPersistentVolumeClaimYaml);
     enablePersistence := or_else (getProp savedConfig "enablePersistence") (VBool false);
     cloudProvider := or_else (getProp savedConfig "cloudProvider") (VStr "aws");
     storageClass := or_else (getProp savedConfig "storageClass") (VStr "gp2");
     diskSize := or_else (getProp savedConfig "diskSize") (VStr "5");
     volumePath := or_else (getProp savedConfig "volumePath") (VStr "/data");
     vars := or_else (getProp savedConfig "vars") defaultVars;
     hasUnsavedChanges := false |}.

Definition mount (configs : gmap string any) : state := runEffect (init configs).

(* x === 'onprem' *)
Definition isOnprem (x : any) : bool :=
  match x with VStr s => String.eqb s "onprem" | _ => false end.

Definition updatePersistenceYamls (namespace appName : any) (st : state)
  : list (action setter) :=
  let cloudConfig := default VUndefined (cloudProviderConfigs !! toString (cloudProvider st)) in
  let cloudConfig :=
    if isOnprem (cloudProvider st) && truthy (volumePath st) then
      VStr (replaceRegExp (lit "PATH_VALUE") true (toString (volumePath st))
              (toString cloudConfig))
    else cloudConfig in
  let updatedPV :=
    replaceRegExp (lit "DISK_NAME") true (toString appName +:+ "-disk")
      (replaceRegExp (lit "CLOUD_PROVIDER_SPECIFIC") true (toString cloudConfig)
         (replaceRegExp (lit "STORAGE_CLASS") true (toString (storageClass st))
            (replaceRegExp (lit "APP_NAME") true (toString appName)
               (replaceRegExp (lit "NAMESPACE") true (toString namespace)
                  defaultPersistentVolumeYaml)))) in
  let updatedPV :=
    replaceRegExp (lit "storage: 5Gi") true
      ("storage: " +:+ toString (diskSize st) +:+ "Gi") updatedPV in
  let updatedPVC :=
    replaceRegExp (lit "5Gi") true (toString (diskSize st) +:+ "Gi")
      (replaceRegExp (lit "STORAGE_CLASS") true (toString (storageClass st))
         (replaceRegExp (lit "APP_NAME") true (toString appName)
            (replaceRegExp (lit "NAMESPACE") true (toString namespace)
               defaultPersistentVolumeClaimYaml))) in
  [ Set_ (SetPersistentVolumeYaml (VStr updatedPV));
    Set_ (SetPersistentVolumeClaimYaml (VStr updatedPVC)) ].

(* name === key ? value : vars[key] *)
Definition pick (name value key : string) (st : state) : any :=
  if String.eqb name key then VStr value else getProp (vars st) key.

Definition handleVarChange (name value : string) (st : state) : list (action setter) :=
  let updatedDeploymentYaml :=
    replaceRegExp (lit "go-microservice") true (toString (pick name value "appName" st))
      (replaceRegExp (lit "DOCKER_USERNAME") true
         (toString (pick name value "dockerUsername" st))
         (replaceRegExp (lit "replicas: 2") true
            ("replicas: " +:+ toString (pick name value "replicas" st))
            (replaceRegExp (lit "namespace: default") true
               ("namespace: " +:+ toString (pick name value "namespace" st))
               defaultDeploymentYaml))) in
  let updatedServiceYaml :=
    replaceRegExp (lit "go-microservice") true (toString (pick name value "appName" st))
      (replaceRegExp (lit "type: ClusterIP") true
         ("type: " +:+ toString (pick name value "serviceType" st))
         (replaceRegExp (lit "namespace: default") true
            ("namespace: " +:+ toString (pick name value "namespace" st))
            defaultServiceYaml)) in
  let updatedRedisYaml :=
    replaceRegExp (seqs [lit "redis:6"; Dot; lit "2-alpine"]) true
      ("redis:" +:+ toString (pick name value "redisVersion" st))
      (replaceRegExp (lit "namespace: default") true
         ("namespace: " +:+ toString (pick name value "namespace" st))
         defaultRedisYaml) in
  let updatedConfigMapYaml :=
    replaceRegExp (lit "go-microservice-config") true
      (toString (pick name value "appName" st) +:+ "-config")
      (replaceRegExp (lit "namespace: default") true
         ("namespace: " +:+ toString (pick name value "namespace" st))
         defaultConfigMapYaml) in
  [ Set_ (SetVars (fun prev => withProp prev name (VStr value)));
    Set_ (SetDeploymentYaml (VStr updatedDeploymentYaml));
    Set_ (SetServiceYaml (VStr updatedServiceYaml));
    Set_ (SetRedisYaml (VStr updatedRedisYaml));
    Set_ (SetConfigMapYaml (VStr updatedConfigMapYaml)) ]
  ++ updatePersistenceYamls (pick name value "namespace" st) (pick name value "appName" st) st.

Definition handleInputChange (name value : string) (st : state) : list (action setter) :=
  handleVarChange name value st.

Definition handleCloudProviderChange (value : string) (st : state) : list (action setter) :=
  Set_ (SetCloudProvider (VStr value)) ::
  match storageClasses !! value with
  | Some classes =>
      (* storageClasses[value][0] *)
      Set_ (SetStorageClass (match classes with c :: _ => VStr c | [] => VUndefined end)) ::
      updatePersistenceYamls (getProp (vars st) "namespace") (getProp (vars st) "appName") st
  | None => [Throw]
  end.

Definition handleStorageClassChange (value : string) (st : state) : list (action setter) :=
  Set_ (SetStorageClass (VStr value)) ::
  updatePersistenceYamls (getProp (vars st) "namespace") (getProp (vars st) "appName") st.

(* /storage: \d+Gi/g *)
Definition storageGi : regex := seqs [lit "storage: "; Plus Digit; lit "Gi"].

Definition handleDiskSizeChange (newDiskSize : string) (st : state) : list (action setter) :=
  Set_ (SetDiskSize (VStr newDiskSize)) ::
  if truthy (persistentVolumeYaml st) && truthy (persistentVolumeClaimYaml st) then
    replaceOn (persistentVolumeYaml st)
      (replaceRegExp storageGi true ("storage: " +:+ newDiskSize +:+ "Gi"))
      (fun updatedPV =>
         Set_ (SetPersistentVolumeYaml (VStr updatedPV)) ::
         replaceOn (persistentVolumeClaimYaml st)
           (replaceRegExp storageGi true ("storage: " +:+ newDiskSize +:+ "Gi"))
           (fun updatedPVC => [ Set_ (SetPersistentVolumeClaimYaml (VStr updatedPVC)) ]))
  else
    updatePersistenceYamls (getProp (vars st) "namespace") (getProp (vars st) "appName") st.

(* /path: .*(\n|\r|$)/m *)
Definition pathLine : regex :=
  seqs [lit "path: "; Star true Dot; Group 0 (Alt (Chr nl) (Alt (Chr cr) Eol))].

Definition handleVolumePathChange (newPath : string) (st : state) : list (action setter) :=
  Set_ (SetVolumePath (VStr newPath)) ::
  if isOnprem (cloudProvider st) && truthy (persistentVolumeYaml st) then
    replaceOn (persistentVolumeYaml st)
      (replaceRegExp pathLine false ("path: " +:+ newPath +:+ String nl ""))
      (fun updatedPV => [ Set_ (SetPersistentVolumeYaml (VStr updatedPV)) ])
  else
    updatePersistenceYamls (getProp (vars st) "namespace") (getProp (vars st) "appName") st.

(* <CodeEditor code={deploymentYaml} onCodeChange={setDeploymentYaml} /> and the like *)
Definition handleDeploymentChange (code : string) (st : state) : list (action setter) :=
  [ Set_ (SetDeploymentYaml (VStr code)) ].
Definition handleServiceChange (code : string) (st : state) : list (action setter) :=
  [ Set_ (SetServiceYaml (VStr code)) ].
Definition handleRedisChange (code : string) (st : state) : list (action setter) :=
  [ Set_ (SetRedisYaml (VStr code)) ].
Definition handleConfigMapChange (code : string) (st : state) : list (action setter) :=
  [ Set_ (SetConfigMapYaml (VStr code)) ].
Definition handlePersistentVolumeChange (code : string) (st : state)
  : list (action setter) :=
  [ Set_ (SetPersistentVolumeYaml (VStr code)) ].
Definition handlePersistentVolumeClaimChange (code : string) (st : state)
  : list (action setter) :=
  [ Set_ (SetPersistentVolumeClaimYaml (VStr code)) ].

Definition handlePersistenceToggle (checked : bool) (st : state) : list (action setter) :=
  Set_ (SetEnablePersistence (VBool checked)) ::
  if checked then
    updatePersistenceYamls (getProp (vars st) "namespace") (getProp (vars st) "appName") st
  else [].

(* the six text buffers of the step *)
Definition buffers (st : state) : list any :=
  [ deploymentYaml st; serviceYaml st; redisYaml st; configMapYaml st;
    persistentVolumeYaml st; persistentVolumeClaimYaml st ].

(* the state with other texts in the six buffers *)
Definition withBuffers (d s r c pv pvc : any) (st : state) : state :=
  {| deploymentYaml := d; serviceYaml := s; redisYaml := r; configMapYaml := c;
     persistentVolumeYaml := pv; persistentVolumeClaimYaml := pvc;
     enablePersistence := enablePersistence st; cloudProvider := cloudProvider st;
     storageClass := storageClass st; diskSize := diskSize st;
     volumePath := volumePath st; vars := vars st;
     hasUnsavedChanges := hasUnsavedChanges st |}.

Definition currentConfig (st : state) : any :=
  obj [ ("deploymentYaml", deploymentYaml st);
        ("serviceYaml", serviceYaml st);
        ("redisYaml", redisYaml st);
        ("configMapYaml", configMapYaml st);
        ("persistentVolumeYaml", persistentVolumeYaml st);
        ("persistentVolumeClaimYaml", persistentVolumeClaimYaml st);
        ("enablePersistence", enablePersistence st);
        ("cloudProvider", cloudProvider st);
        ("storageClass", storageClass st);
        ("diskSize", diskSize st);
        ("volumePath", volumePath st);
        ("vars", vars st) ].

Definition handleApplyChanges (st : state) : list (action setter) :=
  [ Call (ApplyConfig "kubernetes" (currentConfig st));
    Set_ (SetHasUnsavedChanges false);
    Call (Toast "Changes applied" "Kubernetes configuration has been updated successfully.") ].

Definition handleNextStep (st : state) : list (action setter) :=
  (if hasUnsavedChanges st then handleApplyChanges st else []) ++ [ Call GoToNextStep ].
End KubernetesSetup.

(** ** Deployment configuration step (components/steps/DeploymentConfig.tsx) *)

Module DeploymentConfig.
Import Str.

Definition defaultEnvSampleFile : string :=
  Str.unlines [
    "# Jenkins Configuration";
    "JENKINS_URL=http://jenkins.example.com:8080";
    "JENKINS_USER=admin";
    "JENKINS_API_TOKEN=your-api-token";
    "";
    "# Docker Registry";
    "DOCKER_REGISTRY_URL=https://index.docker.io/v1/";
    "DOCKER_USERNAME=your-username";
    "DOCKER_PASSWORD=your-secure-password";
    "";
    "# Kubernetes";
    "KUBE_CONFIG_PATH=/path/to/your/kubeconfig";
    "KUBE_NAMESPACE=default";
    "KUBE_CONTEXT=production";
    "";
    "# Application";
    "APP_NAME=go-microservice";
    "APP_VERSION=1.0.0";
    ""
  ].

Definition defaultReadmeFile : string :=
  Str.unlines [
    "# CI/CD Pipeline with Jenkins, Docker, and Kubernetes";
    "";
    "This repository contains the necessary configuration files to set up a complete CI/CD pipeline for a Go microservice using Jenkins, Docker, and Kubernetes.";
    "";
    "## Application Overview";
    "";
    "This is a Go-based microservice that performs calculations and stores data in Redis. It provides a RESTful API for interacting with the service.";
    "";
    "## Technology Stack";
    "";
    "- **Go**: Programming language for the application";
    "- **Redis**: For data storage";
    "- **Jenkins**: CI/CD automation";
    "- **Docker**: For containerization";
    "- **Kubernetes**: For container orchestration";
    "- **Prometheus/Grafana**: For monitoring";
    "";
    "## Repository Structure";
    "";
    "- `/cmd/api`: Application code";
    "- `/k8s`: Kubernetes manifests";
    "- `/config`: Configuration files";
    "- `Dockerfile`: Container definition";
    "- `Jenkinsfile`: Jenkins pipeline definition";
    "";
    "## CI/CD Pipeline";
    "";
    "The CI/CD pipeline consists of the following stages:";
    "";
    "1. **Code Checkout**: Pull the latest code from the repository";
    "2. **Unit Testing**: Run automated tests";
    "3. **Docker Build**: Build the application container";
    "4. **Push to Registry**: Push the container to Docker Hub";
    "5. **Deploy to Kubernetes**: Deploy the application to Kubernetes";
    "6. **Monitoring**: Set up monitoring with Prometheus and Grafana";
    "";
    "## Getting Started";
    "";
    "### Prerequisites";
    "";
    "- Jenkins server with necessary plugins";
    "- Docker installed on Jenkins agents";
    "- Kubernetes cluster";
    "- Git repository";
    "";
    "### Setup Instructions";
    "";
    "1. Configure Jenkins credentials for Git, Docker, and Kubernetes";
    "2. Create a Jenkins pipeline job pointing to this repository";
    "3. Set up the required environment variables (see `.env.sample`)";
    "4. Run the pipeline";
    "";
    "## Configuration";
    "";
    "See the `.env.sample` file for the required environment variables.";
    "";
    "## Monitoring";
    "";
    "The application is set up with Prometheus for metrics collection and Grafana for visualization.";
    ""
  ].

Definition defaultDocumentationFile : string :=
  Str.unlines [
    "# Pipeline Flow Documentation";
    "";
    "## Jenkins Pipeline";
    "";
    "The Jenkins pipeline is defined in the Jenkinsfile and consists of several stages:";
    "";
    "### 1. Checkout";
    "";
    "This stage checks out the code from the Git repository.";
    "";
    "```groovy";
    "stage('Checkout') {";
    "  steps {";
    "    checkout scm";
    "  }";
    "}";
    "```";
    "";
    "### 2. Unit Tests";
    "";
    "This stage runs the Go unit tests.";
    "";
    "```groovy";
    "stage('Unit Tests') {";
    "  steps {";
    "    container('golang') {";
    "      sh 'go test -v ./...'";
    "    }";
    "  }";
    "}";
    "```";
    "";
    "### 3. Build Docker Image";
    "";
    "This stage builds the Docker image.";
    "";
    "```groovy";
    "stage('Build Docker Image') {";
    "  steps {";
    "    container('docker') {";
    "      sh '''";
    "        echo $DOCKER_CREDENTIALS_PSW | docker login -u $DOCKER_CREDENTIALS_USR --password-stdin";
    "        docker build -t $DOCKER_REGISTRY/$IMAGE_NAME:$IMAGE_TAG -f $DOCKERFILE_PATH .";
    "      '''";
    "    }";
    "  }";
    "}";
    "```";
    "";
    "### 4. Push Docker Image";
    "";
    "This stage pushes the Docker image to the registry.";
    "";
    "```groovy";
    "stage('Push Docker Image') {";
    "  steps {";
    "    container('docker') {";
    "      sh 'docker push $DOCKER_REGISTRY/$IMAGE_NAME:$IMAGE_TAG'";
    "      sh 'docker tag $DOCKER_REGISTRY/$IMAGE_NAME:$IMAGE_TAG $DOCKER_REGISTRY/$IMAGE_NAME:latest'";
    "      sh 'docker push $DOCKER_REGISTRY/$IMAGE_NAME:latest'";
    "    }";
    "  }";
    "}";
    "```";
    "";
    "### 5. Deploy to Kubernetes";
    "";
    "This stage deploys the application to Kubernetes.";
    "";
    "```groovy";
    "stage('Deploy to Kubernetes') {";
    "  steps {";
    "    container('kubectl') {";
    "      sh '''";
    "        export KUBECONFIG=$KUBECONFIG";
    "        kubectl apply -f k8s/deployment.yaml";
    "        kubectl apply -f k8s/service.yaml";
    "        kubectl apply -f k8s/configmap.yaml";
    "        kubectl set image deployment/go-microservice go-microservice=$DOCKER_REGISTRY/$IMAGE_NAME:$IMAGE_TAG";
    "      '''";
    "    }";
    "  }";
    "}";
    "```";
    "";
    "## Kubernetes Configuration";
    "";
    "The application is deployed to Kubernetes using the following manifests:";
    "";
    "- `deployment.yaml`: Defines the application deployment";
    "- `service.yaml`: Exposes the application";
    "- `configmap.yaml`: Contains application configuration";
    "- `redis.yaml`: Deploys Redis for data storage";
    "";
    "## Docker Configuration";
    "";
    "The application is containerized using a multi-stage Dockerfile:";
    "";
    "1. Build stage: Compiles the Go application";
    "2. Final stage: Creates a minimal container with just the binary";
    ""
  ].

Definition defaultSettings : any := obj [
  ("companyName", VStr "Your Company");
  ("projectName", VStr "Go Microservice CI/CD Pipeline");
  ("enableSlackNotifications", VBool true);
  ("slackChannel", VStr "#deployments");
  ("enableEmailNotifications", VBool false);
  ("emailRecipients", VStr "devops@example.com");
  ("includeGithubWorkflows", VBool true) ].

Record state : Type := {
  envSampleFile : any;
  readmeFile : any;
  documentationFile : any;
  settings : any;
  hasUnsavedChanges : bool
}.

Inductive setter : Type :=
| SetEnvSampleFile (v : any)
| SetReadmeFile (v : any)
| SetDocumentationFile (v : any)
| SetSettings (f : any -> any)
| SetHasUnsavedChanges (b : bool).

Definition reduce_ (s : setter) (st : state) : state :=
  match s with
  | SetEnvSampleFile v =>
      {| envSampleFile := v; readmeFile := readmeFile st;
         documentationFile := documentationFile st; settings := settings st;
         hasUnsavedChanges := hasUnsavedChanges st |}
  | SetReadmeFile v =>
      {| envSampleFile := envSampleFile st; readmeFile := v;
         documentationFile := documentationFile st; settings := settings st;
         hasUnsavedChanges := hasUnsavedChanges st |}
  | SetDocumentationFile v =>
      {| envSampleFile := envSampleFile st; readmeFile := readmeFile st;
         documentationFile := v; settings := settings st;
         hasUnsavedChanges := hasUnsavedChanges st |}
  | SetSettings f =>
      {| envSampleFile := envSampleFile st; readmeFile := readmeFile st;
         documentationFile := documentationFile st; settings := f (settings st);
         hasUnsavedChanges := hasUnsavedChanges st |}
  | SetHasUnsavedChanges b =>
      {| envSampleFile := envSampleFile st; readmeFile := readmeFile st;
         documentationFile := documentationFile st; settings := settings st;
         hasUnsavedChanges := b |}
  end.

Definition invalidates_ (st : state) (s : setter) : bool :=
  match s with
  | SetEnvSampleFile v => negb (sameValue (envSampleFile st) v)
  | SetReadmeFile v => negb (sameValue (readmeFile st) v)
  | SetDocumentationFile v => negb (sameValue (documentationFile st) v)
  | SetSettings _ => true
  | SetHasUnsavedChanges _ => false
  end.

(* useEffect(() => { setHasUnsavedChanges(true); },
     [envSampleFile, readmeFile, documentationFile, settings]) *)
#[global] Instance component : Component state setter := {
  reduce := reduce_;
  invalidates := invalidates_;
  effect := [SetHasUnsavedChanges true]
}.

Definition init (configs : gmap string any) : state :=
  let savedConfig := ConfigContext.getConfig configs "deploymentConfig" in
  {| envSampleFile := or_else (getProp savedConfig "envSampleFile") (VStr defaultEnvSampleFile);
     readmeFile := or_else (getProp savedConfig "readmeFile") (VStr defaultReadmeFile);
     documentationFile :=
       or_else (getProp savedConfig "documentationFile") (VStr defaultDocumentationFile);
     settings := or_else (getProp savedConfig "settings") defaultSettings;
     hasUnsavedChanges := false |}.

Definition mount (configs : gmap string any) : state := runEffect (init configs).

Definition handleSettingsChange (key : string) (value : any) (st : state)
  : list (action setter) :=
  [ Set_ (SetSettings (fun prev => withProp prev key value)) ].

(* <CodeEditor code={envSampleFile} onCodeChange={setEnvSampleFile} /> and the like *)
Definition handleEnvSampleChange (code : string) (st : state) : list (action setter) :=
  [ Set_ (SetEnvSampleFile (VStr code)) ].
Definition handleReadmeChange (code : string) (st : state) : list (action setter) :=
  [ Set_ (SetReadmeFile (VStr code)) ].
Definition handleDocumentationChange (code : string) (st : state) : list (action setter) :=
  [ Set_ (SetDocumentationFile (VStr code)) ].

Definition currentConfig (st : state) : any :=
  obj [ ("envSampleFile", envSampleFile st);
        ("readmeFile", readmeFile st);
        ("documentationFile", documentationFile st);
        ("settings", settings st) ].

Definition handleApplyChanges (st : state) : list (action setter) :=
  [ Call (ApplyConfig "deploymentConfig" (currentConfig st));
    Set_ (SetHasUnsavedChanges false) ].

Definition handleNextStep (st : state) : list (action setter) :=
  (if hasUnsavedChanges st then handleApplyChanges st else []) ++ [ Call GoToNextStep ].
End DeploymentConfig.

(** ** Monitoring step (components/steps/MonitoringSetup.tsx) *)

Module MonitoringSetup.
Import Str RegExp.

Definition defaultPrometheusYaml : string :=
  Str.unlines [
    "apiVersion: v1";
    "kind: ConfigMap";
    "metadata:";
    "  name: prometheus-config";
    "  namespace: monitoring";
    "data:";
    "  prometheus.yml: |";
    "    global:";
    "      scrape_interval: 15s";
    "      evaluation_interval: 15s";
    "    ";
    "    scrape_configs:";
    "      - job_name: 'prometheus'";
    "        static_configs:";
    "          - targets: ['localhost:9090']";
    "      ";
    "      - job_name: 'go-microservice'";
    "        kubernetes_sd_configs:";
    "          - role: pod";
    "        relabel_configs:";
    "          - source_labels: [__meta_kubernetes_pod_label_app]";
    "            action: keep";
    "            regex: go-microservice";
    "          - source_labels: [__meta_kubernetes_pod_container_port_name]";
    "            action: keep";
    "            regex: metrics";
    "          ";
    "      - job_name: 'kubernetes-nodes'";
    "        kubernetes_sd_configs:";
    "          - role: node";
    "        relabel_configs:";
    "          - action: labelmap";
    "            regex: __meta_kubernetes_node_label_(.+)";
    "      ";
    "      - job_name: 'kubernetes-pods'";
    "        kubernetes_sd_configs:";
    "          - role: pod";
    "        relabel_configs:";
    "          - source_labels: [__meta_kubernetes_pod_annotation_prometheus_io_scrape]";
    "            action: keep";
    "            regex: true";
    "---";
    "apiVersion: apps/v1";
    "kind: Deployment";
    "metadata:";
    "  name: prometheus";
    "  namespace: monitoring";
    "spec:";
    "  replicas: 1";
    "  selector:";
    "    matchLabels:";
    "      app: prometheus";
    "  template:";
    "    metadata:";
    "      labels:";
    "        app: prometheus";
    "    spec:";
    "      containers:";
    "      - name: prometheus";
    "        image: prom/prometheus:v2.34.0";
    "        args:";
    "          - " +:+ q +:+ "--config.file=/etc/prometheus/prometheus.yml" +:+ q;
    "          - " +:+ q +:+ "--storage.tsdb.path=/prometheus" +:+ q;
    "          - " +:+ q +:+ "--web.console.libraries=/etc/prometheus/console_libraries" +:+ q;
    "          - " +:+ q +:+ "--web.console.templates=/etc/prometheus/consoles" +:+ q;
    "          - " +:+ q +:+ "--web.enable-lifecycle" +:+ q;
    "        ports:";
    "        - containerPort: 9090";
    "        volumeMounts:";
    "        - name: prometheus-config";
    "          mountPath: /etc/prometheus";
    "        - name: prometheus-storage";
    "          mountPath: /prometheus";
    "      volumes:";
    "      - name: prometheus-config";
    "        configMap:";
    "          name: prometheus-config";
    "      - name: prometheus-storage";
    "        emptyDir: {}";
    "---";
    "apiVersion: v1";
    "kind: Service";
    "metadata:";
    "  name: prometheus";
    "  namespace: monitoring";
    "spec:";
    "  selector:";
    "    app: prometheus";
    "  ports:";
    "  - port: 9090";
    "    targetPort: 9090"
  ].

Definition defaultGrafanaYaml : string :=
  Str.unlines [
    "apiVersion: apps/v1";
    "kind: Deployment";
    "metadata:";
    "  name: grafana";
    "  namespace: monitoring";
    "spec:";
    "  replicas: 1";
    "  selector:";
    "    matchLabels:";
    "      app: grafana";
    "  template:";
    "    metadata:";
    "      labels:";
    "        app: grafana";
    "    spec:";
    "      containers:";
    "      - name: grafana";
    "        image: grafana/grafana:9.0.0";
    "        ports:";
    "        - containerPort: 3000";
    "          name: http";
    "        env:";
    "        - name: GF_SECURITY_ADMIN_USER";
    "          value: admin";
    "        - name: GF_SECURITY_ADMIN_PASSWORD";
    "          value: admin123";
    "        - name: GF_USERS_ALLOW_SIGN_UP";
    "          value: " +:+ q +:+ "false" +:+ q;
    "        volumeMounts:";
    "        - name: grafana-storage";
    "          mountPath: /var/lib/grafana";
    "      volumes:";
    "      - name: grafana-storage";
    "        emptyDir: {}";
    "---";
    "apiVersion: v1";
    "kind: Service";
    "metadata:";
    "  name: grafana";
    "  namespace: monitoring";
    "spec:";
    "  selector:";
    "    app: grafana";
    "  ports:";
    "  - port: 3000";
    "    targetPort: 3000";
    "  type: ClusterIP"
  ].

Definition defaultDashboardJson : string :=
  Str.unlines [
    "// ... keep existing code (dashboard JSON definition)"
  ].

Definition defaultAlertsYaml : string :=
  Str.unlines [
    "// ... keep existing code (alerts YAML definition)"
  ].

Definition defaultSettings : any := obj [
  ("enablePrometheus", VBool true);
  ("enableGrafana", VBool true);
  ("enableAlertManager", VBool true);
  ("prometheusVersion", VStr "v2.34.0");
  ("grafanaVersion", VStr "9.0.0");
  ("namespace", VStr "monitoring");
  ("persistStorage", VBool false);
  ("grafanaAdminPassword", VStr "admin123");
  ("alertManagerReceivers", VArr [ obj [ ("name", VStr "slack"); ("type", VStr "slack") ] ]);
  ("storageClass", VStr "standard");
  ("prometheusStorageSize", VStr "10Gi");
  ("grafanaStorageSize", VStr "2Gi");
  ("storagePath", VStr "/var/lib/monitoring") ].

Record state : Type := {
  prometheusYaml : any;
  grafanaYaml : any;
  dashboardJson : any;
  alertsYaml : any;
  settings : any;
  hasUnsavedChanges : bool
}.

Inductive setter : Type :=
| SetPrometheusYaml (v : any)
| SetGrafanaYaml (v : any)
| SetDashboardJson (v : any)
| SetAlertsYaml (v : any)
| SetSettings (f : any -> any)
| SetHasUnsavedChanges (b : bool).

Definition reduce_ (s : setter) (st : state) : state :=
  match s with
  | SetPrometheusYaml v =>
      {| prometheusYaml := v; grafanaYaml := grafanaYaml st;
         dashboardJson := dashboardJson st; alertsYaml := alertsYaml st;
         settings := settings st; hasUnsavedChanges := hasUnsavedChanges st |}
  | SetGrafanaYaml v =>
      {| prometheusYaml := prometheusYaml st; grafanaYaml := v;
         dashboardJson := dashboardJson st; alertsYaml := alertsYaml st;
         settings := settings st; hasUnsavedChanges := hasUnsavedChanges st |}
  | SetDashboardJson v =>
      {| prometheusYaml := prometheusYaml st; grafanaYaml := grafanaYaml st;
         dashboardJson := v; alertsYaml := alertsYaml st; settings := settings st;
         hasUnsavedChanges := hasUnsavedChanges st |}
  | SetAlertsYaml v =>
      {| prometheusYaml := prometheusYaml st; grafanaYaml := grafanaYaml st;
         dashboardJson := dashboardJson st; alertsYaml := v; settings := settings st;
         hasUnsavedChanges := hasUnsavedChanges st |}
  | SetSettings f =>
      {| prometheusYaml := prometheusYaml st; grafanaYaml := grafanaYaml st;
         dashboardJson := dashboardJson st; alertsYaml := alertsYaml st;
         settings := f (settings st); hasUnsavedChanges := hasUnsavedChanges st |}
  | SetHasUnsavedChanges b =>
      {| prometheusYaml := prometheusYaml st; grafanaYaml := grafanaYaml st;
         dashboardJson := dashboardJson st; alertsYaml := alertsYaml st;
         settings := settings st; hasUnsavedChanges := b |}
  end.

Definition invalidates_ (st : state) (s : setter) : bool :=
  match s with
  | SetPrometheusYaml v => negb (sameValue (prometheusYaml st) v)
  | SetGrafanaYaml v => negb (sameValue (grafanaYaml st) v)
  | SetDashboardJson v => negb (sameValue (dashboardJson st) v)
  | SetAlertsYaml v => negb (sameValue (alertsYaml st) v)
  | SetSettings _ => true
  | SetHasUnsavedChanges _ => false
  end.

(* useEffect(() => { setHasUnsavedChanges(true); },
     [prometheusYaml, grafanaYaml, dashboardJson, alertsYaml, settings]) *)
#[global] Instance component : Component state setter := {
  reduce := reduce_;
  invalidates := invalidates_;
  effect := [SetHasUnsavedChanges true]
}.

Definition init (configs : gmap string any) : state :=
  let savedConfig := ConfigContext.getConfig configs "monitoringSetup" in
  {| prometheusYaml := or_else (getProp savedConfig "prometheusYaml") (VStr defaultPrometheusYaml);
     grafanaYaml := or_else (getProp savedConfig "grafanaYaml") (VStr defaultGrafanaYaml);
     dashboardJson := or_else (getProp savedConfig "dashboardJson") (VStr defaultDashboardJson);
     alertsYaml := or_else (getProp savedConfig "alertsYaml") (VStr defaultAlertsYaml);
     settings := or_else (getProp savedConfig "settings") defaultSettings;
     hasUnsavedChanges := false |}.

Definition mount (configs : gmap string any) : state := runEffect (init configs).

Definition persistentPrometheusStorage (st : state) : string :=
  Str.unlines [
    "      volumes:";
    "      - name: prometheus-config";
    "        configMap:";
    "          name: prometheus-config";
    "      - name: prometheus-storage";
    "        persistentVolumeClaim:";
    "          claimName: prometheus-storage";
    "---";
    "apiVersion: v1";
    "kind: PersistentVolumeClaim";
    "metadata:";
    "  name: prometheus-storage";
    "  namespace: " +:+ toString (getProp (settings st) "namespace");
    "spec:";
    "  accessModes:";
    "    - ReadWriteOnce";
    "  storageClassName: " +:+ toString (getProp (settings st) "storageClass");
    "  resources:";
    "    requests:";
    "      storage: " +:+ toString (getProp (settings st) "prometheusStorageSize")
  ].

Definition persistentGrafanaStorage (st : state) : string :=
  Str.unlines [
    "      volumes:";
    "      - name: grafana-storage";
    "        persistentVolumeClaim:";
    "          claimName: grafana-storage";
    "---";
    "apiVersion: v1";
    "kind: PersistentVolumeClaim";
    "metadata:";
    "  name: grafana-storage";
    "  namespace: " +:+ toString (getProp (settings st) "namespace");
    "spec:";
    "  accessModes:";
    "    - ReadWriteOnce";
    "  storageClassName: " +:+ toString (getProp (settings st) "storageClass");
    "  resources:";
    "    requests:";
    "      storage: " +:+ toString (getProp (settings st) "grafanaStorageSize")
  ].

Definition nonPersistentPrometheusStorage : string :=
  Str.unlines [
    "      volumes:";
    "      - name: prometheus-config";
    "        configMap:";
    "          name: prometheus-config";
    "      - name: prometheus-storage";
    "        emptyDir: {}"
  ].

Definition nonPersistentGrafanaStorage : string :=
  Str.unlines [
    "      volumes:";
    "      - name: grafana-storage";
    "        emptyDir: {}"
  ].

(* /prom\/prometheus:v\d+\.\d+\.\d+/g *)
Definition prometheusImage : regex :=
  seqs [lit "prom/prometheus:v"; Plus Digit; Chr "."; Plus Digit; Chr "."; Plus Digit].

(* /grafana\/grafana:\d+\.\d+\.\d+/g *)
Definition grafanaImage : regex :=
  seqs [lit "grafana/grafana:"; Plus Digit; Chr "."; Plus Digit; Chr "."; Plus Digit].

(* /      volumes:[\s\S]*?emptyDir: \{\}/g *)
Definition emptyDirVolumes : regex :=
  seqs [lit "      volumes:"; Star false AnyChar; lit "emptyDir: {}"].

(* /---\napiVersion: v1\nkind: PersistentVolumeClaim[\s\S]*?storage: .*Gi/g *)
Definition claimDocument : regex :=
  seqs [lit ("---" +:+ String nl "apiVersion: v1" +:+ String nl "kind: PersistentVolumeClaim");
        Star false AnyChar; lit "storage: "; Star true Dot; lit "Gi"].

(* /      volumes:[\s\S]*?claimName: <name>/g *)
Definition claimVolumes (name : string) : regex :=
  seqs [lit "      volumes:"; Star false AnyChar; lit ("claimName: " +:+ name)].

(* /storageClassName: .*$/m *)
Definition storageClassLine : regex :=
  seqs [lit "storageClassName: "; Star true Dot; Eol].

(* /storage: .*Gi/g *)
Definition storageLine : regex :=
  seqs [lit "storage: "; Star true Dot; lit "Gi"].

(* value === b *)
Definition isBool (value : any) (b : bool) : bool :=
  match value with VBool c => Bool.eqb c b | _ => false end.

Definition handleSettingsChange (key : string) (value : any) (st : state)
  : list (action setter) :=
  Set_ (SetSettings (fun prev => withProp prev key value)) ::
  if String.eqb key "prometheusVersion" then
    replaceOn (prometheusYaml st)
      (replaceRegExp prometheusImage true ("prom/prometheus:" +:+ toString value))
      (fun updatedPrometheusYaml => [ Set_ (SetPrometheusYaml (VStr updatedPrometheusYaml)) ])
  else if String.eqb key "grafanaVersion" then
    replaceOn (grafanaYaml st)
      (replaceRegExp grafanaImage true ("grafana/grafana:" +:+ toString value))
      (fun updatedGrafanaYaml => [ Set_ (SetGrafanaYaml (VStr updatedGrafanaYaml)) ])
  else if String.eqb key "namespace" then
    replaceOn (prometheusYaml st)
      (replaceRegExp (lit "namespace: monitoring") true ("namespace: " +:+ toString value))
      (fun updatedPrometheusYaml =>
         Set_ (SetPrometheusYaml (VStr updatedPrometheusYaml)) ::
         replaceOn (grafanaYaml st)
           (replaceRegExp (lit "namespace: monitoring") true ("namespace: " +:+ toString value))
           (fun updatedGrafanaYaml => [ Set_ (SetGrafanaYaml (VStr updatedGrafanaYaml)) ]))
  else if String.eqb key "grafanaAdminPassword" then
    replaceOn (grafanaYaml st)
      (replaceRegExp (lit "value: admin123") true ("value: " +:+ toString value))
      (fun updatedGrafanaYaml => [ Set_ (SetGrafanaYaml (VStr updatedGrafanaYaml)) ])
  else if String.eqb key "persistStorage" && isBool value true then
    replaceOn (prometheusYaml st)
      (replaceRegExp emptyDirVolumes true (persistentPrometheusStorage st))
      (fun updatedPrometheusYaml =>
         Set_ (SetPrometheusYaml (VStr updatedPrometheusYaml)) ::
         replaceOn (grafanaYaml st)
           (replaceRegExp emptyDirVolumes true (persistentGrafanaStorage st))
           (fun updatedGrafanaYaml => [ Set_ (SetGrafanaYaml (VStr updatedGrafanaYaml)) ]))
  else if String.eqb key "persistStorage" && isBool value false then
    replaceOn (prometheusYaml st)
      (fun s =>
         let prometheusYamlWithoutPVC := replaceRegExp claimDocument true "" s in
         replaceRegExp (claimVolumes "prometheus-storage") true
           nonPersistentPrometheusStorage prometheusYamlWithoutPVC)
      (fun updatedPrometheusYaml =>
         Set_ (SetPrometheusYaml (VStr updatedPrometheusYaml)) ::
         replaceOn (grafanaYaml st)
           (fun s =>
              let grafanaYamlWithoutPVC := replaceRegExp claimDocument true "" s in
              replaceRegExp (claimVolumes "grafana-storage") true
                nonPersistentGrafanaStorage grafanaYamlWithoutPVC)
           (fun updatedGrafanaYaml => [ Set_ (SetGrafanaYaml (VStr updatedGrafanaYaml)) ]))
  else if (String.eqb key "storageClass" || String.eqb key "prometheusStorageSize"
           || String.eqb key "grafanaStorageSize")
          && truthy (getProp (settings st) "persistStorage") then
    let grafanaPart :=
      includesOn (grafanaYaml st) "PersistentVolumeClaim" (fun found =>
        if found then
          if String.eqb key "storageClass" then
            replaceOn (grafanaYaml st)
              (replaceRegExp storageClassLine false ("storageClassName: " +:+ toString value))
              (fun updatedGrafanaYaml => [ Set_ (SetGrafanaYaml (VStr updatedGrafanaYaml)) ])
          else if String.eqb key "grafanaStorageSize" then
            replaceOn (grafanaYaml st)
              (replaceRegExp storageLine true ("storage: " +:+ toString value))
              (fun updatedGrafanaYaml => [ Set_ (SetGrafanaYaml (VStr updatedGrafanaYaml)) ])
          else [ Set_ (SetGrafanaYaml (grafanaYaml st)) ]
        else []) in
    includesOn (prometheusYaml st) "PersistentVolumeClaim" (fun found =>
      if found then
        if String.eqb key "storageClass" then
          replaceOn (prometheusYaml st)
            (replaceRegExp storageClassLine false ("storageClassName: " +:+ toString value))
            (fun updatedPrometheusYaml =>
               Set_ (SetPrometheusYaml (VStr updatedPrometheusYaml)) :: grafanaPart)
        else if String.eqb key "prometheusStorageSize" then
          replaceOn (prometheusYaml st)
            (replaceRegExp storageLine true ("storage: " +:+ toString value))
            (fun updatedPrometheusYaml =>
               Set_ (SetPrometheusYaml (VStr updatedPrometheusYaml)) :: grafanaPart)
        else Set_ (SetPrometheusYaml (prometheusYaml st)) :: grafanaPart
      else grafanaPart)
  else [].

(* <CodeEditor code={prometheusYaml} onCodeChange={setPrometheusYaml} /> and the like *)
Definition handlePrometheusChange (code : string) (st : state) : list (action setter) :=
  [ Set_ (SetPrometheusYaml (VStr code)) ].
Definition handleGrafanaChange (code : string) (st : state) : list (action setter) :=
  [ Set_ (SetGrafanaYaml (VStr code)) ].
Definition handleDashboardChange (code : string) (st : state) : list (action setter) :=
  [ Set_ (SetDashboardJson (VStr code)) ].
Definition handleAlertsChange (code : string) (st : state) : list (action setter) :=
  [ Set_ (SetAlertsYaml (VStr code)) ].

Definition currentConfig (st : state) : any :=
  obj [ ("prometheusYaml", prometheusYaml st);
        ("grafanaYaml", grafanaYaml st);
        ("dashboardJson", dashboardJson st);
        ("alertsYaml", alertsYaml st);
        ("settings", settings st) ].

Definition handleApplyChanges (st : state) : list (action setter) :=
  [ Call (ApplyConfig "monitoringSetup" (currentConfig st));
    Set_ (SetHasUnsavedChanges false) ].

Definition handleNextStep (st : state) : list (action setter) :=
  (if hasUnsavedChanges st then handleApplyChanges st else []) ++ [ Call GoToNextStep ].
End MonitoringSetup.

(** ** Export step (components/steps/ExportProject.tsx) *)

Module ExportProject.
Import Str.

(* `${configs.jenkinsfile?.vars?.<name> || '<fallback>'}` *)
Definition jenkinsVar (configs : gmap string any) (name fallback : string) : string :=
  toString
    (or_else (optProp (optProp (ConfigContext.read configs "jenkinsfile") "vars") name)
       (VStr fallback)).

Definition sampleJenkinsfile (configs : gmap string any) (buildNumber : Z) : string :=
  Str.unlines [
    "pipeline {";
    "  agent any";
    "  ";
    "  environment {";
    "    DOCKER_USERNAME = '" +:+ jenkinsVar configs "dockerUsername" "DOCKER_USERNAME" +:+ "'";
    "    IMAGE_NAME = '" +:+ jenkinsVar configs "imageName" "go-microservice" +:+ "'";
    "    IMAGE_TAG = " +:+ q +:+ Str.ofZ buildNumber +:+ q;
    "    KUBECONFIG = credentials('" +:+ jenkinsVar configs "kubeConfigId" "kubeconfig" +:+ "')";
    "  }";
    "  ";
    "  stages {";
    "    stage('Checkout') {";
    "      steps {";
    "        checkout scm";
    "      }";
    "    }";
    "    ";
    "    stage('Build') {";
    "      steps {";
    "        sh 'go build -o app'";
    "        sh 'go test ./...'";
    "      }";
    "    }";
    "    ";
    "    stage('Docker Build') {";
    "      steps {";
    "        withCredentials([string(credentialsId: '" +:+ jenkinsVar configs "dockerCredentialsId" "docker-credentials" +:+ "', variable: 'DOCKER_PASSWORD')]) {";
    "          sh " +:+ q +:+ "docker login -u $DOCKER_USERNAME -p ${DOCKER_PASSWORD}" +:+ q;
    "          sh " +:+ q +:+ "docker build -t $DOCKER_USERNAME/$IMAGE_NAME:${IMAGE_TAG} ." +:+ q;
    "          sh " +:+ q +:+ "docker push $DOCKER_USERNAME/$IMAGE_NAME:${IMAGE_TAG}" +:+ q;
    "        }";
    "      }";
    "    }";
    "    ";
    "    stage('Deploy to Kubernetes') {";
    "      steps {";
    "        sh " +:+ q +:+ "envsubst < k8s/deployment.yaml | kubectl apply -f -" +:+ q;
    "        sh " +:+ q +:+ "kubectl apply -f k8s/service.yaml" +:+ q;
    "        sh " +:+ q +:+ "kubectl apply -f k8s/configmap.yaml" +:+ q;
    "        sh " +:+ q +:+ "kubectl rollout status deployment/$IMAGE_NAME" +:+ q;
    "      }";
    "    }";
    "    ";
    "    stage('Health Check') {";
    "      steps {";
    "        sh 'sleep 10' // Wait for deployment to stabilize";
    "        sh 'curl -f $(kubectl get svc $IMAGE_NAME -o jsonpath=" +:+ q +:+ "{.status.loadBalancer.ingress[0].ip}" +:+ q +:+ ")/health || exit 1'";
    "      }";
    "    }";
    "    ";
    "    stage('Setup Monitoring') {";
    "      steps {";
    "        sh " +:+ q +:+ "kubectl apply -f k8s/prometheus.yaml" +:+ q;
    "        sh " +:+ q +:+ "kubectl apply -f k8s/grafana.yaml" +:+ q;
    "      }";
    "    }";
    "  }";
    "  ";
    "  post {";
    "    success {";
    "      echo 'Pipeline completed successfully!'";
    "    }";
    "    failure {";
    "      echo 'Pipeline failed!'";
    "    }";
    "  }";
    "}"
  ].

Definition sampleDockerfile : string :=
  Str.unlines [
    "FROM golang:1.18-alpine AS builder";
    "";
    "WORKDIR /app";
    "COPY go.mod go.sum ./";
    "RUN go mod download";
    "COPY . .";
    "RUN go build -o app";
    "";
    "FROM alpine:latest";
    "WORKDIR /app";
    "COPY --from=builder /app/app .";
    "COPY --from=builder /app/config ./config";
    "";
    "EXPOSE 8080";
    "CMD [" +:+ q +:+ "./app" +:+ q +:+ "]"
  ].

Definition sampleDeployment (configs : gmap string any) (buildNumber : Z) : string :=
  Str.unlines [
    "apiVersion: apps/v1";
    "kind: Deployment";
    "metadata:";
    "  name: " +:+ jenkinsVar configs "imageName" "example-deployment";
    "spec:";
    "  replicas: 3";
    "  selector:";
    "    matchLabels:";
    "      app: " +:+ jenkinsVar configs "imageName" "example";
    "  template:";
    "    metadata:";
    "      labels:";
    "        app: " +:+ jenkinsVar configs "imageName" "example";
    "    spec:";
    "      containers:";
    "      - name: " +:+ jenkinsVar configs "imageName" "example";
    "        image: " +:+ jenkinsVar configs "dockerUsername" "username" +:+ "/" +:+ jenkinsVar configs "imageName" "example" +:+ ":" +:+ Str.ofZ buildNumber;
    "        ports:";
    "        - containerPort: 8080"
  ].

Definition sampleManifest (name : string) : string :=
  Str.unlines [
    "apiVersion: apps/v1";
    "kind: " +:+ capitalize (beforeChar "." name);
    "metadata:";
    "  name: example-" +:+ beforeChar "." name;
    "spec:";
    "  # Sample configuration for " +:+ name;
    "  selector:";
    "    app: example";
    "  ports:";
    "  - port: 80";
    "    targetPort: 8080"
  ].

Definition sampleOther (name : string) : string :=
  Str.unlines [
    "# " +:+ name;
    "";
    "This is a sample content for " +:+ name
  ].

(* configs.<step> && configs.<step>.<field> *)
Definition stored (configs : gmap string any) (step field : string) : any :=
  and_then (ConfigContext.read configs step)
    (getProp (ConfigContext.read configs step) field).

(* [random] stands for Math.floor(Math.random() * 1000), a draw from 0..999 *)
Definition generateSampleContent (configs : gmap string any) (random : Z)
    (name type : string) : any :=
  let buildNumber := (random + 1)%Z in
  if String.eqb name "Jenkinsfile" then
    if truthy (stored configs "jenkinsfile" "jenkinsfile") then
      getProp (ConfigContext.read configs "jenkinsfile") "jenkinsfile"
    else VStr (sampleJenkinsfile configs buildNumber)
  else if String.eqb name "Dockerfile" then
    if truthy (stored configs "dockerfile" "dockerfile") then
      getProp (ConfigContext.read configs "dockerfile") "dockerfile"
    else VStr sampleDockerfile
  else if String.eqb type "manifest" then
    if String.eqb name "deployment.yaml" then VStr (sampleDeployment configs buildNumber)
    else VStr (sampleManifest name)
  else VStr (sampleOther name).

Record FileItem : Type := {
  name : string;
  path : string;
  size : string;
  type : string;
  content : any
}.

(* the name, path, size label and type of every exported file, in order *)
Definition fileList : list (string * string * string * string) := [
  ("Jenkinsfile", "/Jenkinsfile", "2.3 KB", "config");
  ("Dockerfile", "/Dockerfile", "0.7 KB", "config");
  ("deployment.yaml", "/k8s/deployment.yaml", "1.2 KB", "manifest");
  ("service.yaml", "/k8s/service.yaml", "0.5 KB", "manifest");
  ("redis.yaml", "/k8s/redis.yaml", "0.9 KB", "manifest");
  ("configmap.yaml", "/k8s/configmap.yaml", "0.4 KB", "manifest");
  ("prometheus.yaml", "/k8s/prometheus.yaml", "2.1 KB", "manifest");
  ("grafana.yaml", "/k8s/grafana.yaml", "0.8 KB", "manifest");
  ("dashboard.json", "/k8s/dashboard.json", "4.7 KB", "manifest");
  (".env.sample", "/.env.sample", "0.3 KB", "config");
  ("README.md", "/README.md", "1.5 KB", "config");
  ("DOCUMENTATION.md", "/DOCUMENTATION.md", "2.2 KB", "config") ].

(* const files: FileItem[] = [...]: every entry calls generateSampleContent
   with its own name and type; [random i] is the draw of the i-th call *)
Definition files (configs : gmap string any) (random : nat -> Z) : list FileItem :=
  imap (fun i '(n, p, s, t) =>
          {| name := n; path := p; size := s; type := t;
             content := generateSampleContent configs (random i) n t |})
       fileList.

(* downloadFile: new Blob([file.content]) holds the content as text *)
Definition downloadFile (file : FileItem) : string * string :=
  (name file, toString (content file)).

(* the downloads of handleExport, in list order *)
Definition handleExport (configs : gmap string any) (random : nat -> Z)
  : list (string * string) :=
  map downloadFile (files configs random).

(* the content exported for one file name *)
Definition exported (configs : gmap string any) (random : nat -> Z) (file : string)
  : option string :=
  match List.find (fun d => String.eqb (fst d) file) (handleExport configs random) with
  | Some d => Some (snd d)
  | None => None
  end.
End ExportProject.

(** ** The editors that keep an unsaved-changes flag *)

Module Wizard.
Inductive editor : Type :=
| Jenkinsfile | Dockerfile | Kubernetes | Deployment | Monitoring.

Definition stepId (e : editor) : string :=
  match e with
  | Jenkinsfile => "jenkinsfile"
  | Dockerfile => "dockerfile"
  | Kubernetes => "kubernetes"
  | Deployment => "deploymentConfig"
  | Monitoring => "monitoringSetup"
  end.

Definition stateOf (e : editor) : Type :=
  match e with
  | Jenkinsfile => JenkinsfileSetup.state
  | Dockerfile => DockerfileSetup.state
  | Kubernetes => KubernetesSetup.state
  | Deployment => DeploymentConfig.state
  | Monitoring => MonitoringSetup.state
  end.

Definition setterOf (e : editor) : Type :=
  match e with
  | Jenkinsfile => JenkinsfileSetup.setter
  | Dockerfile => DockerfileSetup.setter
  | Kubernetes => KubernetesSetup.setter
  | Deployment => DeploymentConfig.setter
  | Monitoring => MonitoringSetup.setter
  end.

#[global] Instance componentOf (e : editor) : Component (stateOf e) (setterOf e) :=
  match e with
  | Jenkinsfile => JenkinsfileSetup.component
  | Dockerfile => DockerfileSetup.component
  | Kubernetes => KubernetesSetup.component
  | Deployment => DeploymentConfig.component
  | Monitoring => MonitoringSetup.component
  end.

Definition init (e : editor) : gmap string any -> stateOf e :=
  match e with
  | Jenkinsfile => JenkinsfileSetup.init
  | Dockerfile => DockerfileSetup.init
  | Kubernetes => KubernetesSetup.init
  | Deployment => DeploymentConfig.init
  | Monitoring => MonitoringSetup.init
  end.

Definition mount (e : editor) : gmap string any -> stateOf e :=
  match e with
  | Jenkinsfile => JenkinsfileSetup.mount
  | Dockerfile => DockerfileSetup.mount
  | Kubernetes => KubernetesSetup.mount
  | Deployment => DeploymentConfig.mount
  | Monitoring => MonitoringSetup.mount
  end.

Definition hasUnsavedChanges (e : editor) : stateOf e -> bool :=
  match e with
  | Jenkinsfile => JenkinsfileSetup.hasUnsavedChanges
  | Dockerfile => DockerfileSetup.hasUnsavedChanges
  | Kubernetes => KubernetesSetup.hasUnsavedChanges
  | Deployment => DeploymentConfig.hasUnsavedChanges
  | Monitoring => MonitoringSetup.hasUnsavedChanges
  end.

(* the { settings, buffers } object of the step *)
Definition currentConfig (e : editor) : stateOf e -> any :=
  match e with
  | Jenkinsfile => JenkinsfileSetup.currentConfig
  | Dockerfile => DockerfileSetup.currentConfig
  | Kubernetes => KubernetesSetup.currentConfig
  | Deployment => DeploymentConfig.currentConfig
  | Monitoring => MonitoringSetup.currentConfig
  end.

Definition handleApplyChanges (e : editor) : stateOf e -> list (action (setterOf e)) :=
  match e with
  | Jenkinsfile => JenkinsfileSetup.handleApplyChanges
  | Dockerfile => DockerfileSetup.handleApplyChanges
  | Kubernetes => KubernetesSetup.handleApplyChanges
  | Deployment => DeploymentConfig.handleApplyChanges
  | Monitoring => MonitoringSetup.handleApplyChanges
  end.

Definition handleNextStep (e : editor) : stateOf e -> list (action (setterOf e)) :=
  match e with
  | Jenkinsfile => JenkinsfileSetup.handleNextStep
  | Dockerfile => DockerfileSetup.handleNextStep
  | Kubernetes => KubernetesSetup.handleNextStep
  | Deployment => DeploymentConfig.handleNextStep
  | Monitoring => MonitoringSetup.handleNextStep
  end.

(* the toast handleApplyChanges itself raises, if any *)
Definition toasts (e : editor) : list call :=
  match e with
  | Kubernetes =>
      [ Toast "Changes applied" "Kubernetes configuration has been updated successfully." ]
  | _ => []
  end.

(* the store after a sequence of applyConfig calls on the empty store *)
Definition storeAfter (writes : list (string * any)) : gmap string any :=
  fold_left (fun configs w => ConfigContext.applyConfig (fst w) (snd w) configs)
    writes ConfigContext.initial.

(* the text of a buffer that holds a string *)
Definition text (v : any) : string :=
  match v with VStr s => s | _ => "" end.
End Wizard.

(** ** Texts around a literal *)

Module Text.
(* the replacement holds no dollar sign *)
Fixpoint noDollar (s : string) : bool :=
  match s with
  | "" => true
  | String c s' => negb (Ascii.eqb c "$") && noDollar s'
  end.

(* the text before the first occurrence of [p] (all of it when there is none) *)
Fixpoint before (p s : string) : string :=
  if Str.startsWith p s then ""
  else match s with
       | "" => ""
       | String c s' => String c (before p s')
       end.

(* the text after the first occurrence of [p] (nothing when there is none) *)
Fixpoint after (p s : string) : string :=
  if Str.startsWith p s then Str.drop (String.length p) s
  else match s with
       | "" => ""
       | String _ s' => after p s'
       end.

(* [s] with the first occurrence of [p] replaced by [r] *)
Definition splice (p r s : string) : string := before p s +:+ r +:+ after p s.

(* no suffix of [s] starts with a match *)
Fixpoint matchesNowhere (matchAt : string -> option (nat * list (option string)))
    (s : string) : bool :=
  match matchAt s with
  | Some _ => false
  | None => match s with
            | "" => true
            | String _ s' => matchesNowhere matchAt s'
            end
  end.
End Text.


(** ** What an editor is seeded from *)

Module Revisit.
(* the slots of an editor's state that its first render seeds from the
   store, each with the fallback of its useState initialiser *)
Definition seeds (e : Wizard.editor) : Wizard.stateOf e -> list (any * any) :=
  match e with
  | Wizard.Jenkinsfile => fun st =>
      [ (JenkinsfileSetup.jenkinsfile st, VStr JenkinsfileSetup.defaultJenkinsfile);
        (JenkinsfileSetup.vars st, JenkinsfileSetup.defaultVars) ]
  | Wizard.Dockerfile => fun st =>
      [ (DockerfileSetup.dockerfile st, VStr DockerfileSetup.defaultDockerfile);
        (DockerfileSetup.vars st, DockerfileSetup.defaultVars) ]
  | Wizard.Kubernetes => fun st =>
      [ (KubernetesSetup.deploymentYaml st, VStr KubernetesSetup.defaultDeploymentYaml);
        (KubernetesSetup.serviceYaml st, VStr KubernetesSetup.defaultServiceYaml);
        (KubernetesSetup.redisYaml st, VStr KubernetesSetup.defaultRedisYaml);
        (KubernetesSetup.configMapYaml st, VStr KubernetesSetup.defaultConfigMapYaml);
        (KubernetesSetup.persistentVolumeYaml st,
         VStr KubernetesSetup.defaultPersistentVolumeYaml);
        (KubernetesSetup.persistentVolumeClaimYaml st,
         VStr KubernetesSetup.defaultPersistentVolumeClaimYaml);
        (KubernetesSetup.enablePersistence st, VBool false);
        (KubernetesSetup.cloudProvider st, VStr "aws");
        (KubernetesSetup.storageClass st, VStr "gp2");
        (KubernetesSetup.diskSize st, VStr "5");
        (KubernetesSetup.volumePath st, VStr "/data");
        (KubernetesSetup.vars st, KubernetesSetup.defaultVars) ]
  | Wizard.Deployment => fun st =>
      [ (DeploymentConfig.envSampleFile st, VStr DeploymentConfig.defaultEnvSampleFile);
        (DeploymentConfig.readmeFile st, VStr DeploymentConfig.defaultReadmeFile);
        (DeploymentConfig.documentationFile st, VStr DeploymentConfig.defaultDocumentationFile);
        (DeploymentConfig.settings st, DeploymentConfig.defaultSettings) ]
  | Wizard.Monitoring => fun st =>
      [ (MonitoringSetup.prometheusYaml st, VStr MonitoringSetup.defaultPrometheusYaml);
        (MonitoringSetup.grafanaYaml st, VStr MonitoringSetup.defaultGrafanaYaml);
        (MonitoringSetup.dashboardJson st, VStr MonitoringSetup.defaultDashboardJson);
        (MonitoringSetup.alertsYaml st, VStr MonitoringSetup.defaultAlertsYaml);
        (MonitoringSetup.settings st, MonitoringSetup.defaultSettings) ]
  end.

(* the values of the slots *)
Definition slots (e : Wizard.editor) (st : Wizard.stateOf e) : list any :=
  map fst (seeds e st).

(* the property names of the slots in the object handleApplyChanges builds,
   which are the names the useState initialisers read (savedConfig.<name>) *)
Definition keys (e : Wizard.editor) : list string :=
  match e with
  | Wizard.Jenkinsfile => [ "jenkinsfile"; "vars" ]
  | Wizard.Dockerfile => [ "dockerfile"; "vars" ]
  | Wizard.Kubernetes =>
      [ "deploymentYaml"; "serviceYaml"; "redisYaml"; "configMapYaml";
        "persistentVolumeYaml"; "persistentVolumeClaimYaml"; "enablePersistence";
        "cloudProvider"; "storageClass"; "diskSize"; "volumePath"; "vars" ]
  | Wizard.Deployment => [ "envSampleFile"; "readmeFile"; "documentationFile"; "settings" ]
  | Wizard.Monitoring =>
      [ "prometheusYaml"; "grafanaYaml"; "dashboardJson"; "alertsYaml"; "settings" ]
  end.

(* the store after the editor applied its state *)
Definition applied (e : Wizard.editor) (st : Wizard.stateOf e) (configs : gmap string any)
  : gmap string any :=
  ConfigContext.applyConfig (Wizard.stepId e) (Wizard.currentConfig e st) configs.
End Revisit.

(** ** The controls of the editors (the JSX of the five steps,
       components/ApplyButton.tsx) *)

Module View.
(* the items of the cloud provider select *)
Inductive provider : Type := aws | gcp | azure | onprem.

Definition providerValue (p : provider) : string :=
  match p with
  | aws => "aws"
  | gcp => "gcp"
  | azure => "azure"
  | onprem => "onprem"
  end.

(* What the view of an editor lets the user do.  Text inputs and selects
   deliver strings, switches deliver booleans; a control bound to a field
   is named by the field.  A view has a few field names and select items
   only, and shows some of its controls under a condition: here every name
   and every string is admitted at every time, so that what holds for all
   controls holds for those on screen. *)
Inductive control : Type :=
| Field (name value : string)
| Switch (name : string) (checked : bool)
| CodeEditor (index : nat) (code : string)
| PersistenceSwitch (checked : bool)
| CloudProviderSelect (p : provider)
| StorageClassSelect (value : string)
| DiskSizeInput (value : string)
| VolumePathInput (value : string)
| ApplyButton
| NextButton.

(* ApplyButton: disabled={!hasChanges}; handleApply runs onApply, then toasts *)
Definition handleApply {setter : Type} (hasChanges : bool) (onApply : list (action setter))
  : list (action setter) :=
  if hasChanges then
    onApply ++ [ Call (Toast "Changes applied"
                         "Your configuration has been updated successfully.") ]
  else [].

Definition jenkinsfile (c : control) (st : JenkinsfileSetup.state)
  : list (action JenkinsfileSetup.setter) :=
  match c with
  | Field name value => JenkinsfileSetup.handleVarChange name value st
  | CodeEditor 0 code => JenkinsfileSetup.handleCodeChange code st
  | ApplyButton =>
      handleApply (JenkinsfileSetup.hasUnsavedChanges st) (JenkinsfileSetup.handleApplyChanges st)
  | NextButton => JenkinsfileSetup.handleNextStep st
  | _ => []
  end.

Definition dockerfile (c : control) (st : DockerfileSetup.state)
  : list (action DockerfileSetup.setter) :=
  match c with
  | Field name value => DockerfileSetup.handleInputChange name value st
  | CodeEditor 0 code => DockerfileSetup.handleCodeChange code st
  | ApplyButton =>
      handleApply (DockerfileSetup.hasUnsavedChanges st) (DockerfileSetup.handleApplyChanges st)
  | NextButton => DockerfileSetup.handleNextStep st
  | _ => []
  end.

Definition kubernetes (c : control) (st : KubernetesSetup.state)
  : list (action KubernetesSetup.setter) :=
  match c with
  | Field name value => KubernetesSetup.handleInputChange name value st
  | CodeEditor 0 code => KubernetesSetup.handleDeploymentChange code st
  | CodeEditor 1 code => KubernetesSetup.handleServiceChange code st
  | CodeEditor 2 code => KubernetesSetup.handleRedisChange code st
  | CodeEditor 3 code => KubernetesSetup.handleConfigMapChange code st
  | CodeEditor 4 code => KubernetesSetup.handlePersistentVolumeChange code st
  | CodeEditor 5 code => KubernetesSetup.handlePersistentVolumeClaimChange code st
  | PersistenceSwitch checked => KubernetesSetup.handlePersistenceToggle checked st
  | CloudProviderSelect p => KubernetesSetup.handleCloudProviderChange (providerValue p) st
  | StorageClassSelect value => KubernetesSetup.handleStorageClassChange value st
  | DiskSizeInput value => KubernetesSetup.handleDiskSizeChange value st
  | VolumePathInput value => KubernetesSetup.handleVolumePathChange value st
  | ApplyButton =>
      handleApply (KubernetesSetup.hasUnsavedChanges st) (KubernetesSetup.handleApplyChanges st)
  | NextButton => KubernetesSetup.handleNextStep st
  | _ => []
  end.

Definition deployment (c : control) (st : DeploymentConfig.state)
  : list (action DeploymentConfig.setter) :=
  match c with
  | Field key value => DeploymentConfig.handleSettingsChange key (VStr value) st
  | Switch key checked => DeploymentConfig.handleSettingsChange key (VBool checked) st
  | CodeEditor 0 code => DeploymentConfig.handleEnvSampleChange code st
  | CodeEditor 1 code => DeploymentConfig.handleReadmeChange code st
  | CodeEditor 2 code => DeploymentConfig.handleDocumentationChange code st
  | ApplyButton =>
      handleApply (DeploymentConfig.hasUnsavedChanges st) (DeploymentConfig.handleApplyChanges st)
  | NextButton => DeploymentConfig.handleNextStep st
  | _ => []
  end.

Definition monitoring (c : control) (st : MonitoringSetup.state)
  : list (action MonitoringSetup.setter) :=
  match c with
  | Field key value => MonitoringSetup.handleSettingsChange key (VStr value) st
  | Switch key checked => MonitoringSetup.handleSettingsChange key (VBool checked) st
  | CodeEditor 0 code => MonitoringSetup.handlePrometheusChange code st
  | CodeEditor 1 code => MonitoringSetup.handleGrafanaChange code st
  | CodeEditor 2 code => MonitoringSetup.handleDashboardChange code st
  | CodeEditor 3 code => MonitoringSetup.handleAlertsChange code st
  | ApplyButton =>
      handleApply (MonitoringSetup.hasUnsavedChanges st) (MonitoringSetup.handleApplyChanges st)
  | NextButton => MonitoringSetup.handleNextStep st
  | _ => []
  end.

(* the handler a control of the step runs; a control the step does not
   have runs nothing *)
Definition handle (e : Wizard.editor)
  : control -> Wizard.stateOf e -> list (action (Wizard.setterOf e)) :=
  match e with
  | Wizard.Jenkinsfile => jenkinsfile
  | Wizard.Dockerfile => dockerfile
  | Wizard.Kubernetes => kubernetes
  | Wizard.Deployment => deployment
  | Wizard.Monitoring => monitoring
  end.

(* the code prop of each CodeEditor of the step *)
Definition code (e : Wizard.editor) : Wizard.stateOf e -> list any :=
  match e with
  | Wizard.Jenkinsfile => fun st => [ JenkinsfileSetup.jenkinsfile st ]
  | Wizard.Dockerfile => fun st => [ DockerfileSetup.dockerfile st ]
  | Wizard.Kubernetes => KubernetesSetup.buffers
  | Wizard.Deployment => fun st =>
      [ DeploymentConfig.envSampleFile st; DeploymentConfig.readmeFile st;
        DeploymentConfig.documentationFile st ]
  | Wizard.Monitoring => fun st =>
      [ MonitoringSetup.prometheusYaml st; MonitoringSetup.grafanaYaml st;
        MonitoringSetup.dashboardJson st; MonitoringSetup.alertsYaml st ]
  end.

Definition isText (v : any) : bool :=
  match v with VStr _ => true | _ => false end.

(* a string, a boolean or undefined *)
Definition isPrimitive (v : any) : bool :=
  match v with VArr _ | VObj _ | VNative _ => false | _ => true end.

(* storageClasses[v] is one of the four lists *)
Definition isProvider (v : any) : bool :=
  match v with
  | VStr s => match KubernetesSetup.storageClasses !! s with Some _ => true | None => false end
  | _ => false
  end.

(* the slots of the Kubernetes step that are no code and no vars *)
Definition choices (e : Wizard.editor) : Wizard.stateOf e -> list any :=
  match e with
  | Wizard.Kubernetes => fun st =>
      [ KubernetesSetup.enablePersistence st; KubernetesSetup.storageClass st;
        KubernetesSetup.diskSize st; KubernetesSetup.volumePath st ]
  | _ => fun _ => []
  end.

Definition providers (e : Wizard.editor) : Wizard.stateOf e -> list any :=
  match e with
  | Wizard.Kubernetes => fun st => [ KubernetesSetup.cloudProvider st ]
  | _ => fun _ => []
  end.

(* the state has the shape the handlers and the view rely on: every code
   prop is a string (String.prototype.replace and includes are called on
   them), the cloud provider is a key of storageClasses (the view maps over
   storageClasses[cloudProvider]), the other choices are primitive values *)
Definition wellFormed (e : Wizard.editor) (st : Wizard.stateOf e) : bool :=
  forallb isText (code e st) && forallb isProvider (providers e st)
  && forallb isPrimitive (choices e st).

(* a setter issued by an edit: a string into a code buffer, a provider
   into the provider slot, a primitive value into another choice, or an
   update of the vars or the settings *)
Definition typed (e : Wizard.editor) : Wizard.setterOf e -> bool :=
  match e with
  | Wizard.Jenkinsfile => fun x =>
      match x with
      | JenkinsfileSetup.SetJenkinsfile v => isText v
      | JenkinsfileSetup.SetVars _ => true
      | JenkinsfileSetup.SetHasUnsavedChanges _ => false
      end
  | Wizard.Dockerfile => fun x =>
      match x with
      | DockerfileSetup.SetDockerfile v => isText v
      | DockerfileSetup.SetVars _ => true
      | DockerfileSetup.SetHasUnsavedChanges _ => false
      end
  | Wizard.Kubernetes => fun x =>
      match x with
      | KubernetesSetup.SetDeploymentYaml v | KubernetesSetup.SetServiceYaml v
      | KubernetesSetup.SetRedisYaml v | KubernetesSetup.SetConfigMapYaml v
      | KubernetesSetup.SetPersistentVolumeYaml v
      | KubernetesSetup.SetPersistentVolumeClaimYaml v => isText v
      | KubernetesSetup.SetCloudProvider v => isProvider v
      | KubernetesSetup.SetEnablePersistence v | KubernetesSetup.SetStorageClass v
      | KubernetesSetup.SetDiskSize v | KubernetesSetup.SetVolumePath v => isPrimitive v
      | KubernetesSetup.SetVars _ => true
      | KubernetesSetup.SetHasUnsavedChanges _ => false
      end
  | Wizard.Deployment => fun x =>
      match x with
      | DeploymentConfig.SetEnvSampleFile v | DeploymentConfig.SetReadmeFile v
      | DeploymentConfig.SetDocumentationFile v => isText v
      | DeploymentConfig.SetSettings _ => true
      | DeploymentConfig.SetHasUnsavedChanges _ => false
      end
  | Wizard.Monitoring => fun x =>
      match x with
      | MonitoringSetup.SetPrometheusYaml v | MonitoringSetup.SetGrafanaYaml v
      | MonitoringSetup.SetDashboardJson v | MonitoringSetup.SetAlertsYaml v => isText v
      | MonitoringSetup.SetSettings _ => true
      | MonitoringSetup.SetHasUnsavedChanges _ => false
      end
  end.

(* an action of an edit: a typed setter, no call and no error *)
Definition plain (e : Wizard.editor) (a : action (Wizard.setterOf e)) : bool :=
  match a with
  | Set_ x => typed e x
  | Call _ | Throw => false
  end.

(* the controls that edit; the two buttons apply and leave *)
Definition edits (c : control) : bool :=
  match c with
  | ApplyButton | NextButton => false
  | _ => true
  end.

Definition isThrow {setter : Type} (a : action setter) : bool :=
  match a with Throw => true | _ => false end.
End View.

(** ** The wizard as a whole (pages/Index.tsx with the step on screen) *)

Module App.
(* the step component on screen, with its state *)
Inductive screen : Type :=
| Overview
| Repository (st : RepositorySetup.state)
| Editor (e : Wizard.editor) (st : Wizard.stateOf e)
| ExportProject
| Settings
| Blank.

Record state : Type := { shell : world; shown : screen }.

(* {activeStep === n && <Step goToNextStep={handleNextStep} />}: the
   component of the index, mounted on the store as it is *)
Definition enter (w : world) : screen :=
  match Index.render (activeStep w) with
  | Some Index.Overview => Overview
  | Some Index.RepositorySetup => Repository RepositorySetup.init
  | Some Index.JenkinsfileSetup =>
      Editor Wizard.Jenkinsfile (Wizard.mount Wizard.Jenkinsfile (configs w))
  | Some Index.DockerfileSetup =>
      Editor Wizard.Dockerfile (Wizard.mount Wizard.Dockerfile (configs w))
  | Some Index.KubernetesSetup =>
      Editor Wizard.Kubernetes (Wizard.mount Wizard.Kubernetes (configs w))
  | Some Index.DeploymentConfig =>
      Editor Wizard.Deployment (Wizard.mount Wizard.Deployment (configs w))
  | Some Index.MonitoringSetup =>
      Editor Wizard.Monitoring (Wizard.mount Wizard.Monitoring (configs w))
  | Some Index.ExportProject => ExportProject
  | Some Index.Settings => Settings
  | None => Blank
  end.

Definition initial : state :=
  let w := {| configs := ConfigContext.initial; activeStep := Index.initial |} in
  {| shell := w; shown := enter w |}.

(* the next render: while the index is the same the component on screen
   goes on with its state; when the index changed, that component is
   unmounted and the one of the new index is mounted *)
Definition land (a : state) (w : world) (same : screen) : state :=
  {| shell := w;
     shown := if Z.eqb (activeStep w) (activeStep (shell a)) then same else enter w |}.

(* What the user can do: click the n-th navigation button of the sidebar,
   press Get Started on the overview, use the repository step, use a
   control of the editor on screen.  The other two buttons of the sidebar
   (collapse, export all) and the controls of the export and the settings
   steps call neither setActiveStep, applyConfig nor goToNextStep and touch
   no editor: they are left out. *)
Inductive input : Type :=
| SidebarButton (button : nat)
| GetStarted
| RepositoryInput (i : RepositorySetup.input)
| Control (c : View.control).

Definition step (a : state) (i : input) : state :=
  let w := shell a in
  match i, shown a with
  | SidebarButton button, same =>
      land a {| configs := configs w;
                activeStep := Index.step (activeStep w) (Index.Navigate button) |} same
  | GetStarted, Overview => land a (performAll w [GoToNextStep]) Overview
  | RepositoryInput i, Repository st =>
      let trace := RepositorySetup.handle i in
      land a (performAll w (calls trace)) (Repository (commit st trace))
  | Control c, Editor e st =>
      let trace := View.handle e c st in
      land a (performAll w (calls trace)) (Editor e (commit st trace))
  | _, _ => a
  end.

Definition run (inputs : list input) : state := fold_left step inputs initial.

(* the handler of the input raises a TypeError *)
Definition raises (a : state) (i : input) : bool :=
  match i, shown a with
  | Control c, Editor e st => existsb View.isThrow (View.handle e c st)
  | _, _ => false
  end.

(* the index at which Index renders the editor *)
Definition index (e : Wizard.editor) : Z :=
  match e with
  | Wizard.Jenkinsfile => 2
  | Wizard.Dockerfile => 3
  | Wizard.Kubernetes => 4
  | Wizard.Deployment => 5
  | Wizard.Monitoring => 6
  end.
(* the sidebar button of the editor's step *)
Definition button (e : Wizard.editor) : nat := Z.to_nat (index e).

(* the screen is the one of the index *)
Definition located (a : state) : Prop :=
  match shown a with
  | Overview => activeStep (shell a) = 0%Z
  | Repository _ => activeStep (shell a) = 1%Z
  | Editor e _ => activeStep (shell a) = index e
  | ExportProject => activeStep (shell a) = 7%Z
  | Settings => activeStep (shell a) = 8%Z
  | Blank => False
  end.

(* every entry of the store was applied by the editor of its key, from a
   well-formed state *)
Definition stored (configs : gmap string any) : Prop :=
  forall (k : string) (v : any),
    configs !! k = Some v ->
    exists (e : Wizard.editor) (st : Wizard.stateOf e),
      k = Wizard.stepId e /\ v = Wizard.currentConfig e st /\ View.wellFormed e st = true.

(* the editor on screen is well formed, and while its flag is clear the
   store holds what it shows *)
Definition saved (a : state) : Prop :=
  match shown a with
  | Editor e st =>
      View.wellFormed e st = true
      /\ (Wizard.hasUnsavedChanges e st = false ->
          ConfigContext.read (configs (shell a)) (Wizard.stepId e) = Wizard.currentConfig e st)
  | _ => True
  end.

Definition invariant (a : state) : Prop :=
  located a /\ stored (configs (shell a)) /\ saved a.
End App.

(** ** Substitution rules and the texts they derive *)

Module Rules.
Import Str RegExp.

(* a substitution rule: every match of a pattern, or the first occurrence of
   a text, gives way to a replacement *)
Inductive rule : Type :=
| All (pattern : regex) (replacement : string)      (* .replace(/pattern/g, replacement) *)
| First (search : string) (replacement : string).   (* .replace('search', replacement) *)

Definition rewrite (r : rule) (text : string) : string :=
  match r with
  | All pattern replacement => replaceRegExp pattern true replacement text
  | First search replacement => replaceString search replacement text
  end.

(* the rules applied one after the other, starting from a template *)
Definition apply (rules : list rule) (template : string) : string :=
  fold_left (fun text r => rewrite r text) rules template.

(* the rules of a field of the Jenkinsfile editor *)
Definition jenkinsfile (name value : string) : list rule :=
  if String.eqb name "dockerUsername" then [ First "DOCKER_USERNAME" value ]
  else if String.eqb name "imageName" then
    [ All (lit "IMAGE_NAME = 'go-microservice'") ("IMAGE_NAME = '" +:+ value +:+ "'");
      All (lit "deployment/go-microservice") ("deployment/" +:+ value) ]
  else if String.eqb name "kubeConfigId" then
    [ All (lit "credentials('kubeconfig')") ("credentials('" +:+ value +:+ "')") ]
  else if String.eqb name "dockerCredentialsId" then
    [ All (lit "credentials('docker-credentials')") ("credentials('" +:+ value +:+ "')") ]
  else [].

(* the rules of a field of the Dockerfile editor *)
Definition dockerfile (name value : string) : list rule :=
  if String.eqb name "goVersion" then
    [ All (seqs [lit "golang:1"; Dot; lit "18-alpine"]) ("golang:" +:+ value) ]
  else if String.eqb name "baseImage" then
    [ All (seqs [lit "alpine:3"; Dot; lit "16"]) value ]
  else if String.eqb name "port" then [ All (lit "EXPOSE 8080") ("EXPOSE " +:+ value) ]
  else if String.eqb name "mainPath" then [ All (lit "./cmd/api") value ]
  else [].

(* the form of the Kubernetes editor as a change of [name] leaves it: the
   field changed reads as the new value, every other as vars holds it *)
Definition form (name value : string) (vars : any) (key : string) : any :=
  if String.eqb name key then VStr value else getProp vars key.

(* the rules of the four manifests of the Kubernetes editor, from its form *)
Definition deployment (field : string -> any) : list rule :=
  [ All (lit "namespace: default") ("namespace: " +:+ toString (field "namespace"));
    All (lit "replicas: 2") ("replicas: " +:+ toString (field "replicas"));
    All (lit "DOCKER_USERNAME") (toString (field "dockerUsername"));
    All (lit "go-microservice") (toString (field "appName")) ].

Definition service (field : string -> any) : list rule :=
  [ All (lit "namespace: default") ("namespace: " +:+ toString (field "namespace"));
    All (lit "type: ClusterIP") ("type: " +:+ toString (field "serviceType"));
    All (lit "go-microservice") (toString (field "appName")) ].

Definition redis (field : string -> any) : list rule :=
  [ All (lit "namespace: default") ("namespace: " +:+ toString (field "namespace"));
    All (seqs [lit "redis:6"; Dot; lit "2-alpine"])
      ("redis:" +:+ toString (field "redisVersion")) ].

Definition configMap (field : string -> any) : list rule :=
  [ All (lit "namespace: default") ("namespace: " +:+ toString (field "namespace"));
    All (lit "go-microservice-config") (toString (field "appName") +:+ "-config") ].

(* the block of the cloud provider, with the volume path filled in for an
   on-premises volume *)
Definition cloudConfig (cloudProvider volumePath : any) : any :=
  let block :=
    default VUndefined (KubernetesSetup.cloudProviderConfigs !! toString cloudProvider) in
  if KubernetesSetup.isOnprem cloudProvider && truthy volumePath
  then VStr (apply [ All (lit "PATH_VALUE") (toString volumePath) ] (toString block))
  else block.

(* the rules of the two persistence manifests, from the namespace, the
   application name and the persistence choices *)
Definition persistentVolume (namespace appName cloudProvider storageClass diskSize
    volumePath : any) : list rule :=
  [ All (lit "NAMESPACE") (toString namespace);
    All (lit "APP_NAME") (toString appName);
    All (lit "STORAGE_CLASS") (toString storageClass);
    All (lit "CLOUD_PROVIDER_SPECIFIC") (toString (cloudConfig cloudProvider volumePath));
    All (lit "DISK_NAME") (toString appName +:+ "-disk");
    All (lit "storage: 5Gi") ("storage: " +:+ toString diskSize +:+ "Gi") ].

Definition persistentVolumeClaim (namespace appName storageClass diskSize : any)
  : list rule :=
  [ All (lit "NAMESPACE") (toString namespace);
    All (lit "APP_NAME") (toString appName);
    All (lit "STORAGE_CLASS") (toString storageClass);
    All (lit "5Gi") (toString diskSize +:+ "Gi") ].

(* the six buffers of the Kubernetes editor derived from the default
   templates: the four manifests from a form, the two persistence manifests
   from a namespace, an application name and the persistence choices the
   state shows *)
Definition manifests (field : string -> any) : list any :=
  [ VStr (apply (deployment field) KubernetesSetup.defaultDeploymentYaml);
    VStr (apply (service field) KubernetesSetup.defaultServiceYaml);
    VStr (apply (redis field) KubernetesSetup.defaultRedisYaml);
    VStr (apply (configMap field) KubernetesSetup.defaultConfigMapYaml) ].

Definition persistence (namespace appName : any) (st : KubernetesSetup.state) : list any :=
  [ VStr (apply (persistentVolume namespace appName (KubernetesSetup.cloudProvider st)
                   (KubernetesSetup.storageClass st) (KubernetesSetup.diskSize st)
                   (KubernetesSetup.volumePath st))
            KubernetesSetup.defaultPersistentVolumeYaml);
    VStr (apply (persistentVolumeClaim namespace appName (KubernetesSetup.storageClass st)
                   (KubernetesSetup.diskSize st))
            KubernetesSetup.defaultPersistentVolumeClaimYaml) ].
End Rules.

(** * Properties *)

(** ** The store *)

Section Store.
Import ConfigContext.

Lemma read_applyConfig_same (configs : gmap string any) (stepId : string) (config : any) :
  read (applyConfig stepId config configs) stepId = config.
Proof. unfold read, applyConfig. by rewrite lookup_insert_eq. Qed.

Lemma read_applyConfig_other (configs : gmap string any) (i j : string) (config : any) :
  i <> j -> read (applyConfig i config configs) j = read configs j.
Proof. intros Hne. unfold read, applyConfig. by rewrite lookup_insert_ne. Qed.

(* a falsy value is read back as the empty object: the store cannot hold
   undefined, null, false or the empty string as a configuration *)
Lemma getConfig_falsy (configs : gmap string any) (stepId : string) (config : any) :
  truthy config = false ->
  getConfig (applyConfig stepId config configs) stepId = VObj ∅.
Proof.
  intros Hf. unfold getConfig, or_else. by rewrite read_applyConfig_same, Hf.
Qed.

Lemma writes_keep_unwritten (writes : list (string * any)) (stepId : string) :
  forall configs : gmap string any,
    ~ In stepId (map fst writes) ->
    read (fold_left (fun c w => applyConfig (fst w) (snd w) c) writes configs) stepId
    = read configs stepId.
Proof.
  induction writes as [|[i c] writes IH]; intros configs Hnot; [done|].
  cbn [fold_left fst snd]. rewrite IH.
  - apply read_applyConfig_other. intros ->. apply Hnot. by left.
  - intros Hin. apply Hnot. by right.
Qed.
End Store.

(** C5: a configuration object written with applyConfig is what getConfig
    returns for the same step identifier on the store that results (the
    render that follows the write), whatever the store held before; the
    write replaces the entry as a whole, so a prior write to the same
    identifier leaves no trace (last write wins, no merge). *)
Theorem getConfig_applyConfig
    (configs : gmap string any) (stepId : string) (props : gmap string any) (prior : any) :
  ConfigContext.getConfig (ConfigContext.applyConfig stepId (VObj props) configs) stepId
  = VObj props
  /\ ConfigContext.applyConfig stepId (VObj props)
       (ConfigContext.applyConfig stepId prior configs)
     = ConfigContext.applyConfig stepId (VObj props) configs.
Proof.
  split.
  - unfold ConfigContext.getConfig, or_else. by rewrite read_applyConfig_same.
  - unfold ConfigContext.applyConfig. apply insert_insert_eq.
Qed.

(** C6, as amended: for a step identifier that no applyConfig call has
    written, getConfig returns the empty object unless the identifier names
    one of the properties the store inherits from Object.prototype; for
    those it returns the inherited function or object.  In both cases the
    result is truthy: it is never undefined. *)
Theorem getConfig_never_written (writes : list (string * any)) (stepId : string) :
  ~ In stepId (map fst writes) ->
  ConfigContext.getConfig (Wizard.storeAfter writes) stepId
  = match ConfigContext.inherited stepId with
    | Some n => VNative n
    | None => VObj ∅
    end
  /\ truthy (ConfigContext.getConfig (Wizard.storeAfter writes) stepId) = true.
Proof.
  intros Hnot.
  assert (H : ConfigContext.getConfig (Wizard.storeAfter writes) stepId
              = match ConfigContext.inherited stepId with
                | Some n => VNative n
                | None => VObj ∅
                end).
  { unfold ConfigContext.getConfig, Wizard.storeAfter.
    rewrite writes_keep_unwritten by exact Hnot.
    unfold ConfigContext.read, ConfigContext.initial. rewrite lookup_empty.
    by destruct (ConfigContext.inherited stepId). }
  split; [exact H|]. rewrite H. by destruct (ConfigContext.inherited stepId).
Qed.

Lemma getConfig_never_written_witness :
  ~ In "dockerfile" (map fst [("jenkinsfile", VObj ∅); ("kubernetes", VStr "x")])
  /\ ConfigContext.getConfig
       (Wizard.storeAfter [("jenkinsfile", VObj ∅); ("kubernetes", VStr "x")]) "dockerfile"
     = VObj ∅.
Proof.
  assert (Hnot : ~ In "dockerfile" (map fst [("jenkinsfile", VObj ∅); ("kubernetes", VStr "x")])).
  { simpl. intros [H|[H|[]]]; discriminate H. }
  split; [exact Hnot | exact (proj1 (getConfig_never_written _ _ Hnot))].
Defined.

(** C6, as stated, fails at the identifier toString: no call has written
    it, and getConfig returns Object.prototype.toString, which the store
    inherits, not an empty object. *)
Lemma getConfig_returns_inherited_toString :
  let writes := [("jenkinsfile", VObj ∅)] in
  ~ In "toString" (map fst writes)
  /\ ConfigContext.getConfig (Wizard.storeAfter writes) "toString"
     = VNative (BuiltinFunction "toString")
  /\ ConfigContext.getConfig (Wizard.storeAfter writes) "toString" <> VObj ∅.
Proof.
  cbv zeta. split; [|split].
  - simpl. intros [H|[]]. discriminate H.
  - reflexivity.
  - discriminate.
Qed.

(** ** The shell *)

Section Shell.
Import Index.
Local Open Scope Z_scope.

Lemma handleNextStep_range (s : Z) : 0 <= s <= 8 -> 0 <= handleNextStep s <= 8.
Proof. unfold handleNextStep. lia. Qed.

Lemma steps_id_range (button : nat) (item : StepItem) :
  steps !! button = Some item -> 0 <= id item <= 8.
Proof.
  do 9 (destruct button as [|button]; [intros [= <-]; simpl; lia|]).
  discriminate.
Qed.

Lemma step_range (s : Z) (e : event) : 0 <= s <= 8 -> 0 <= step s e <= 8.
Proof.
  intros Hs. destruct e as [|button]; simpl.
  - by apply handleNextStep_range.
  - destruct (steps !! button) as [item|] eqn:Hb; [|exact Hs].
    by apply steps_id_range with button.
Qed.

Lemma fold_step_range (es : list event) :
  forall s, 0 <= s <= 8 -> 0 <= fold_left step es s <= 8.
Proof.
  induction es as [|e es IH]; intros s Hs; [exact Hs|].
  simpl. apply IH. by apply step_range.
Qed.

Lemma iter_next_range (n : nat) (s : Z) :
  0 <= s <= 8 -> 0 <= Nat.iter n handleNextStep s <= 8.
Proof.
  intros Hs. induction n as [|n IH]; [exact Hs|].
  simpl. by apply handleNextStep_range.
Qed.

(* pressing next n times from step s lands on min (s + n) 8 *)
Lemma iter_next_min (n : nat) (s : Z) :
  s <= 8 -> Nat.iter n handleNextStep s = Z.min (s + Z.of_nat n) 8.
Proof.
  intros Hs. induction n as [|n IH]; simpl.
  - lia.
  - rewrite IH. unfold handleNextStep. lia.
Qed.
End Shell.

(** C8: the step index stays within 0..8 along every sequence of next and
    sidebar events, however many times next is pressed afterwards; at the
    last step next changes nothing. *)
Theorem activeStep_stays_in_range (es : list Index.event) (n : nat) :
  (0 <= Index.run es <= 8)%Z
  /\ (0 <= Nat.iter n Index.handleNextStep (Index.run es) <= 8)%Z
  /\ Nat.iter n Index.handleNextStep 8%Z = 8%Z.
Proof.
  assert (H0 : (0 <= Index.run es <= 8)%Z).
  { unfold Index.run. apply fold_step_range. unfold Index.initial. lia. }
  split; [exact H0|]. split.
  - by apply iter_next_range.
  - rewrite iter_next_min by lia. lia.
Qed.

(** ** Apply and next in the editors *)

Section Editors.
Import Wizard.

Lemma handleNextStep_calls (e : editor) (st : stateOf e) :
  calls (handleNextStep e st)
  = (if hasUnsavedChanges e st
     then ApplyConfig (stepId e) (currentConfig e st) :: toasts e
     else [])
    ++ [GoToNextStep].
Proof.
  destruct e; simpl in *;
    match goal with
    | |- context [JenkinsfileSetup.handleNextStep] => unfold JenkinsfileSetup.handleNextStep
    | |- context [DockerfileSetup.handleNextStep] => unfold DockerfileSetup.handleNextStep
    | |- context [KubernetesSetup.handleNextStep] => unfold KubernetesSetup.handleNextStep
    | |- context [DeploymentConfig.handleNextStep] => unfold DeploymentConfig.handleNextStep
    | |- context [MonitoringSetup.handleNextStep] => unfold MonitoringSetup.handleNextStep
    end;
    match goal with |- context [if ?b then _ else _] => destruct b end; reflexivity.
Qed.

Lemma handleNextStep_applies (e : editor) (st : stateOf e) :
  applies (handleNextStep e st)
  = if hasUnsavedChanges e st then [(stepId e, currentConfig e st)] else [].
Proof.
  destruct e; simpl in *;
    match goal with
    | |- context [JenkinsfileSetup.handleNextStep] => unfold JenkinsfileSetup.handleNextStep
    | |- context [DockerfileSetup.handleNextStep] => unfold DockerfileSetup.handleNextStep
    | |- context [KubernetesSetup.handleNextStep] => unfold KubernetesSetup.handleNextStep
    | |- context [DeploymentConfig.handleNextStep] => unfold DeploymentConfig.handleNextStep
    | |- context [MonitoringSetup.handleNextStep] => unfold MonitoringSetup.handleNextStep
    end;
    match goal with |- context [if ?b then _ else _] => destruct b end; reflexivity.
Qed.

Lemma init_flag (e : editor) (configs : gmap string any) :
  hasUnsavedChanges e (init e configs) = false.
Proof. destruct e; reflexivity. Qed.

Lemma mount_flag (e : editor) (configs : gmap string any) :
  hasUnsavedChanges e (mount e configs) = true.
Proof. destruct e; reflexivity. Qed.

(* the effect touches the flag only: what is applied after mounting is
   what the first render seeded *)
Lemma mount_currentConfig (e : editor) (configs : gmap string any) :
  currentConfig e (mount e configs) = currentConfig e (init e configs).
Proof. destruct e; reflexivity. Qed.

Lemma performAll_configs_app (w : world) (cs1 cs2 : list call) :
  performAll w (cs1 ++ cs2) = performAll (performAll w cs1) cs2.
Proof. unfold performAll. apply fold_left_app. Qed.

Lemma perform_toasts (e : editor) (w : world) : performAll w (toasts e) = w.
Proof. destruct e; reflexivity. Qed.

(* the object an editor applies holds its slots under their names, and
   nothing else *)
Lemma currentConfig_holds_slots (e : editor) (st : stateOf e) :
  currentConfig e st = obj (zip (Revisit.keys e) (Revisit.slots e st)).
Proof. destruct e; reflexivity. Qed.

Lemma getProp_currentConfig (e : editor) (st : stateOf e) :
  map (getProp (currentConfig e st)) (Revisit.keys e) = Revisit.slots e st.
Proof. destruct e; reflexivity. Qed.
End Editors.

(** C4, as amended: each of the five editors that keep an unsaved-changes
    flag (Jenkinsfile, Dockerfile, Kubernetes, deployment configuration,
    monitoring) has an apply action that writes the object of its settings
    and buffers to the store under its step identifier, leaves the step
    index alone, and clears the flag.  The object written holds every slot
    of the editor's state (buffers, choices, vars or settings) under the
    slot's name and nothing else: what getConfig returns for the step
    afterwards reads back, name by name, as the values the editor shows. *)
Theorem handleApplyChanges_writes_and_clears
    (e : Wizard.editor) (st : Wizard.stateOf e) (w : world) :
  let trace := Wizard.handleApplyChanges e st in
  let saved := ConfigContext.getConfig (configs (performAll w (calls trace))) (Wizard.stepId e) in
  applies trace = [(Wizard.stepId e, Wizard.currentConfig e st)]
  /\ configs (performAll w (calls trace))
     = <[Wizard.stepId e := Wizard.currentConfig e st]> (configs w)
  /\ saved = Wizard.currentConfig e st
  /\ activeStep (performAll w (calls trace)) = activeStep w
  /\ Wizard.hasUnsavedChanges e (commit st trace) = false
  /\ saved = obj (zip (Revisit.keys e) (Revisit.slots e st))
  /\ map (getProp saved) (Revisit.keys e) = Revisit.slots e st.
Proof.
  intros trace saved.
  assert (Hsaved : saved = Wizard.currentConfig e st).
  { subst saved trace. destruct e; cbn; unfold ConfigContext.getConfig, or_else;
      rewrite read_applyConfig_same; reflexivity. }
  split; [by destruct e|]. split; [by destruct e|]. split; [exact Hsaved|].
  split; [by destruct e|]. split; [by destruct e|].
  rewrite Hsaved. split; [apply currentConfig_holds_slots|apply getProp_currentConfig].
Qed.

(** C4, as stated, fails at the repository step: nothing its view lets the
    user do ends in an applyConfig call. *)
Lemma repository_step_never_applies :
  ~ exists i : RepositorySetup.input, applies (RepositorySetup.handle i) <> [].
Proof. intros [[name value|] H]; apply H; reflexivity. Qed.


(** C9: the first render of an editor has the unsaved-changes flag clear,
    the change-tracking effect that runs on mounting sets it, and so the
    next-step action taken right after mounting applies once, writing the
    seeded settings and buffers to the store before the step index moves:
    the object the store then holds for the step has every slot of the
    seeded state under the slot's name, and nothing else. *)
Theorem mount_then_next_applies (e : Wizard.editor) (w : world) :
  let st := Wizard.mount e (configs w) in
  let w' := performAll w (calls (Wizard.handleNextStep e st)) in
  let saved := ConfigContext.getConfig (configs w') (Wizard.stepId e) in
  Wizard.hasUnsavedChanges e (Wizard.init e (configs w)) = false
  /\ Wizard.hasUnsavedChanges e st = true
  /\ applies (Wizard.handleNextStep e st)
     = [(Wizard.stepId e, Wizard.currentConfig e (Wizard.init e (configs w)))]
  /\ configs w'
     = <[Wizard.stepId e := Wizard.currentConfig e (Wizard.init e (configs w))]> (configs w)
  /\ activeStep w' = Index.handleNextStep (activeStep w)
  /\ saved = obj (zip (Revisit.keys e) (Revisit.slots e st))
  /\ map (getProp saved) (Revisit.keys e) = Revisit.slots e st.
Proof.
  intros st w' saved.
  assert (Hflag : Wizard.hasUnsavedChanges e st = true) by apply mount_flag.
  assert (Hcfg : Wizard.currentConfig e st = Wizard.currentConfig e (Wizard.init e (configs w)))
    by apply mount_currentConfig.
  assert (Hw : configs w'
               = <[Wizard.stepId e := Wizard.currentConfig e (Wizard.init e (configs w))]>
                   (configs w)
               /\ activeStep w' = Index.handleNextStep (activeStep w)).
  { unfold w'. rewrite handleNextStep_calls, Hflag, Hcfg.
    change ((ApplyConfig (Wizard.stepId e) (Wizard.currentConfig e (Wizard.init e (configs w)))
               :: Wizard.toasts e) ++ [GoToNextStep])
      with ([ApplyConfig (Wizard.stepId e) (Wizard.currentConfig e (Wizard.init e (configs w)))]
              ++ Wizard.toasts e ++ [GoToNextStep]).
    rewrite !performAll_configs_app, perform_toasts. split; reflexivity. }
  destruct Hw as [Hconfigs Hstep].
  assert (Hsaved : saved = Wizard.currentConfig e st).
  { subst saved. rewrite Hconfigs, <- Hcfg.
    change (<[Wizard.stepId e := Wizard.currentConfig e st]> (configs w))
      with (ConfigContext.applyConfig (Wizard.stepId e) (Wizard.currentConfig e st) (configs w)).
    unfold ConfigContext.getConfig, or_else. rewrite read_applyConfig_same.
    by rewrite currentConfig_holds_slots. }
  split; [apply init_flag|]. split; [exact Hflag|]. split.
  { rewrite handleNextStep_applies, Hflag, Hcfg. reflexivity. }
  split; [exact Hconfigs|]. split; [exact Hstep|].
  rewrite Hsaved. split; [apply currentConfig_holds_slots|apply getProp_currentConfig].
Qed.

(** ** Strings: append *)

Section Append.
Lemma append_nil (t : string) : "" +:+ t = t.
Proof. reflexivity. Qed.

Lemma append_cons (c : ascii) (s t : string) : String c s +:+ t = String c (s +:+ t).
Proof. reflexivity. Qed.

Lemma append_assoc (a b c : string) : (a +:+ b) +:+ c = a +:+ (b +:+ c).
Proof.
  induction a as [|x a IH]; [reflexivity|].
  rewrite !append_cons. f_equal. exact IH.
Qed.

Lemma append_cancel_l (a x y : string) : a +:+ x = a +:+ y -> x = y.
Proof.
  induction a as [|c a IH]; [auto|].
  rewrite !append_cons. intros [= H]. auto.
Qed.

Lemma length_append (a b : string) :
  String.length (a +:+ b) = String.length a + String.length b.
Proof.
  induction a as [|c a IH]; [reflexivity|].
  rewrite append_cons. simpl. f_equal. exact IH.
Qed.

Lemma append_cancel_r (t : string) : forall x y : string, x +:+ t = y +:+ t -> x = y.
Proof.
  induction x as [|c x IH]; intros [|d y] H; rewrite ?append_cons, ?append_nil in H.
  - reflexivity.
  - apply (f_equal String.length) in H. simpl in H. rewrite length_append in H. lia.
  - apply (f_equal String.length) in H. simpl in H. rewrite length_append in H. lia.
  - injection H as -> H. f_equal. by apply IH.
Qed.

Lemma ofZ_inj (a b : Z) : Str.ofZ a = Str.ofZ b -> a = b.
Proof.
  unfold Str.ofZ. intros H.
  apply DecimalZ.to_int_inj.
  apply (f_equal NilEmpty.int_of_string) in H.
  rewrite !NilEmpty.isi in H. by injection H.
Qed.

Lemma VStr_inj (s t : string) : VStr s = VStr t -> s = t.
Proof. by intros [= H]. Qed.

Lemma VStr_neq (s t : string) : String.eqb s t = false -> VStr s <> VStr t.
Proof. intros H [= E]. apply String.eqb_neq in H. by apply H. Qed.
End Append.

(** ** Replacement: a pattern that matches nowhere *)

Section NoMatch.
Variable matchAt : string -> option (nat * list (option string)).
Variable replacement : string.

(* a rule whose pattern is found nowhere in the text leaves it as it is *)
Lemma replaceFrom_no_match (global : bool) (s : string) :
  (forall n, matchAt (Str.drop n s) = None) ->
  forall (rbefore : string) (active : bool),
    replaceFrom matchAt replacement global rbefore s 0 active = s.
Proof.
  induction s as [|c s IH]; intros Hno rbefore active.
  - simpl. specialize (Hno 0). simpl in Hno. rewrite Hno. by destruct active.
  - simpl. pose proof (Hno 0) as H0. simpl in H0. rewrite H0.
    assert (Hs : forall n, matchAt (Str.drop n s) = None) by (intros n; apply (Hno (S n))).
    destruct active; f_equal; by apply IH.
Qed.
End NoMatch.

(* strip the common front of an equation between two right-nested appends *)
Ltac strip_front H :=
  repeat match type of H with
         | String ?c _ = String ?c _ => injection H as H
         | ?a +:+ _ = ?a +:+ _ => apply append_cancel_l in H
         end.

(** ** Export *)

Section Sample.
Import ExportProject.

(* the fallback Jenkinsfile carries the build number: two build numbers
   give two texts *)
Lemma sampleJenkinsfile_inj (configs : gmap string any) (b1 b2 : Z) :
  sampleJenkinsfile configs b1 = sampleJenkinsfile configs b2 -> b1 = b2.
Proof.
  unfold sampleJenkinsfile. cbn [Str.unlines]. intros H.
  rewrite !append_assoc in H.
  strip_front H.
  apply append_cancel_r in H. by apply ofZ_inj.
Qed.
(* what the export gives for the Jenkinsfile once the editor has applied
   its state: the buffer if it is truthy, else the sample *)
Lemma export_after_apply (st : JenkinsfileSetup.state) (configs : gmap string any) (r : Z) :
  let applied :=
    ConfigContext.applyConfig "jenkinsfile" (JenkinsfileSetup.currentConfig st) configs in
  generateSampleContent applied r "Jenkinsfile" "config"
  = if truthy (JenkinsfileSetup.jenkinsfile st) then JenkinsfileSetup.jenkinsfile st
    else VStr (sampleJenkinsfile applied (r + 1)).
Proof.
  cbv zeta. unfold generateSampleContent, stored.
  change (String.eqb "Jenkinsfile" "Jenkinsfile") with true. cbv iota.
  rewrite read_applyConfig_same.
  change (getProp (JenkinsfileSetup.currentConfig st) "jenkinsfile")
    with (JenkinsfileSetup.jenkinsfile st).
  reflexivity.
Qed.

(* and on a store no jenkinsfile entry was written to: the sample *)
Lemma export_without_apply (writes : list (string * any)) (r : Z) :
  ~ In "jenkinsfile" (map fst writes) ->
  generateSampleContent (Wizard.storeAfter writes) r "Jenkinsfile" "config"
  = VStr (sampleJenkinsfile (Wizard.storeAfter writes) (r + 1)).
Proof.
  intros Hnot. unfold generateSampleContent, stored.
  change (String.eqb "Jenkinsfile" "Jenkinsfile") with true. cbv iota.
  unfold Wizard.storeAfter at 1 2. rewrite writes_keep_unwritten by exact Hnot.
  reflexivity.
Qed.

Lemma samples_differ (configs : gmap string any) (r1 r2 : Z) :
  r1 <> r2 ->
  VStr (sampleJenkinsfile configs (r1 + 1)) <> VStr (sampleJenkinsfile configs (r2 + 1)).
Proof. intros Hne H. apply VStr_inj, sampleJenkinsfile_inj in H. lia. Qed.
End Sample.

(** C10, as amended: the exported Jenkinsfile is the same for every draw of
    the build number exactly when a jenkinsfile buffer that is not empty
    has been applied.  On the store the Jenkinsfile editor has applied its
    state to, the export is the applied buffer for every draw if the buffer
    is truthy (a string: not empty), and the fallback sample, which differs
    for any two different draws, if it is not; on a store no jenkinsfile
    entry was ever written to, it is the sample too. *)
Theorem jenkinsfile_export_deterministic_iff_buffer_applied
    (st : JenkinsfileSetup.state) (configs : gmap string any)
    (writes : list (string * any)) :
  let applied :=
    ConfigContext.applyConfig "jenkinsfile" (JenkinsfileSetup.currentConfig st) configs in
  let export store random :=
    ExportProject.generateSampleContent store random "Jenkinsfile" "config" in
  ((forall r1 r2 : Z, (0 <= r1 < 1000)%Z -> (0 <= r2 < 1000)%Z ->
      export applied r1 = export applied r2)
   <-> truthy (JenkinsfileSetup.jenkinsfile st) = true)
  /\ (truthy (JenkinsfileSetup.jenkinsfile st) = true ->
      forall r : Z, export applied r = JenkinsfileSetup.jenkinsfile st)
  /\ (truthy (JenkinsfileSetup.jenkinsfile st) = false ->
      forall r1 r2 : Z, r1 <> r2 -> export applied r1 <> export applied r2)
  /\ (~ In "jenkinsfile" (map fst writes) ->
      forall r1 r2 : Z, r1 <> r2 ->
        export (Wizard.storeAfter writes) r1 <> export (Wizard.storeAfter writes) r2).
Proof.
  intros applied export. subst export. cbv beta.
  assert (Happlied : forall r,
             ExportProject.generateSampleContent applied r "Jenkinsfile" "config"
             = if truthy (JenkinsfileSetup.jenkinsfile st) then JenkinsfileSetup.jenkinsfile st
               else VStr (ExportProject.sampleJenkinsfile applied (r + 1)))
    by (intros r; apply export_after_apply).
  split; [|split; [|split]].
  - split.
    + intros Hall. destruct (truthy (JenkinsfileSetup.jenkinsfile st)) eqn:Ht; [reflexivity|].
      exfalso. apply (samples_differ applied 0 1); [lia|].
      specialize (Hall 0%Z 1%Z). rewrite !Happlied in Hall. apply Hall; lia.
    + intros Ht r1 r2 _ _. by rewrite !Happlied, Ht.
  - intros Ht r. by rewrite Happlied, Ht.
  - intros Ht r1 r2 Hne. rewrite !Happlied, Ht. by apply samples_differ.
  - intros Hnot r1 r2 Hne. rewrite !export_without_apply by exact Hnot.
    by apply samples_differ.
Qed.

Lemma jenkinsfile_export_deterministic_iff_buffer_applied_witness :
  let st := commit (JenkinsfileSetup.mount ∅)
              (JenkinsfileSetup.handleCodeChange "pipeline { agent none }"
                 (JenkinsfileSetup.mount ∅)) in
  let applied :=
    ConfigContext.applyConfig "jenkinsfile" (JenkinsfileSetup.currentConfig st) ∅ in
  truthy (JenkinsfileSetup.jenkinsfile st) = true
  /\ ~ In "jenkinsfile" (map fst [("dockerfile", VObj ∅)])
  /\ (forall r : Z,
        ExportProject.generateSampleContent applied r "Jenkinsfile" "config"
        = VStr "pipeline { agent none }")
  /\ ExportProject.generateSampleContent (Wizard.storeAfter [("dockerfile", VObj ∅)]) 6
       "Jenkinsfile" "config"
     <> ExportProject.generateSampleContent (Wizard.storeAfter [("dockerfile", VObj ∅)]) 7
          "Jenkinsfile" "config".
Proof.
  cbv zeta.
  assert (Hnot : ~ In "jenkinsfile" (map fst [("dockerfile", VObj ∅)]))
    by (simpl; intros [H|[]]; discriminate H).
  pose proof (jenkinsfile_export_deterministic_iff_buffer_applied
                (commit (JenkinsfileSetup.mount ∅)
                   (JenkinsfileSetup.handleCodeChange "pipeline { agent none }"
                      (JenkinsfileSetup.mount ∅)))
                ∅ [("dockerfile", VObj ∅)]) as (_ & Hbuffer & _ & Hsample).
  split; [reflexivity|]. split; [exact Hnot|]. split.
  - exact (Hbuffer eq_refl).
  - apply (Hsample Hnot). discriminate.
Defined.

(** C10, as stated, fails when the buffer applied is empty: the Jenkinsfile
    editor shows an emptied buffer and applies it, the store then holds the
    jenkinsfile entry with that buffer, and two exports over this store
    with different draws give different texts. *)
Lemma applied_empty_buffer_exports_samples :
  let st := commit (JenkinsfileSetup.mount ∅)
              (JenkinsfileSetup.handleCodeChange "" (JenkinsfileSetup.mount ∅)) in
  let w := performAll {| configs := ∅; activeStep := 2 |}
             (calls (JenkinsfileSetup.handleApplyChanges st)) in
  configs w !! "jenkinsfile" = Some (JenkinsfileSetup.currentConfig st)
  /\ getProp (JenkinsfileSetup.currentConfig st) "jenkinsfile" = VStr ""
  /\ ExportProject.generateSampleContent (configs w) 6 "Jenkinsfile" "config"
     <> ExportProject.generateSampleContent (configs w) 7 "Jenkinsfile" "config".
Proof.
  cbv zeta. split; [apply lookup_insert_eq|]. split; [reflexivity|].
  set (st := commit (JenkinsfileSetup.mount ∅)
               (JenkinsfileSetup.handleCodeChange "" (JenkinsfileSetup.mount ∅))).
  change (configs (performAll {| configs := ∅; activeStep := 2 |}
                     (calls (JenkinsfileSetup.handleApplyChanges st))))
    with (ConfigContext.applyConfig "jenkinsfile" (JenkinsfileSetup.currentConfig st) ∅).
  rewrite !export_after_apply.
  change (truthy (JenkinsfileSetup.jenkinsfile st)) with false. cbv iota.
  apply samples_differ. discriminate.
Qed.

(** ** Field changes and the derived buffers *)

Section Changes.
(* a Jenkinsfile field change leaves the flag set *)
Lemma jenkinsfile_change_sets_flag (name value : string) (st : JenkinsfileSetup.state) :
  JenkinsfileSetup.hasUnsavedChanges
    (commit st (JenkinsfileSetup.handleVarChange name value st)) = true.
Proof. reflexivity. Qed.

(* the rule of dockerCredentialsId looks for credentials('docker-credentials'),
   which the default Jenkinsfile does not contain: the change resets the
   buffer to the default text *)
Lemma dockerCredentialsId_rule_finds_nothing (value : string) :
  JenkinsfileSetup.substitute "dockerCredentialsId" value JenkinsfileSetup.defaultJenkinsfile
  = JenkinsfileSetup.defaultJenkinsfile.
Proof. vm_compute. reflexivity. Qed.

(* the version example: v2.34.0 gives way to v2.36.0 at its one place *)
Example prometheusVersion_change :
  let st := MonitoringSetup.mount ∅ in
  let st' := commit st (MonitoringSetup.handleSettingsChange "prometheusVersion"
                          (VStr "v2.36.0") st) in
  Str.occurrences "v2.34.0" MonitoringSetup.defaultPrometheusYaml = 1
  /\ Str.occurrences "v2.34.0" (Wizard.text (MonitoringSetup.prometheusYaml st')) = 0
  /\ Str.occurrences "prom/prometheus:v2.36.0"
       (Wizard.text (MonitoringSetup.prometheusYaml st')) = 1.
Proof. vm_compute. repeat split. Qed.
End Changes.

Section MonitoringRules.
Import MonitoringSetup.

(* the version rule of the monitoring editor works on the text the buffer
   holds *)
Lemma prometheusVersion_rule (st : state) (s : string) (value : any) :
  prometheusYaml st = VStr s ->
  prometheusYaml (commit st (handleSettingsChange "prometheusVersion" value st))
  = VStr (replaceRegExp prometheusImage true ("prom/prometheus:" +:+ toString value) s).
Proof.
  intros Hs. unfold handleSettingsChange.
  change (String.eqb "prometheusVersion" "prometheusVersion") with true. cbv iota.
  rewrite Hs. reflexivity.
Qed.
End MonitoringRules.

(** C1, as amended: a field change of the Jenkinsfile editor and of the
    Dockerfile editor sets the buffer to the rules of the field applied, one
    after the other, to the default template constant, whatever the buffer
    held.  In the Kubernetes editor a change of a variable field sets the
    four manifests to the rules of the form applied to their default
    templates and the two persistence manifests to theirs; the choice of a
    cloud provider or of a storage class, and switching persistence on,
    leave the four manifests alone and rebuild the two persistence
    manifests from their default templates, with the choices the editor
    showed when the handler ran.  A change of the disk size does so when
    one of the two persistence buffers is empty, and a change of the volume
    path when the provider is not onprem or the volume buffer is empty. *)
Theorem change_rederives_from_default_template :
  let rebuilt (st : KubernetesSetup.state) :=
    [ KubernetesSetup.deploymentYaml st; KubernetesSetup.serviceYaml st;
      KubernetesSetup.redisYaml st; KubernetesSetup.configMapYaml st ]
    ++ Rules.persistence (getProp (KubernetesSetup.vars st) "namespace")
         (getProp (KubernetesSetup.vars st) "appName") st in
  (forall (name value : string) (st : JenkinsfileSetup.state),
      JenkinsfileSetup.jenkinsfile (commit st (JenkinsfileSetup.handleVarChange name value st))
      = VStr (Rules.apply (Rules.jenkinsfile name value) JenkinsfileSetup.defaultJenkinsfile))
  /\ (forall (name value : string) (st : DockerfileSetup.state),
      DockerfileSetup.dockerfile (commit st (DockerfileSetup.handleVarChange name value st))
      = VStr (Rules.apply (Rules.dockerfile name value) DockerfileSetup.defaultDockerfile))
  /\ (forall (name value : string) (st : KubernetesSetup.state),
      let field := Rules.form name value (KubernetesSetup.vars st) in
      KubernetesSetup.buffers (commit st (KubernetesSetup.handleVarChange name value st))
      = Rules.manifests field ++ Rules.persistence (field "namespace") (field "appName") st)
  /\ (forall (p : View.provider) (st : KubernetesSetup.state),
      KubernetesSetup.buffers
        (commit st (KubernetesSetup.handleCloudProviderChange (View.providerValue p) st))
      = rebuilt st)
  /\ (forall (value : string) (st : KubernetesSetup.state),
      KubernetesSetup.buffers (commit st (KubernetesSetup.handleStorageClassChange value st))
      = rebuilt st)
  /\ (forall st : KubernetesSetup.state,
      KubernetesSetup.buffers (commit st (KubernetesSetup.handlePersistenceToggle true st))
      = rebuilt st)
  /\ (forall (value : string) (st : KubernetesSetup.state),
      truthy (KubernetesSetup.persistentVolumeYaml st)
      && truthy (KubernetesSetup.persistentVolumeClaimYaml st) = false ->
      KubernetesSetup.buffers (commit st (KubernetesSetup.handleDiskSizeChange value st))
      = rebuilt st)
  /\ (forall (value : string) (st : KubernetesSetup.state),
      KubernetesSetup.isOnprem (KubernetesSetup.cloudProvider st)
      && truthy (KubernetesSetup.persistentVolumeYaml st) = false ->
      KubernetesSetup.buffers (commit st (KubernetesSetup.handleVolumePathChange value st))
      = rebuilt st).
Proof.
  intros rebuilt. subst rebuilt. cbv beta.
  split; [|split; [|split; [|split; [|split; [|split; [|split]]]]]].
  - intros name value st.
    change (JenkinsfileSetup.jenkinsfile _)
      with (VStr (JenkinsfileSetup.substitute name value JenkinsfileSetup.defaultJenkinsfile)).
    f_equal. unfold JenkinsfileSetup.substitute.
    cbv [Rules.apply Rules.rewrite Rules.jenkinsfile fold_left].
    repeat match goal with
           | |- context [if String.eqb ?a ?b then _ else _] => destruct (String.eqb a b)
           end; reflexivity.
  - intros name value st.
    change (DockerfileSetup.dockerfile _)
      with (VStr (DockerfileSetup.substitute name value DockerfileSetup.defaultDockerfile)).
    f_equal. unfold DockerfileSetup.substitute.
    cbv [Rules.apply Rules.rewrite Rules.dockerfile fold_left].
    repeat match goal with
           | |- context [if String.eqb ?a ?b then _ else _] => destruct (String.eqb a b)
           end; reflexivity.
  - intros name value st field. subst field.
    cbv [Rules.manifests Rules.persistence Rules.apply Rules.rewrite Rules.deployment
         Rules.service Rules.redis Rules.configMap Rules.persistentVolume
         Rules.persistentVolumeClaim Rules.cloudConfig Rules.form fold_left app].
    reflexivity.
  - intros p st.
    cbv [Rules.persistence Rules.apply Rules.rewrite Rules.persistentVolume
         Rules.persistentVolumeClaim Rules.cloudConfig fold_left app].
    destruct p; unfold commit;
      match goal with |- context [if ?b then _ else _] => destruct b end; reflexivity.
  - intros value st.
    cbv [Rules.persistence Rules.apply Rules.rewrite Rules.persistentVolume
         Rules.persistentVolumeClaim Rules.cloudConfig fold_left app].
    unfold commit;
      match goal with |- context [if ?b then _ else _] => destruct b end; reflexivity.
  - intros st.
    cbv [Rules.persistence Rules.apply Rules.rewrite Rules.persistentVolume
         Rules.persistentVolumeClaim Rules.cloudConfig fold_left app].
    unfold commit;
      match goal with |- context [if ?b then _ else _] => destruct b end; reflexivity.
  - intros value st Hempty. unfold KubernetesSetup.handleDiskSizeChange. rewrite Hempty.
    cbv [Rules.persistence Rules.apply Rules.rewrite Rules.persistentVolume
         Rules.persistentVolumeClaim Rules.cloudConfig fold_left app].
    unfold commit;
      match goal with |- context [if ?b then _ else _] => destruct b end; reflexivity.
  - intros value st Hother. unfold KubernetesSetup.handleVolumePathChange. rewrite Hother.
    cbv [Rules.persistence Rules.apply Rules.rewrite Rules.persistentVolume
         Rules.persistentVolumeClaim Rules.cloudConfig fold_left app].
    unfold commit;
      match goal with |- context [if ?b then _ else _] => destruct b end; reflexivity.
Qed.

Lemma change_rederives_from_default_template_witness :
  let st0 := KubernetesSetup.mount ∅ in
  let st := commit st0 (KubernetesSetup.handlePersistentVolumeChange "" st0) in
  truthy (KubernetesSetup.persistentVolumeYaml st)
  && truthy (KubernetesSetup.persistentVolumeClaimYaml st) = false
  /\ KubernetesSetup.isOnprem (KubernetesSetup.cloudProvider st)
     && truthy (KubernetesSetup.persistentVolumeYaml st) = false
  /\ KubernetesSetup.buffers (commit st (KubernetesSetup.handleDiskSizeChange "20" st))
     = KubernetesSetup.buffers (commit st (KubernetesSetup.handleVolumePathChange "/mnt" st)).
Proof.
  cbv zeta.
  set (st := commit (KubernetesSetup.mount ∅)
               (KubernetesSetup.handlePersistentVolumeChange "" (KubernetesSetup.mount ∅))).
  assert (H1 : truthy (KubernetesSetup.persistentVolumeYaml st)
               && truthy (KubernetesSetup.persistentVolumeClaimYaml st) = false)
    by reflexivity.
  assert (H2 : KubernetesSetup.isOnprem (KubernetesSetup.cloudProvider st)
               && truthy (KubernetesSetup.persistentVolumeYaml st) = false)
    by reflexivity.
  split; [exact H1|]. split; [exact H2|].
  pose proof change_rederives_from_default_template as (_ & _ & _ & _ & _ & _ & Hd & Hv).
  rewrite (Hd "20" st H1), (Hv "/mnt" st H2). reflexivity.
Defined.

(** C1, as stated, fails in the monitoring editor: after the namespace was
    changed, a change of the Prometheus version applies its rule to the
    buffer as it stands (the new namespace stays), not to the default
    template. *)
Lemma monitoring_change_starts_from_current_buffer :
  let st0 := MonitoringSetup.mount ∅ in
  let st1 := commit st0 (MonitoringSetup.handleSettingsChange "namespace"
                           (VStr "observability") st0) in
  let st2 := commit st1 (MonitoringSetup.handleSettingsChange "prometheusVersion"
                           (VStr "v2.36.0") st1) in
  let rule := replaceRegExp MonitoringSetup.prometheusImage true "prom/prometheus:v2.36.0" in
  MonitoringSetup.prometheusYaml st2
  = VStr (rule (Wizard.text (MonitoringSetup.prometheusYaml st1)))
  /\ MonitoringSetup.prometheusYaml st2 <> VStr (rule MonitoringSetup.defaultPrometheusYaml)
  /\ Str.occurrences "namespace: observability"
       (Wizard.text (MonitoringSetup.prometheusYaml st2)) = 3.
Proof.
  cbv zeta. split; [|split].
  - vm_compute. reflexivity.
  - match goal with |- ?a <> VStr ?t =>
      let v := eval vm_compute in a in
      change a with v
    end.
    apply VStr_neq. vm_compute. reflexivity.
  - vm_compute. reflexivity.
Qed.

(** C2 at the Docker user name of the Jenkinsfile editor: the default text
    holds the literal DOCKER_USERNAME five times; after the field is
    changed to alice the buffer holds alice once, in place of the variable
    name on the left of the assignment, and still holds the stale literal
    four times. *)
Theorem dockerUsername_change_keeps_stale_literal :
  let st := JenkinsfileSetup.mount ∅ in
  let st' := commit st (JenkinsfileSetup.handleVarChange "dockerUsername" "alice" st) in
  let text := Wizard.text (JenkinsfileSetup.jenkinsfile st') in
  Str.occurrences "DOCKER_USERNAME" JenkinsfileSetup.defaultJenkinsfile = 5
  /\ Str.occurrences "DOCKER_USERNAME" text = 4
  /\ Str.occurrences "alice" text = 1
  /\ Str.includes "    alice = 'DOCKER_USERNAME'" text = true.
Proof. vm_compute. repeat split. Qed.

Section ExportSiblings.
(* the Jenkinsfile branch of generateSampleContent does hand the applied
   buffer out: the Jenkinsfile step is entered, the buffer is edited and
   applied, and the export is the edited text *)
Example export_returns_applied_jenkinsfile (random : nat -> Z) :
  let st := JenkinsfileSetup.mount ∅ in
  let st' := commit st (JenkinsfileSetup.handleCodeChange "pipeline { agent none }" st) in
  let w := performAll {| configs := ∅; activeStep := 2 |}
             (calls (JenkinsfileSetup.handleNextStep st')) in
  ExportProject.exported (configs w) random "Jenkinsfile" = Some "pipeline { agent none }".
Proof. reflexivity. Qed.

(* an empty text is falsy: applied, it reads as no buffer at all, in the
   editor and in the export *)
Example empty_buffer_counts_as_absent :
  let configs :=
    ConfigContext.applyConfig "jenkinsfile"
      (obj [ ("jenkinsfile", VStr ""); ("vars", JenkinsfileSetup.defaultVars) ]) ∅ in
  truthy (ExportProject.stored configs "jenkinsfile" "jenkinsfile") = false
  /\ JenkinsfileSetup.jenkinsfile (JenkinsfileSetup.mount configs)
     = VStr JenkinsfileSetup.defaultJenkinsfile.
Proof. split; reflexivity. Qed.
End ExportSiblings.

(** C3 at deployment.yaml: the Kubernetes step is entered, the replicas
    field is set to 5 and the step is left with next, which applies the
    buffers; the store then holds the edited manifest, and the export of
    deployment.yaml is the built-in sample all the same, for every draw of
    the build number. *)
Theorem export_ignores_applied_manifest (random : nat -> Z) :
  let st := KubernetesSetup.mount ∅ in
  let st' := commit st (KubernetesSetup.handleVarChange "replicas" "5" st) in
  let w := performAll {| configs := ∅; activeStep := 4 |}
             (calls (KubernetesSetup.handleNextStep st')) in
  let applied :=
    getProp (ConfigContext.getConfig (configs w) "kubernetes") "deploymentYaml" in
  applied = KubernetesSetup.deploymentYaml st'
  /\ Str.includes "replicas: 5" (Wizard.text applied) = true
  /\ ExportProject.exported (configs w) random "deployment.yaml"
     = Some (ExportProject.sampleDeployment (configs w) (random 2 + 1))
  /\ ExportProject.exported (configs w) random "deployment.yaml"
     <> Some (Wizard.text applied).
Proof.
  cbv zeta.
  set (w := performAll _ _).
  assert (Hx : ExportProject.exported (configs w) random "deployment.yaml"
               = Some (ExportProject.sampleDeployment (configs w) (random 2 + 1))).
  { reflexivity. }
  split; [vm_compute; reflexivity|].
  split; [vm_compute; reflexivity|].
  split; [exact Hx|].
  rewrite Hx. intros H.
  apply (f_equal (fun o : option string => Str.take 60 (default "" o))) in H.
  vm_compute in H. discriminate H.
Qed.

(** * Further properties *)

(** ** The replacement text *)

Section Substitution.
Variables matched before after : string.
Variable caps : list (option string).

Lemma getSubstitution_cons (c : ascii) (r : string) :
  Ascii.eqb c "$" = false ->
  getSubstitution matched before after caps (String c r)
  = String c (getSubstitution matched before after caps r).
Proof. intros Hc. cbn [getSubstitution]. by rewrite Hc. Qed.

(* a replacement without a dollar sign is inserted as written *)
Lemma getSubstitution_plain (r : string) :
  Text.noDollar r = true -> getSubstitution matched before after caps r = r.
Proof.
  induction r as [|c r IH]; [reflexivity|].
  cbn [Text.noDollar]. intros [Hc Hr]%andb_prop.
  apply negb_true_iff in Hc.
  rewrite getSubstitution_cons by exact Hc. f_equal. by apply IH.
Qed.

Lemma getSubstitution_app (a r : string) :
  Text.noDollar a = true ->
  getSubstitution matched before after caps (a +:+ r)
  = a +:+ getSubstitution matched before after caps r.
Proof.
  induction a as [|c a IH]; [reflexivity|].
  cbn [Text.noDollar]. intros [Hc Ha]%andb_prop.
  apply negb_true_iff in Hc.
  rewrite !append_cons, getSubstitution_cons by exact Hc. f_equal. by apply IH.
Qed.

(* two dollar signs stand for one *)
Lemma getSubstitution_dollars (r : string) :
  getSubstitution matched before after caps ("$$" +:+ r)
  = "$" +:+ getSubstitution matched before after caps r.
Proof. reflexivity. Qed.

(* $& stands for the matched text *)
Lemma getSubstitution_matched (r : string) :
  getSubstitution matched before after caps ("$&" +:+ r)
  = matched +:+ getSubstitution matched before after caps r.
Proof. reflexivity. Qed.
End Substitution.

(** ** The scan *)

Section Scan.
Variable matchAt : string -> option (nat * list (option string)).
Variable replacement : string.

Lemma matchesNowhere_drop (s : string) :
  Text.matchesNowhere matchAt s = true -> forall n, matchAt (Str.drop n s) = None.
Proof.
  induction s as [|c s IH]; cbn [Text.matchesNowhere]; intros H n.
  - destruct (matchAt "") eqn:E; [discriminate|]. by destruct n.
  - destruct (matchAt (String c s)) eqn:E; [discriminate|].
    destruct n as [|n]; [exact E|]. by apply IH.
Qed.

(* a pattern found nowhere leaves the text as it is *)
Lemma replaceFrom_nowhere (global : bool) (s rbefore : string) (active : bool) :
  Text.matchesNowhere matchAt s = true ->
  replaceFrom matchAt replacement global rbefore s 0 active = s.
Proof.
  intros H. apply replaceFrom_no_match. by apply matchesNowhere_drop.
Qed.
End Scan.

Section Occurrences.
Lemma occurrences_app_ge (p x y : string) :
  Str.occurrences p y <= Str.occurrences p (x +:+ y).
Proof.
  induction x as [|c x IH]; [reflexivity|].
  rewrite append_cons. cbn [Str.occurrences]. lia.
Qed.
End Occurrences.

(** ** Field rules on the default templates *)

Section DockerfileFields.
Import DockerfileSetup.

Lemma dockerfile_rules (value : string) :
  substitute "goVersion" value defaultDockerfile
  = Text.before "golang:1.18-alpine" defaultDockerfile
    +:+ getSubstitution "golang:1.18-alpine" (Text.before "golang:1.18-alpine" defaultDockerfile)
          (Text.after "golang:1.18-alpine" defaultDockerfile) [] ("golang:" +:+ value)
    +:+ Text.after "golang:1.18-alpine" defaultDockerfile
  /\ substitute "baseImage" value defaultDockerfile
  = Text.before "alpine:3.16" defaultDockerfile
    +:+ getSubstitution "alpine:3.16" (Text.before "alpine:3.16" defaultDockerfile)
          (Text.after "alpine:3.16" defaultDockerfile) [] value
    +:+ Text.after "alpine:3.16" defaultDockerfile
  /\ substitute "port" value defaultDockerfile
  = Text.before "EXPOSE 8080" defaultDockerfile
    +:+ getSubstitution "EXPOSE 8080" (Text.before "EXPOSE 8080" defaultDockerfile)
          (Text.after "EXPOSE 8080" defaultDockerfile) [] ("EXPOSE " +:+ value)
    +:+ Text.after "EXPOSE 8080" defaultDockerfile
  /\ substitute "mainPath" value defaultDockerfile
  = Text.before "./cmd/api" defaultDockerfile
    +:+ getSubstitution "./cmd/api" (Text.before "./cmd/api" defaultDockerfile)
          (Text.after "./cmd/api" defaultDockerfile) [] value
    +:+ Text.after "./cmd/api" defaultDockerfile.
Proof. split; [|split; [|split]]; vm_compute; reflexivity. Qed.
End DockerfileFields.

(** X1: in the Dockerfile editor, a change of one of the four fields to a
    value without a dollar sign shows the default text with the field's
    literal replaced by the value, whatever the editor showed before. *)
Theorem dockerfile_field_change (value : string) (st : DockerfileSetup.state) :
  Text.noDollar value = true ->
  let shown name :=
    DockerfileSetup.dockerfile (commit st (DockerfileSetup.handleVarChange name value st)) in
  shown "goVersion"
  = VStr (Text.splice "golang:1.18-alpine" ("golang:" +:+ value) DockerfileSetup.defaultDockerfile)
  /\ shown "baseImage"
     = VStr (Text.splice "alpine:3.16" value DockerfileSetup.defaultDockerfile)
  /\ shown "port"
     = VStr (Text.splice "EXPOSE 8080" ("EXPOSE " +:+ value) DockerfileSetup.defaultDockerfile)
  /\ shown "mainPath"
     = VStr (Text.splice "./cmd/api" value DockerfileSetup.defaultDockerfile).
Proof.
  intros Hv shown. subst shown. cbv beta.
  destruct (dockerfile_rules value) as (Hg & Hb & Hp & Hm).
  unfold Text.splice.
  repeat split.
  - change (DockerfileSetup.dockerfile _)
      with (VStr (DockerfileSetup.substitute "goVersion" value DockerfileSetup.defaultDockerfile)).
    rewrite Hg.
    rewrite (getSubstitution_app _ _ _ _ "golang:" value eq_refl).
    by rewrite getSubstitution_plain.
  - change (DockerfileSetup.dockerfile _)
      with (VStr (DockerfileSetup.substitute "baseImage" value DockerfileSetup.defaultDockerfile)).
    rewrite Hb. by rewrite getSubstitution_plain.
  - change (DockerfileSetup.dockerfile _)
      with (VStr (DockerfileSetup.substitute "port" value DockerfileSetup.defaultDockerfile)).
    rewrite Hp. rewrite (getSubstitution_app _ _ _ _ "EXPOSE " value eq_refl).
    by rewrite getSubstitution_plain.
  - change (DockerfileSetup.dockerfile _)
      with (VStr (DockerfileSetup.substitute "mainPath" value DockerfileSetup.defaultDockerfile)).
    rewrite Hm. by rewrite getSubstitution_plain.
Qed.

Lemma dockerfile_field_change_witness :
  Text.noDollar "9090" = true
  /\ DockerfileSetup.dockerfile
       (commit (DockerfileSetup.mount ∅)
          (DockerfileSetup.handleVarChange "port" "9090" (DockerfileSetup.mount ∅)))
     = VStr (Text.splice "EXPOSE 8080" ("EXPOSE " +:+ "9090") DockerfileSetup.defaultDockerfile).
Proof.
  split; [reflexivity|].
  exact (proj1 (proj2 (proj2 (dockerfile_field_change "9090" (DockerfileSetup.mount ∅) eq_refl)))).
Defined.

Section JenkinsfileFields.
Import JenkinsfileSetup.

Lemma jenkinsfile_rules (value : string) :
  substitute "dockerUsername" value defaultJenkinsfile
  = Text.before "DOCKER_USERNAME" defaultJenkinsfile
    +:+ getSubstitution "DOCKER_USERNAME" (Text.before "DOCKER_USERNAME" defaultJenkinsfile)
          (Text.after "DOCKER_USERNAME" defaultJenkinsfile) [] value
    +:+ Text.after "DOCKER_USERNAME" defaultJenkinsfile
  /\ substitute "kubeConfigId" value defaultJenkinsfile
  = Text.before "credentials('kubeconfig')" defaultJenkinsfile
    +:+ getSubstitution "credentials('kubeconfig')"
          (Text.before "credentials('kubeconfig')" defaultJenkinsfile)
          (Text.after "credentials('kubeconfig')" defaultJenkinsfile) []
          ("credentials('" +:+ value +:+ "')")
    +:+ Text.after "credentials('kubeconfig')" defaultJenkinsfile
  /\ substitute "dockerCredentialsId" value defaultJenkinsfile = defaultJenkinsfile.
Proof. split; [|split]; vm_compute; reflexivity. Qed.

Lemma substitute_other (name value text : string) :
  name <> "dockerUsername" -> name <> "imageName" -> name <> "kubeConfigId" ->
  name <> "dockerCredentialsId" ->
  substitute name value text = text.
Proof.
  intros H1 H2 H3 H4. unfold substitute.
  rewrite (proj2 (String.eqb_neq _ _) H1), (proj2 (String.eqb_neq _ _) H2),
    (proj2 (String.eqb_neq _ _) H3), (proj2 (String.eqb_neq _ _) H4).
  reflexivity.
Qed.
End JenkinsfileFields.

(** X2: in the Jenkinsfile editor a change of a field other than the Docker
    user name, the image name and the Kubernetes config id puts the default
    text back into the buffer, whatever was typed into it: the rule of the
    Docker credentials id looks for a text the template does not hold, and
    other names have no rule. *)
Theorem jenkinsfile_inert_field_resets_buffer
    (name value : string) (st : JenkinsfileSetup.state) :
  name <> "dockerUsername" -> name <> "imageName" -> name <> "kubeConfigId" ->
  let st' := commit st (JenkinsfileSetup.handleVarChange name value st) in
  JenkinsfileSetup.jenkinsfile st' = VStr JenkinsfileSetup.defaultJenkinsfile
  /\ getProp (JenkinsfileSetup.vars st') name = VStr value
  /\ JenkinsfileSetup.hasUnsavedChanges st' = true.
Proof.
  intros H1 H2 H3 st'. subst st'.
  split; [|split; [|reflexivity]].
  - change (JenkinsfileSetup.jenkinsfile _)
      with (VStr (JenkinsfileSetup.substitute name value JenkinsfileSetup.defaultJenkinsfile)).
    f_equal.
    destruct (String.eqb_spec name "dockerCredentialsId") as [->|H4].
    + apply jenkinsfile_rules.
    + by apply substitute_other.
  - change (JenkinsfileSetup.vars _)
      with (withProp (JenkinsfileSetup.vars st) name (VStr value)).
    unfold withProp, getProp. by rewrite lookup_insert_eq.
Qed.

Lemma jenkinsfile_inert_field_resets_buffer_witness :
  let st := commit (JenkinsfileSetup.mount ∅)
              (JenkinsfileSetup.handleCodeChange "pipeline { }" (JenkinsfileSetup.mount ∅)) in
  let st' := commit st (JenkinsfileSetup.handleVarChange "dockerCredentialsId" "hub" st) in
  JenkinsfileSetup.jenkinsfile st = VStr "pipeline { }"
  /\ JenkinsfileSetup.jenkinsfile st' = VStr JenkinsfileSetup.defaultJenkinsfile.
Proof.
  split; [reflexivity|].
  apply (jenkinsfile_inert_field_resets_buffer "dockerCredentialsId" "hub"); discriminate.
Defined.

(** X3: in the Jenkinsfile editor a change of the Docker user name leaves
    at least four of the five DOCKER_USERNAME of the default text in the
    buffer, for every value.  For a value without a dollar sign the buffer
    is the default text with its first DOCKER_USERNAME, the name on the left
    of the assignment, replaced by the value, and a change of the Kubernetes
    config id shows the default text with credentials('kubeconfig') replaced
    by credentials('<value>'). *)
Theorem jenkinsfile_field_change :
  let shown name value (st : JenkinsfileSetup.state) :=
    JenkinsfileSetup.jenkinsfile (commit st (JenkinsfileSetup.handleVarChange name value st)) in
  (forall (value : string) (st : JenkinsfileSetup.state),
      4 <= Str.occurrences "DOCKER_USERNAME" (Wizard.text (shown "dockerUsername" value st)))
  /\ (forall (value : string) (st : JenkinsfileSetup.state),
      Text.noDollar value = true ->
      shown "kubeConfigId" value st
      = VStr (Text.splice "credentials('kubeconfig')" ("credentials('" +:+ value +:+ "')")
                JenkinsfileSetup.defaultJenkinsfile)
      /\ shown "dockerUsername" value st
         = VStr (Text.splice "DOCKER_USERNAME" value JenkinsfileSetup.defaultJenkinsfile)).
Proof.
  intros shown. subst shown. cbv beta. split.
  - intros value st.
    destruct (jenkinsfile_rules value) as (Hd & _ & _).
    change (JenkinsfileSetup.jenkinsfile _)
      with (VStr (JenkinsfileSetup.substitute "dockerUsername" value
                    JenkinsfileSetup.defaultJenkinsfile)).
    rewrite Hd. cbn [Wizard.text].
    etransitivity; [|apply occurrences_app_ge].
    etransitivity; [|apply occurrences_app_ge]. vm_compute. lia.
  - intros value st Hv.
    destruct (jenkinsfile_rules value) as (Hd & Hk & _). split.
    + change (JenkinsfileSetup.jenkinsfile _)
        with (VStr (JenkinsfileSetup.substitute "kubeConfigId" value
                      JenkinsfileSetup.defaultJenkinsfile)).
      rewrite Hk. unfold Text.splice.
      rewrite (getSubstitution_app _ _ _ _ "credentials('" _ eq_refl).
      rewrite (getSubstitution_app _ _ _ _ value "')" Hv).
      reflexivity.
    + change (JenkinsfileSetup.jenkinsfile _)
        with (VStr (JenkinsfileSetup.substitute "dockerUsername" value
                      JenkinsfileSetup.defaultJenkinsfile)).
      rewrite Hd. unfold Text.splice. by rewrite getSubstitution_plain.
Qed.

Lemma jenkinsfile_field_change_witness :
  Text.noDollar "prod-cluster" = true
  /\ JenkinsfileSetup.jenkinsfile
       (commit (JenkinsfileSetup.mount ∅)
          (JenkinsfileSetup.handleVarChange "kubeConfigId" "prod-cluster"
             (JenkinsfileSetup.mount ∅)))
     = VStr (Text.splice "credentials('kubeconfig')" ("credentials('" +:+ "prod-cluster" +:+ "')")
               JenkinsfileSetup.defaultJenkinsfile)
  /\ 4 <= Str.occurrences "DOCKER_USERNAME"
            (Wizard.text
               (JenkinsfileSetup.jenkinsfile
                  (commit (JenkinsfileSetup.mount ∅)
                     (JenkinsfileSetup.handleVarChange "dockerUsername" "$&"
                        (JenkinsfileSetup.mount ∅))))).
Proof.
  pose proof jenkinsfile_field_change as (Hstale & Hplain).
  split; [reflexivity|]. split.
  - exact (proj1 (Hplain "prod-cluster" (JenkinsfileSetup.mount ∅) eq_refl)).
  - exact (Hstale "$&" (JenkinsfileSetup.mount ∅)).
Defined.

(** ** What a trace leaves alone *)

Section Keeps.
Context {state setter : Type} `{Component state setter}.

(* a slot that no action of the trace and no setter of the effect changes
   is the same after the commit *)
Lemma commit_keeps {A : Type} (slot : state -> A) (trace : list (action setter)) :
  Forall (fun a => forall s, slot (settle s a) = slot s) trace ->
  Forall (fun x => forall s, slot (reduce x s) = slot s) effect ->
  forall st, slot (commit st trace) = slot st.
Proof.
  intros Htrace Heffect st.
  assert (Hfold : forall st0, slot (fold_left settle trace st0) = slot st0).
  { induction Htrace as [|a trace Ha _ IH]; intros st0; [reflexivity|].
    cbn [fold_left]. by rewrite IH, Ha. }
  assert (Heff : forall st0, slot (runEffect st0) = slot st0).
  { unfold runEffect. induction Heffect as [|x xs Hx _ IH]; intros st0; [reflexivity|].
    cbn [fold_left]. by rewrite IH, Hx. }
  unfold commit. destruct (existsb (touches st) trace); [rewrite Heff|]; apply Hfold.
Qed.
End Keeps.

(* split a handler's trace into its cases *)
Ltac trace_cases :=
  unfold replaceOn, includesOn;
  repeat match goal with
         | |- context [if ?b then _ else _] => destruct b eqn:?
         | |- context [match ?v with VUndefined => _ | _ => _ end] => destruct v eqn:?
         end.

(** ** The monitoring editor *)

Section MonitoringChanges.
Import MonitoringSetup.

Lemma settings_change_keeps {A : Type} (slot : state -> A) :
  (forall f s, slot (reduce_ (SetSettings f) s) = slot s) ->
  (forall v s, slot (reduce_ (SetPrometheusYaml v) s) = slot s) ->
  (forall v s, slot (reduce_ (SetGrafanaYaml v) s) = slot s) ->
  (forall b s, slot (reduce_ (SetHasUnsavedChanges b) s) = slot s) ->
  forall key value st, slot (commit st (handleSettingsChange key value st)) = slot st.
Proof.
  intros Hs Hp Hg Hf key value st.
  apply commit_keeps.
  - unfold handleSettingsChange. trace_cases;
      repeat (constructor; [intros ?; cbn [settle reduce component]; auto|]);
      constructor.
  - repeat constructor. intros s. apply Hf.
Qed.
End MonitoringChanges.

(** X4: no settings change of the monitoring editor touches the dashboard
    JSON or the alert rules: whatever the key, the value and the state, both
    buffers are what they were. *)
Theorem monitoring_change_keeps_dashboard_and_alerts
    (key : string) (value : any) (st : MonitoringSetup.state) :
  let st' := commit st (MonitoringSetup.handleSettingsChange key value st) in
  MonitoringSetup.dashboardJson st' = MonitoringSetup.dashboardJson st
  /\ MonitoringSetup.alertsYaml st' = MonitoringSetup.alertsYaml st.
Proof.
  split; apply (settings_change_keeps _); reflexivity.
Qed.

Section MonitoringRulesOnText.
Import MonitoringSetup.

Lemma grafanaVersion_rule (st : state) (s : string) (value : any) :
  grafanaYaml st = VStr s ->
  grafanaYaml (commit st (handleSettingsChange "grafanaVersion" value st))
  = VStr (replaceRegExp grafanaImage true ("grafana/grafana:" +:+ toString value) s).
Proof.
  intros Hs. unfold handleSettingsChange.
  change (String.eqb "grafanaVersion" "prometheusVersion") with false.
  change (String.eqb "grafanaVersion" "grafanaVersion") with true. cbv iota.
  rewrite Hs. reflexivity.
Qed.

Lemma grafanaAdminPassword_rule (st : state) (s : string) (value : any) :
  grafanaYaml st = VStr s ->
  grafanaYaml (commit st (handleSettingsChange "grafanaAdminPassword" value st))
  = VStr (replaceRegExp (RegExp.lit "value: admin123") true ("value: " +:+ toString value) s).
Proof.
  intros Hs. unfold handleSettingsChange.
  change (String.eqb "grafanaAdminPassword" "prometheusVersion") with false.
  change (String.eqb "grafanaAdminPassword" "grafanaVersion") with false.
  change (String.eqb "grafanaAdminPassword" "namespace") with false.
  change (String.eqb "grafanaAdminPassword" "grafanaAdminPassword") with true. cbv iota.
  rewrite Hs. reflexivity.
Qed.

Lemma default_prometheus_image (r : string) :
  replaceRegExp prometheusImage true r defaultPrometheusYaml
  = Text.before "prom/prometheus:v2.34.0" defaultPrometheusYaml
    +:+ getSubstitution "prom/prometheus:v2.34.0"
          (Text.before "prom/prometheus:v2.34.0" defaultPrometheusYaml)
          (Text.after "prom/prometheus:v2.34.0" defaultPrometheusYaml) [] r
    +:+ Text.after "prom/prometheus:v2.34.0" defaultPrometheusYaml.
Proof. vm_compute. reflexivity. Qed.

Lemma default_grafana_image (r : string) :
  replaceRegExp grafanaImage true r defaultGrafanaYaml
  = Text.before "grafana/grafana:9.0.0" defaultGrafanaYaml
    +:+ getSubstitution "grafana/grafana:9.0.0"
          (Text.before "grafana/grafana:9.0.0" defaultGrafanaYaml)
          (Text.after "grafana/grafana:9.0.0" defaultGrafanaYaml) [] r
    +:+ Text.after "grafana/grafana:9.0.0" defaultGrafanaYaml.
Proof. vm_compute. reflexivity. Qed.

Lemma default_grafana_password (r : string) :
  replaceRegExp (RegExp.lit "value: admin123") true r defaultGrafanaYaml
  = Text.before "value: admin123" defaultGrafanaYaml
    +:+ getSubstitution "value: admin123"
          (Text.before "value: admin123" defaultGrafanaYaml)
          (Text.after "value: admin123" defaultGrafanaYaml) [] r
    +:+ Text.after "value: admin123" defaultGrafanaYaml.
Proof. vm_compute. reflexivity. Qed.

Lemma settings_recorded (key : string) (value : any) (st : state) :
  settings (commit st (handleSettingsChange key value st))
  = withProp (settings st) key value.
Proof.
  set (first := SetSettings (fun prev => withProp prev key value)).
  change (withProp (settings st) key value) with (settings (reduce_ first st)).
  assert (Hrest : forall rest : list (action setter),
             handleSettingsChange key value st = Set_ first :: rest ->
             Forall (fun a => forall s, settings (settle s a) = settings s) rest ->
             settings (commit st (handleSettingsChange key value st))
             = settings (reduce_ first st)).
  { intros rest -> Hkeeps. unfold commit.
    assert (Hfold : forall st0, settings (fold_left settle rest st0) = settings st0).
    { induction Hkeeps as [|a rest Ha _ IH]; intros st0; [reflexivity|].
      cbn [fold_left]. by rewrite IH, Ha. }
    cbn [existsb touches fold_left]. cbn [invalidates component invalidates_ orb].
    unfold runEffect. cbn [effect component fold_left].
    change (settings (reduce (SetHasUnsavedChanges true) ?x)) with (settings x).
    cbn [reduce component reduce_ settings]. apply Hfold. }
  unfold handleSettingsChange in *. eapply Hrest; [reflexivity|].
  trace_cases; repeat (constructor; [intros ?; reflexivity|]); constructor.
Qed.

Lemma settings_change_flag (key : string) (value : any) (st : state) :
  hasUnsavedChanges (commit st (handleSettingsChange key value st)) = true.
Proof.
  unfold handleSettingsChange, commit.
  cbn [existsb touches]. cbn [invalidates component invalidates_ orb].
  reflexivity.
Qed.
End MonitoringRulesOnText.

(** X5: every settings change of the monitoring editor is recorded in the
    settings under its key, the other keys keeping their values, and sets
    the unsaved-changes flag, whatever the key, the value and the state,
    also when the handler stops on a buffer that is no string. *)
Theorem monitoring_change_is_recorded
    (key : string) (value : any) (st : MonitoringSetup.state) :
  let st' := commit st (MonitoringSetup.handleSettingsChange key value st) in
  MonitoringSetup.settings st' = withProp (MonitoringSetup.settings st) key value
  /\ getProp (MonitoringSetup.settings st') key = value
  /\ MonitoringSetup.hasUnsavedChanges st' = true.
Proof.
  cbv zeta. rewrite settings_recorded. split; [reflexivity|]. split.
  - unfold withProp, getProp. by rewrite lookup_insert_eq.
  - apply settings_change_flag.
Qed.

(** X6: on the default manifests of the monitoring editor, a change of the
    Prometheus version, the Grafana version or the Grafana password to a
    value without a dollar sign puts the value in the place of the default
    one and changes nothing else of the text. *)
Theorem monitoring_field_change_on_defaults (value : string) (st : MonitoringSetup.state) :
  Text.noDollar value = true ->
  MonitoringSetup.prometheusYaml st = VStr MonitoringSetup.defaultPrometheusYaml ->
  MonitoringSetup.grafanaYaml st = VStr MonitoringSetup.defaultGrafanaYaml ->
  let after key := commit st (MonitoringSetup.handleSettingsChange key (VStr value) st) in
  MonitoringSetup.prometheusYaml (after "prometheusVersion")
  = VStr (Text.splice "prom/prometheus:v2.34.0" ("prom/prometheus:" +:+ value)
            MonitoringSetup.defaultPrometheusYaml)
  /\ MonitoringSetup.grafanaYaml (after "grafanaVersion")
     = VStr (Text.splice "grafana/grafana:9.0.0" ("grafana/grafana:" +:+ value)
               MonitoringSetup.defaultGrafanaYaml)
  /\ MonitoringSetup.grafanaYaml (after "grafanaAdminPassword")
     = VStr (Text.splice "value: admin123" ("value: " +:+ value)
               MonitoringSetup.defaultGrafanaYaml).
Proof.
  intros Hv Hp Hg after. subst after. cbv beta. unfold Text.splice.
  split; [|split].
  - rewrite (prometheusVersion_rule st _ _ Hp), default_prometheus_image.
    cbn [toString].
    rewrite (getSubstitution_app _ _ _ _ "prom/prometheus:" value eq_refl).
    by rewrite getSubstitution_plain.
  - rewrite (grafanaVersion_rule st _ _ Hg), default_grafana_image.
    cbn [toString].
    rewrite (getSubstitution_app _ _ _ _ "grafana/grafana:" value eq_refl).
    by rewrite getSubstitution_plain.
  - rewrite (grafanaAdminPassword_rule st _ _ Hg), default_grafana_password.
    cbn [toString].
    rewrite (getSubstitution_app _ _ _ _ "value: " value eq_refl).
    by rewrite getSubstitution_plain.
Qed.

Lemma monitoring_field_change_on_defaults_witness :
  MonitoringSetup.prometheusYaml
    (commit (MonitoringSetup.mount ∅)
       (MonitoringSetup.handleSettingsChange "prometheusVersion" (VStr "v2.36.0")
          (MonitoringSetup.mount ∅)))
  = VStr (Text.splice "prom/prometheus:v2.34.0" ("prom/prometheus:" +:+ "v2.36.0")
            MonitoringSetup.defaultPrometheusYaml).
Proof.
  exact (proj1 (monitoring_field_change_on_defaults "v2.36.0" (MonitoringSetup.mount ∅)
                  eq_refl eq_refl eq_refl)).
Defined.

(** X7: a Grafana password is not copied into the manifest as typed: two
    dollar signs in it arrive as one.  On the default Grafana manifest, the
    password a$$b (a and b without dollar signs) is recorded in the settings
    as typed while the manifest gets a$b. *)
Theorem monitoring_password_loses_a_dollar (a b : string) (st : MonitoringSetup.state) :
  Text.noDollar a = true -> Text.noDollar b = true ->
  MonitoringSetup.grafanaYaml st = VStr MonitoringSetup.defaultGrafanaYaml ->
  let typed := a +:+ "$$" +:+ b in
  let st' := commit st (MonitoringSetup.handleSettingsChange "grafanaAdminPassword"
                          (VStr typed) st) in
  getProp (MonitoringSetup.settings st') "grafanaAdminPassword" = VStr typed
  /\ MonitoringSetup.grafanaYaml st'
     = VStr (Text.splice "value: admin123" ("value: " +:+ a +:+ "$" +:+ b)
               MonitoringSetup.defaultGrafanaYaml).
Proof.
  intros Ha Hb Hg typed st'. subst st' typed. split.
  - rewrite settings_recorded. unfold withProp, getProp. by rewrite lookup_insert_eq.
  - rewrite (grafanaAdminPassword_rule st _ _ Hg), default_grafana_password.
    cbn [toString]. unfold Text.splice.
    rewrite (getSubstitution_app _ _ _ _ "value: " _ eq_refl).
    rewrite (getSubstitution_app _ _ _ _ a _ Ha).
    rewrite getSubstitution_dollars.
    by rewrite getSubstitution_plain.
Qed.

Lemma monitoring_password_loses_a_dollar_witness :
  MonitoringSetup.grafanaYaml
    (commit (MonitoringSetup.mount ∅)
       (MonitoringSetup.handleSettingsChange "grafanaAdminPassword"
          (VStr ("pa" +:+ "$$" +:+ "word")) (MonitoringSetup.mount ∅)))
  = VStr (Text.splice "value: admin123" ("value: " +:+ "pa" +:+ "$" +:+ "word")
            MonitoringSetup.defaultGrafanaYaml).
Proof.
  exact (proj2 (monitoring_password_loses_a_dollar "pa" "word" (MonitoringSetup.mount ∅)
                  eq_refl eq_refl eq_refl)).
Defined.

Section MonitoringInert.
Import MonitoringSetup.

Lemma inert_trace (key : string) (value : any) (st : state) :
  ~ In key ["prometheusVersion"; "grafanaVersion"; "namespace"; "grafanaAdminPassword";
            "persistStorage"] ->
  (In key ["storageClass"; "prometheusStorageSize"; "grafanaStorageSize"] ->
   truthy (getProp (settings st) "persistStorage") = false) ->
  handleSettingsChange key value st
  = [ Set_ (SetSettings (fun prev => withProp prev key value)) ].
Proof.
  intros Hrule Hstorage. unfold handleSettingsChange.
  assert (Hne : forall k, In k ["prometheusVersion"; "grafanaVersion"; "namespace";
                                "grafanaAdminPassword"; "persistStorage"] ->
                          String.eqb key k = false).
  { intros k Hk. apply String.eqb_neq. intros ->. by apply Hrule. }
  rewrite !Hne by (simpl; tauto). cbn [andb].
  destruct (String.eqb key "storageClass" || String.eqb key "prometheusStorageSize"
            || String.eqb key "grafanaStorageSize") eqn:Hk; [|reflexivity].
  rewrite Hstorage; [reflexivity|].
  apply orb_prop in Hk as [Hk|Hk]; [apply orb_prop in Hk as [Hk|Hk]|];
    apply String.eqb_eq in Hk; subst key; simpl; tauto.
Qed.
End MonitoringInert.

(** X8: a settings change of the monitoring editor under a key that has no
    rule (the enable switches, the storage path, the receivers, any other
    name), or under one of the three storage keys while persistent storage
    is off, changes no buffer and raises no error: it is recorded in the
    settings and nothing else happens. *)
Theorem monitoring_inert_change (key : string) (value : any) (st : MonitoringSetup.state) :
  ~ In key ["prometheusVersion"; "grafanaVersion"; "namespace"; "grafanaAdminPassword";
            "persistStorage"] ->
  (In key ["storageClass"; "prometheusStorageSize"; "grafanaStorageSize"] ->
   truthy (getProp (MonitoringSetup.settings st) "persistStorage") = false) ->
  let trace := MonitoringSetup.handleSettingsChange key value st in
  ~ In Throw trace
  /\ calls trace = []
  /\ MonitoringSetup.prometheusYaml (commit st trace) = MonitoringSetup.prometheusYaml st
  /\ MonitoringSetup.grafanaYaml (commit st trace) = MonitoringSetup.grafanaYaml st.
Proof.
  intros Hrule Hstorage trace. subst trace.
  rewrite inert_trace by assumption.
  split; [|split; [|split]]; try reflexivity.
  intros [H|[]]. discriminate H.
Qed.

Lemma monitoring_inert_change_witness :
  let st := MonitoringSetup.mount ∅ in
  MonitoringSetup.grafanaYaml
    (commit st (MonitoringSetup.handleSettingsChange "grafanaStorageSize" (VStr "5Gi") st))
  = MonitoringSetup.grafanaYaml st.
Proof.
  refine (proj2 (proj2 (proj2
    (monitoring_inert_change "grafanaStorageSize" (VStr "5Gi") (MonitoringSetup.mount ∅) _ _)))).
  - simpl. intros [H|[H|[H|[H|[H|[]]]]]]; discriminate H.
  - intros _. reflexivity.
Defined.

(* split a commit on whether the effect runs *)
Ltac commit_cases :=
  unfold commit;
  repeat match goal with
         | |- context [if existsb ?f ?l then _ else _] => destruct (existsb f l)
         end.

(** ** The Kubernetes editor *)

Section KubernetesPersistence.
Import KubernetesSetup.

Lemma cloudProvider_trace (value : string) (classes : list string) (st : state) :
  storageClasses !! value = Some classes ->
  handleCloudProviderChange value st
  = Set_ (SetCloudProvider (VStr value))
    :: Set_ (SetStorageClass (match classes with c :: _ => VStr c | [] => VUndefined end))
    :: updatePersistenceYamls (getProp (vars st) "namespace") (getProp (vars st) "appName") st.
Proof. intros H. unfold handleCloudProviderChange. by rewrite H. Qed.

Lemma diskSize_trace (newDiskSize pv pvc : string) (st : state) :
  persistentVolumeYaml st = VStr pv ->
  persistentVolumeClaimYaml st = VStr pvc ->
  pv <> "" -> pvc <> "" ->
  handleDiskSizeChange newDiskSize st
  = [ Set_ (SetDiskSize (VStr newDiskSize));
      Set_ (SetPersistentVolumeYaml
              (VStr (replaceRegExp storageGi true ("storage: " +:+ newDiskSize +:+ "Gi") pv)));
      Set_ (SetPersistentVolumeClaimYaml
              (VStr (replaceRegExp storageGi true ("storage: " +:+ newDiskSize +:+ "Gi") pvc))) ].
Proof.
  intros Hpv Hpvc Hne1 Hne2. unfold handleDiskSizeChange.
  rewrite Hpv, Hpvc. cbn [truthy].
  rewrite (proj2 (String.eqb_neq _ _) Hne1), (proj2 (String.eqb_neq _ _) Hne2).
  reflexivity.
Qed.
End KubernetesPersistence.

(** X9: in the Kubernetes editor the choice of a cloud provider is stored,
    with the provider's first storage class, but the two persistence
    manifests written by the same handler are derived from the provider and
    the class shown before the choice: their texts are the same whichever of
    the four providers is chosen. *)
Theorem kubernetes_provider_choice_lags (v1 v2 : string) (st : KubernetesSetup.state) :
  is_Some (KubernetesSetup.storageClasses !! v1) ->
  is_Some (KubernetesSetup.storageClasses !! v2) ->
  let st1 := commit st (KubernetesSetup.handleCloudProviderChange v1 st) in
  let st2 := commit st (KubernetesSetup.handleCloudProviderChange v2 st) in
  KubernetesSetup.cloudProvider st1 = VStr v1
  /\ KubernetesSetup.buffers st1 = KubernetesSetup.buffers st2
  /\ KubernetesSetup.buffers st1
     = KubernetesSetup.buffers
         (commit st (KubernetesSetup.updatePersistenceYamls
                       (getProp (KubernetesSetup.vars st) "namespace")
                       (getProp (KubernetesSetup.vars st) "appName") st)).
Proof.
  intros [c1 H1] [c2 H2] st1 st2. subst st1 st2.
  rewrite (cloudProvider_trace _ _ _ H1), (cloudProvider_trace _ _ _ H2).
  split; [|split]; commit_cases; reflexivity.
Qed.

Lemma kubernetes_provider_choice_lags_witness :
  let st := KubernetesSetup.mount ∅ in
  let st1 := commit st (KubernetesSetup.handleCloudProviderChange "gcp" st) in
  KubernetesSetup.cloudProvider st1 = VStr "gcp"
  /\ KubernetesSetup.buffers st1
     = KubernetesSetup.buffers (commit st (KubernetesSetup.handleCloudProviderChange "azure" st)).
Proof.
  assert (Hg : is_Some (KubernetesSetup.storageClasses !! "gcp")) by (eexists; reflexivity).
  assert (Ha : is_Some (KubernetesSetup.storageClasses !! "azure")) by (eexists; reflexivity).
  pose proof (kubernetes_provider_choice_lags "gcp" "azure" (KubernetesSetup.mount ∅) Hg Ha)
    as (H1 & H2 & _).
  split; [exact H1 | exact H2].
Defined.

(* on a fresh editor, after gcp is chosen the volume manifest still
   carries the block of aws, the provider shown before *)
Example provider_choice_shows_previous_block :
  let st := KubernetesSetup.mount ∅ in
  let st1 := commit st (KubernetesSetup.handleCloudProviderChange "gcp" st) in
  let pv := Wizard.text (KubernetesSetup.persistentVolumeYaml st1) in
  Str.includes "awsElasticBlockStore" pv = true
  /\ Str.includes "gcePersistentDisk" pv = false
  /\ Str.includes "storageClassName: gp2" pv = true
  /\ KubernetesSetup.storageClass st1 = VStr "standard".
Proof. vm_compute. repeat split. Qed.

(** X10: in handleDiskSizeChange, when both persistence manifests hold a
    text that is not empty and neither text has a match of storage:
    <digits>Gi (as after the field was emptied, which leaves storage: Gi),
    the new disk size is stored in the field and changes no buffer: it does
    not reach the manifests. *)
Theorem kubernetes_disk_size_stuck (newDiskSize pv pvc : string) (st : KubernetesSetup.state) :
  KubernetesSetup.persistentVolumeYaml st = VStr pv ->
  KubernetesSetup.persistentVolumeClaimYaml st = VStr pvc ->
  pv <> "" -> pvc <> "" ->
  Text.matchesNowhere (RegExp.matchAt KubernetesSetup.storageGi) pv = true ->
  Text.matchesNowhere (RegExp.matchAt KubernetesSetup.storageGi) pvc = true ->
  let st' := commit st (KubernetesSetup.handleDiskSizeChange newDiskSize st) in
  KubernetesSetup.diskSize st' = VStr newDiskSize
  /\ KubernetesSetup.buffers st' = KubernetesSetup.buffers st.
Proof.
  intros Hpv Hpvc Hne1 Hne2 Hn1 Hn2 st'. subst st'.
  rewrite (diskSize_trace _ _ _ _ Hpv Hpvc Hne1 Hne2).
  unfold replaceRegExp. rewrite !replaceFrom_nowhere by assumption.
  split; [commit_cases; reflexivity|].
  commit_cases; unfold KubernetesSetup.buffers; cbn; by rewrite Hpv, Hpvc.
Qed.

Lemma kubernetes_disk_size_stuck_witness :
  let st0 := KubernetesSetup.mount ∅ in
  let st := commit st0 (KubernetesSetup.handleDiskSizeChange "" st0) in
  let st' := commit st (KubernetesSetup.handleDiskSizeChange "20" st) in
  Str.includes "storage: Gi" (Wizard.text (KubernetesSetup.persistentVolumeYaml st)) = true
  /\ KubernetesSetup.diskSize st' = VStr "20"
  /\ KubernetesSetup.buffers st' = KubernetesSetup.buffers st.
Proof.
  cbv zeta. split; [vm_compute; reflexivity|].
  set (st := commit (KubernetesSetup.mount ∅)
               (KubernetesSetup.handleDiskSizeChange "" (KubernetesSetup.mount ∅))).
  refine (kubernetes_disk_size_stuck "20"
            (Wizard.text (KubernetesSetup.persistentVolumeYaml st))
            (Wizard.text (KubernetesSetup.persistentVolumeClaimYaml st)) st _ _ _ _ _ _).
  - vm_compute. reflexivity.
  - vm_compute. reflexivity.
  - vm_compute. discriminate.
  - vm_compute. discriminate.
  - vm_compute. reflexivity.
  - vm_compute. reflexivity.
Defined.

(** ** The export and the store *)

Section ExportReads.
Import ExportProject.

Lemma generateSampleContent_reads (configs configs' : gmap string any) (random : Z)
    (name type : string) :
  ConfigContext.read configs "jenkinsfile" = ConfigContext.read configs' "jenkinsfile" ->
  ConfigContext.read configs "dockerfile" = ConfigContext.read configs' "dockerfile" ->
  generateSampleContent configs random name type
  = generateSampleContent configs' random name type.
Proof.
  intros Hj Hd.
  unfold generateSampleContent, stored, sampleJenkinsfile, sampleDeployment, jenkinsVar.
  rewrite Hj, Hd. reflexivity.
Qed.

Lemma generateSampleContent_by_name (configs configs' : gmap string any) (random random' : Z)
    (name type : string) :
  name <> "Jenkinsfile" -> name <> "Dockerfile" ->
  (type = "manifest" -> name <> "deployment.yaml") ->
  generateSampleContent configs random name type
  = generateSampleContent configs' random' name type.
Proof.
  intros Hj Hd Hm. unfold generateSampleContent.
  rewrite (proj2 (String.eqb_neq _ _) Hj), (proj2 (String.eqb_neq _ _) Hd).
  destruct (String.eqb_spec type "manifest") as [Ht|_]; [|reflexivity].
  by rewrite (proj2 (String.eqb_neq _ _) (Hm Ht)).
Qed.
End ExportReads.

(** X11: the export reads two entries of the store and no other: two stores
    that agree on the jenkinsfile and the dockerfile entries export the same
    twelve files with the same contents, draw by draw, whatever the
    kubernetes, deploymentConfig and monitoringSetup entries hold. *)
Theorem export_reads_two_entries
    (configs configs' : gmap string any) (random : nat -> Z) :
  ConfigContext.read configs "jenkinsfile" = ConfigContext.read configs' "jenkinsfile" ->
  ConfigContext.read configs "dockerfile" = ConfigContext.read configs' "dockerfile" ->
  ExportProject.handleExport configs random = ExportProject.handleExport configs' random.
Proof.
  intros Hj Hd. unfold ExportProject.handleExport, ExportProject.files. f_equal.
  apply imap_ext. intros i [[[n p] s] t] _. f_equal.
  by apply generateSampleContent_reads.
Qed.

Lemma export_reads_two_entries_witness :
  ExportProject.handleExport ∅ (fun _ => 6%Z)
  = ExportProject.handleExport
      (ConfigContext.applyConfig "kubernetes"
         (KubernetesSetup.currentConfig (KubernetesSetup.mount ∅)) ∅)
      (fun _ => 6%Z).
Proof.
  apply export_reads_two_entries; reflexivity.
Defined.

(** X12: for every name but Jenkinsfile, Dockerfile and the manifest
    deployment.yaml, generateSampleContent returns a text that depends on
    the name and the type alone: the same for every store and every draw. *)
Theorem sample_content_by_name_alone
    (configs configs' : gmap string any) (random random' : Z) (name type : string) :
  name <> "Jenkinsfile" -> name <> "Dockerfile" ->
  (type = "manifest" -> name <> "deployment.yaml") ->
  ExportProject.generateSampleContent configs random name type
  = ExportProject.generateSampleContent configs' random' name type
  /\ ExportProject.generateSampleContent configs random name type
     = VStr (if String.eqb type "manifest"
             then ExportProject.sampleManifest name else ExportProject.sampleOther name).
Proof.
  intros Hj Hd Hm. split; [by apply generateSampleContent_by_name|].
  unfold ExportProject.generateSampleContent.
  rewrite (proj2 (String.eqb_neq _ _) Hj), (proj2 (String.eqb_neq _ _) Hd).
  destruct (String.eqb_spec type "manifest") as [Ht|_]; [|reflexivity].
  by rewrite (proj2 (String.eqb_neq _ _) (Hm Ht)).
Qed.

Lemma sample_content_by_name_alone_witness :
  ExportProject.generateSampleContent ∅ 3 "prometheus.yaml" "manifest"
  = ExportProject.generateSampleContent
      (ConfigContext.applyConfig "monitoringSetup"
         (MonitoringSetup.currentConfig (MonitoringSetup.mount ∅)) ∅)
      77 "prometheus.yaml" "manifest".
Proof.
  refine (proj1 (sample_content_by_name_alone _ _ _ _ "prometheus.yaml" "manifest" _ _ _));
    discriminate.
Defined.

(** X13: writing a configuration for one step leaves what getConfig returns
    for every other step as it was. *)
Theorem applyConfig_other_step
    (configs : gmap string any) (i j : string) (config : any) :
  i <> j ->
  ConfigContext.getConfig (ConfigContext.applyConfig i config configs) j
  = ConfigContext.getConfig configs j.
Proof.
  intros Hne. unfold ConfigContext.getConfig. by rewrite read_applyConfig_other.
Qed.

Lemma applyConfig_other_step_witness :
  ConfigContext.getConfig
    (ConfigContext.applyConfig "dockerfile" (VStr "x")
       (ConfigContext.applyConfig "jenkinsfile" (VObj ∅) ∅)) "jenkinsfile"
  = ConfigContext.getConfig (ConfigContext.applyConfig "jenkinsfile" (VObj ∅) ∅) "jenkinsfile".
Proof. apply applyConfig_other_step. discriminate. Defined.

(** X14: getConfig never returns a falsy value: what it returns right after a
    write is the value written when that value is truthy, and the empty
    object when it is undefined, null, false or the empty string. *)
Theorem getConfig_is_truthy (configs : gmap string any) (stepId : string) (config : any) :
  truthy (ConfigContext.getConfig configs stepId) = true
  /\ ConfigContext.getConfig (ConfigContext.applyConfig stepId config configs) stepId
     = if truthy config then config else VObj ∅.
Proof.
  split.
  - unfold ConfigContext.getConfig, or_else.
    destruct (truthy (ConfigContext.read configs stepId)) eqn:H; [exact H | reflexivity].
  - unfold ConfigContext.getConfig, or_else. by rewrite read_applyConfig_same.
Qed.

(** ** The shell *)

Section ShellRuns.
Import Index.
Local Open Scope Z_scope.

Lemma run_range (es : list event) : 0 <= run es <= 8.
Proof. unfold run. apply fold_step_range. unfold initial. lia. Qed.

Lemma run_snoc (es : list event) (e : event) : run (es ++ [e]) = step (run es) e.
Proof. unfold run. by rewrite fold_left_app. Qed.

Lemma render_in_range (s : Z) : 0 <= s <= 8 -> is_Some (render s).
Proof.
  intros Hs.
  assert (Hc : s = 0 \/ s = 1 \/ s = 2 \/ s = 3 \/ s = 4 \/ s = 5 \/ s = 6 \/ s = 7 \/ s = 8)
    by lia.
  destruct Hc as [->|[->|[->|[->|[->|[->|[->|[->| ->]]]]]]]]; eexists; reflexivity.
Qed.
End ShellRuns.

(** X15: after any sequence of next and sidebar events, n more presses of
    next lead from step s to step min (s + n) 8; eight presses always end at
    the last step. *)
Theorem next_presses_add_up (es : list Index.event) (n : nat) :
  Nat.iter n Index.handleNextStep (Index.run es)
  = Z.min (Index.run es + Z.of_nat n) 8
  /\ Nat.iter 8 Index.handleNextStep (Index.run es) = 8%Z.
Proof.
  pose proof (run_range es) as Hr.
  split.
  - apply iter_next_min. lia.
  - rewrite iter_next_min by lia. lia.
Qed.

(** X16: the shell always shows a step: after any sequence of events the
    index is that of one of the nine step components; a click on one of the
    nine sidebar buttons leads to the step of that button from wherever the
    wizard stands, and a click beyond them changes nothing. *)
Theorem shell_always_shows_a_step (es : list Index.event) (button : nat) :
  is_Some (Index.render (Index.run es))
  /\ Index.run (es ++ [Index.Navigate button])
     = if (button <? 9)%nat then Z.of_nat button else Index.run es.
Proof.
  split.
  - apply render_in_range, run_range.
  - rewrite run_snoc. cbn [Index.step].
    do 9 (destruct button as [|button]; [reflexivity|]). reflexivity.
Qed.

(** ** Leaving a step and coming back *)

Section Revisits.
Import Wizard Revisit.

Lemma or_else_idem (v d : any) : or_else (or_else v d) d = or_else v d.
Proof.
  unfold or_else. destruct (truthy v) eqn:Hv; [by rewrite Hv|].
  by destruct (truthy d).
Qed.

Lemma saved_applied (e : editor) (st : stateOf e) (configs : gmap string any) :
  ConfigContext.getConfig (applied e st configs) (stepId e) = currentConfig e st.
Proof.
  unfold applied, ConfigContext.getConfig, or_else.
  rewrite read_applyConfig_same. by destruct e.
Qed.

(* the first render on the applied store seeds every slot from the value
   applied, through the fallback of its initialiser *)
Lemma init_applied (e : editor) (st : stateOf e) (configs : gmap string any) :
  slots e (init e (applied e st configs))
  = map (fun vd => or_else (fst vd) (snd vd)) (seeds e st).
Proof.
  pose proof (saved_applied e st configs) as Hs.
  destruct e; cbn [stepId currentConfig stateOf] in *;
    unfold slots, seeds, Wizard.init;
    try unfold JenkinsfileSetup.init; try unfold DockerfileSetup.init;
    try unfold KubernetesSetup.init; try unfold DeploymentConfig.init;
    try unfold MonitoringSetup.init;
    cbv zeta; cbn [stepId]; rewrite Hs; reflexivity.
Qed.
End Revisits.

(** X17: what an editor applied is what it shows when the step is entered
    again: if every slot of the state (buffers and settings) is truthy, or
    is the fallback of its own initialiser, the first render on the store
    that results seeds every slot with the value applied, and the flag is
    clear. *)
Theorem revisit_restores_applied_state
    (e : Wizard.editor) (st : Wizard.stateOf e) (configs : gmap string any) :
  Forall (fun vd => or_else (fst vd) (snd vd) = fst vd) (Revisit.seeds e st) ->
  Revisit.slots e (Wizard.init e (Revisit.applied e st configs)) = Revisit.slots e st
  /\ Wizard.hasUnsavedChanges e (Wizard.init e (Revisit.applied e st configs)) = false.
Proof.
  intros Hkept. split; [|apply init_flag].
  rewrite init_applied. unfold Revisit.slots.
  induction Hkept as [|vd l Hvd _ IH]; [reflexivity|].
  cbn [map]. by rewrite Hvd, IH.
Qed.

Lemma revisit_restores_applied_state_witness :
  let st := commit (KubernetesSetup.mount ∅)
              (KubernetesSetup.handleDeploymentChange "kind: Deployment"
                 (KubernetesSetup.mount ∅)) in
  Revisit.slots Wizard.Kubernetes
    (Wizard.init Wizard.Kubernetes (Revisit.applied Wizard.Kubernetes st ∅))
  = Revisit.slots Wizard.Kubernetes st.
Proof.
  refine (proj1 (revisit_restores_applied_state Wizard.Kubernetes _ ∅ _)).
  repeat constructor.
Defined.

(** X18: passing through a step changes nothing of what it shows: for every
    store, the state seeded on entry, once applied (as next does on the way
    out), seeds the very same slots on the next entry. *)
Theorem revisit_after_pass_through (e : Wizard.editor) (configs : gmap string any) :
  let st := Wizard.mount e configs in
  Revisit.slots e (Wizard.mount e (Revisit.applied e st configs)) = Revisit.slots e st.
Proof.
  cbv zeta.
  assert (Hm : forall c, Revisit.slots e (Wizard.mount e c) = Revisit.slots e (Wizard.init e c))
    by (intros c; by destruct e).
  assert (Ha : Revisit.applied e (Wizard.mount e configs) configs
               = Revisit.applied e (Wizard.init e configs) configs).
  { unfold Revisit.applied. by rewrite mount_currentConfig. }
  rewrite !Hm, Ha, init_applied.
  destruct e; cbn; rewrite ?or_else_idem; reflexivity.
Qed.

(** X19: an emptied buffer does not survive applying: when the Jenkinsfile
    editor applies an empty text, the step shows the default template on the
    next entry and the export falls back to the sample, as if no buffer had
    been applied. *)
Theorem emptied_jenkinsfile_is_lost
    (st : JenkinsfileSetup.state) (configs : gmap string any) (random : Z) :
  JenkinsfileSetup.jenkinsfile st = VStr "" ->
  let configs' := Revisit.applied Wizard.Jenkinsfile st configs in
  JenkinsfileSetup.jenkinsfile (JenkinsfileSetup.mount configs')
  = VStr JenkinsfileSetup.defaultJenkinsfile
  /\ ExportProject.generateSampleContent configs' random "Jenkinsfile" "config"
     = VStr (ExportProject.sampleJenkinsfile configs' (random + 1)).
Proof.
  intros He configs'.
  pose proof (init_applied Wizard.Jenkinsfile st configs) as Hi.
  cbn in Hi. rewrite He in Hi. injection Hi as Hj _.
  split.
  - exact Hj.
  - unfold ExportProject.generateSampleContent, ExportProject.stored.
    change (String.eqb "Jenkinsfile" "Jenkinsfile") with true. cbv iota.
    subst configs'. unfold Revisit.applied. cbn [Wizard.stepId Wizard.currentConfig].
    rewrite read_applyConfig_same.
    unfold JenkinsfileSetup.currentConfig.
    replace (getProp (obj [("jenkinsfile", JenkinsfileSetup.jenkinsfile st);
                           ("vars", JenkinsfileSetup.vars st)]) "jenkinsfile")
      with (VStr "") by (rewrite <- He; reflexivity).
    reflexivity.
Qed.

Lemma emptied_jenkinsfile_is_lost_witness :
  let st := commit (JenkinsfileSetup.mount ∅)
              (JenkinsfileSetup.handleCodeChange "" (JenkinsfileSetup.mount ∅)) in
  JenkinsfileSetup.jenkinsfile st = VStr ""
  /\ JenkinsfileSetup.jenkinsfile
       (JenkinsfileSetup.mount (Revisit.applied Wizard.Jenkinsfile st ∅))
     = VStr JenkinsfileSetup.defaultJenkinsfile.
Proof.
  split; [reflexivity|].
  exact (proj1 (emptied_jenkinsfile_is_lost
                  (commit (JenkinsfileSetup.mount ∅)
                     (JenkinsfileSetup.handleCodeChange "" (JenkinsfileSetup.mount ∅)))
                  ∅ 0 eq_refl)).
Defined.

(** ** Apply, edit, next *)

(** X20: an apply is not repeated: right after handleApplyChanges the flag is
    clear, so the next-step action writes nothing more, and the apply button,
    which is disabled while the flag is clear, cannot be pressed again. *)
Theorem apply_then_next_writes_once (e : Wizard.editor) (st : Wizard.stateOf e) :
  let st' := commit st (Wizard.handleApplyChanges e st) in
  Wizard.hasUnsavedChanges e st' = false
  /\ applies (Wizard.handleNextStep e st') = []
  /\ calls (Wizard.handleNextStep e st') = [GoToNextStep]
  /\ Revisit.slots e st' = Revisit.slots e st.
Proof.
  cbv zeta.
  assert (Hf : Wizard.hasUnsavedChanges e (commit st (Wizard.handleApplyChanges e st)) = false)
    by (by destruct e).
  split; [exact Hf|].
  rewrite handleNextStep_applies, handleNextStep_calls, Hf.
  split; [reflexivity|]. split; [reflexivity|]. by destruct e.
Qed.

(** X21: every field change sets the unsaved-changes flag, in each of the
    five editors and whatever the state (right after an apply too, when the
    flag was clear). *)
Theorem field_change_sets_flag (name text : string) (value : any) :
  (forall st, JenkinsfileSetup.hasUnsavedChanges
                (commit st (JenkinsfileSetup.handleVarChange name text st)) = true)
  /\ (forall st, DockerfileSetup.hasUnsavedChanges
                   (commit st (DockerfileSetup.handleVarChange name text st)) = true)
  /\ (forall st, KubernetesSetup.hasUnsavedChanges
                   (commit st (KubernetesSetup.handleVarChange name text st)) = true)
  /\ (forall st, DeploymentConfig.hasUnsavedChanges
                   (commit st (DeploymentConfig.handleSettingsChange name value st)) = true)
  /\ (forall st, MonitoringSetup.hasUnsavedChanges
                   (commit st (MonitoringSetup.handleSettingsChange name value st)) = true).
Proof.
  split; [|split; [|split; [|split]]]; intros st; reflexivity.
Qed.

(** X22: typing into the code editor of the Jenkinsfile step replaces the
    buffer and leaves the variables alone; it sets the flag exactly when the
    text differs from the one shown: the same text again leaves the state as
    it is, flag included. *)
Theorem code_change_sets_flag_when_text_differs
    (shown code : string) (st : JenkinsfileSetup.state) :
  JenkinsfileSetup.jenkinsfile st = VStr shown ->
  let st' := commit st (JenkinsfileSetup.handleCodeChange code st) in
  JenkinsfileSetup.jenkinsfile st' = VStr code
  /\ JenkinsfileSetup.vars st' = JenkinsfileSetup.vars st
  /\ JenkinsfileSetup.hasUnsavedChanges st'
     = if String.eqb shown code then JenkinsfileSetup.hasUnsavedChanges st else true.
Proof.
  intros Hs st'. subst st'.
  unfold commit, JenkinsfileSetup.handleCodeChange.
  cbn [existsb touches invalidates JenkinsfileSetup.component orb].
  rewrite Hs. cbn [sameValue]. rewrite orb_false_r.
  destruct (String.eqb shown code); repeat split; reflexivity.
Qed.

Lemma code_change_sets_flag_when_text_differs_witness :
  let st := commit (JenkinsfileSetup.mount ∅)
              (JenkinsfileSetup.handleApplyChanges (JenkinsfileSetup.mount ∅)) in
  JenkinsfileSetup.hasUnsavedChanges st = false
  /\ JenkinsfileSetup.hasUnsavedChanges
       (commit st (JenkinsfileSetup.handleCodeChange JenkinsfileSetup.defaultJenkinsfile st))
     = false
  /\ JenkinsfileSetup.hasUnsavedChanges
       (commit st (JenkinsfileSetup.handleCodeChange "pipeline { }" st))
     = true.
Proof.
  cbv zeta.
  set (st := commit (JenkinsfileSetup.mount ∅)
               (JenkinsfileSetup.handleApplyChanges (JenkinsfileSetup.mount ∅))).
  assert (Hs : JenkinsfileSetup.jenkinsfile st = VStr JenkinsfileSetup.defaultJenkinsfile)
    by reflexivity.
  split; [reflexivity|]. split.
  - rewrite (proj2 (proj2 (code_change_sets_flag_when_text_differs _
                             JenkinsfileSetup.defaultJenkinsfile st Hs))).
    by rewrite String.eqb_refl.
  - rewrite (proj2 (proj2 (code_change_sets_flag_when_text_differs _ "pipeline { }" st Hs))).
    vm_compute. reflexivity.
Defined.

(** X23: in the Jenkinsfile and the Dockerfile editors the last field changed
    is the only one the buffer reflects.  After two changes to different
    fields the variables hold both values, while the buffer is the default
    text with the second field's rule applied: the first value is in the
    settings and not in the text. *)
Theorem last_field_change_wins (n1 v1 n2 v2 : string) :
  n1 <> n2 ->
  (forall st : JenkinsfileSetup.state,
      let st1 := commit st (JenkinsfileSetup.handleVarChange n1 v1 st) in
      let st2 := commit st1 (JenkinsfileSetup.handleVarChange n2 v2 st1) in
      getProp (JenkinsfileSetup.vars st2) n1 = VStr v1
      /\ getProp (JenkinsfileSetup.vars st2) n2 = VStr v2
      /\ JenkinsfileSetup.jenkinsfile st2
         = JenkinsfileSetup.jenkinsfile
             (commit st (JenkinsfileSetup.handleVarChange n2 v2 st)))
  /\ (forall st : DockerfileSetup.state,
      let st1 := commit st (DockerfileSetup.handleVarChange n1 v1 st) in
      let st2 := commit st1 (DockerfileSetup.handleVarChange n2 v2 st1) in
      getProp (DockerfileSetup.vars st2) n1 = VStr v1
      /\ getProp (DockerfileSetup.vars st2) n2 = VStr v2
      /\ DockerfileSetup.dockerfile st2
         = DockerfileSetup.dockerfile
             (commit st (DockerfileSetup.handleVarChange n2 v2 st))).
Proof.
  intros Hne. split; intros st st1 st2; subst st1 st2.
  - split; [|split; [|reflexivity]].
    + change (JenkinsfileSetup.vars _)
        with (withProp (withProp (JenkinsfileSetup.vars st) n1 (VStr v1)) n2 (VStr v2)).
      unfold withProp, getProp. cbn [spread].
      rewrite lookup_insert_ne by (intros E; by apply Hne). by rewrite lookup_insert_eq.
    + change (JenkinsfileSetup.vars _)
        with (withProp (withProp (JenkinsfileSetup.vars st) n1 (VStr v1)) n2 (VStr v2)).
      unfold withProp, getProp. by rewrite lookup_insert_eq.
  - split; [|split; [|reflexivity]].
    + change (DockerfileSetup.vars _)
        with (withProp (withProp (DockerfileSetup.vars st) n1 (VStr v1)) n2 (VStr v2)).
      unfold withProp, getProp. cbn [spread].
      rewrite lookup_insert_ne by (intros E; by apply Hne). by rewrite lookup_insert_eq.
    + change (DockerfileSetup.vars _)
        with (withProp (withProp (DockerfileSetup.vars st) n1 (VStr v1)) n2 (VStr v2)).
      unfold withProp, getProp. by rewrite lookup_insert_eq.
Qed.

Lemma last_field_change_wins_witness :
  let st := DockerfileSetup.mount ∅ in
  let st1 := commit st (DockerfileSetup.handleVarChange "port" "9090" st) in
  let st2 := commit st1 (DockerfileSetup.handleVarChange "goVersion" "1.21" st1) in
  getProp (DockerfileSetup.vars st2) "port" = VStr "9090"
  /\ Str.includes "EXPOSE 8080" (Wizard.text (DockerfileSetup.dockerfile st2)) = true.
Proof.
  assert (Hne : "port" <> "goVersion") by discriminate.
  split.
  - exact (proj1 (proj2 (last_field_change_wins "port" "9090" "goVersion" "1.21" Hne)
                    (DockerfileSetup.mount ∅))).
  - vm_compute. reflexivity.
Defined.

(** ** The wizard as a whole *)

Section Traces.
Context {state setter : Type} `{Component state setter}.

(* what every action of the trace and the effect keep, the commit keeps *)
Lemma commit_preserves (P : state -> Prop) (trace : list (action setter)) :
  Forall (fun a => forall s, P s -> P (settle s a)) trace ->
  Forall (fun x => forall s, P s -> P (reduce x s)) effect ->
  forall st, P st -> P (commit st trace).
Proof.
  intros Htrace Heffect st Hst.
  assert (Hfold : forall st0, P st0 -> P (fold_left settle trace st0)).
  { induction Htrace as [|a trace Ha _ IH]; intros st0 H0; [exact H0|].
    cbn [fold_left]. apply IH, Ha, H0. }
  assert (Heff : forall st0, P st0 -> P (runEffect st0)).
  { unfold runEffect. induction Heffect as [|x xs Hx _ IH]; intros st0 H0; [exact H0|].
    cbn [fold_left]. apply IH, Hx, H0. }
  unfold commit. destruct (existsb (touches st) trace); [apply Heff|]; by apply Hfold.
Qed.

(* a trace none of whose actions changes a dependency leaves the state as
   it was rendered *)
Lemma commit_quiet (trace : list (action setter)) (st : state) :
  Forall (fun a => touches st a = false -> settle st a = st) trace ->
  existsb (touches st) trace = false ->
  commit st trace = st.
Proof.
  intros Htrace Hq. unfold commit. rewrite Hq.
  induction Htrace as [|a trace Ha _ IH]; [reflexivity|].
  cbn [existsb] in Hq. apply orb_false_elim in Hq as [Hq1 Hq2].
  cbn [fold_left]. rewrite (Ha Hq1). by apply IH.
Qed.

Lemma calls_plain (keep : action setter -> bool) (trace : list (action setter)) :
  (forall c, keep (Call c) = false) ->
  forallb keep trace = true -> calls trace = [].
Proof.
  intros Hk. induction trace as [|a trace IH]; [reflexivity|].
  cbn [forallb]. intros [Ha Ht]%andb_prop.
  destruct a as [x|c|]; cbn; [by apply IH| |by apply IH].
  by rewrite Hk in Ha.
Qed.
End Traces.

Section Shapes.
Import View.

Lemma isText_inv (v : any) : isText v = true -> exists s, v = VStr s.
Proof. destruct v; try discriminate. by eexists. Qed.

Lemma isText_primitive (v : any) : isText v = true -> isPrimitive v = true.
Proof. by destruct v. Qed.

Lemma isProvider_primitive (v : any) : isProvider v = true -> isPrimitive v = true.
Proof. by destruct v. Qed.

Lemma sameValue_eq (rendered v : any) :
  isPrimitive v = true -> sameValue rendered v = true -> rendered = v.
Proof.
  destruct rendered, v; try discriminate; try reflexivity; cbn; intros _ Hs.
  - f_equal. by apply Bool.eqb_prop.
  - f_equal. by apply String.eqb_eq.
Qed.

(* a typed setter keeps the state well formed *)
Lemma typed_wellFormed (e : Wizard.editor) (x : Wizard.setterOf e) (s : Wizard.stateOf e) :
  typed e x = true -> wellFormed e s = true -> wellFormed e (reduce x s) = true.
Proof.
  destruct e, x, s; unfold wellFormed; simpl; intros Hv Hs; try discriminate Hv;
    repeat match goal with
           | H0 : _ && _ = true |- _ => apply andb_prop in H0 as [? ?]
           end;
    repeat (apply andb_true_intro; split); first [assumption | reflexivity].
Qed.

(* so does the effect *)
Lemma effect_wellFormed (e : Wizard.editor) (s : Wizard.stateOf e) :
  wellFormed e s = true -> wellFormed e (runEffect s) = true.
Proof. by destruct e, s. Qed.

(* a typed setter that changes no dependency changes nothing *)
Lemma typed_quiet (e : Wizard.editor) (x : Wizard.setterOf e) (st : Wizard.stateOf e) :
  typed e x = true -> invalidates st x = false -> reduce x st = st.
Proof.
  destruct e, x, st; simpl; intros Hv Hq; try discriminate;
    apply negb_false_iff in Hq;
    (apply sameValue_eq in Hq;
     [by subst | first [exact Hv | by apply isText_primitive | by apply isProvider_primitive]]).
Qed.
End Shapes.

(* take a well-formed state apart: its code buffers are strings *)
Ltac take_apart st H :=
  destruct st; unfold View.wellFormed in H; cbn in H;
  repeat match goal with
         | H0 : _ && _ = true |- _ => apply andb_prop in H0 as [? ?]
         end;
  repeat match goal with
         | H0 : View.isText _ = true |- _ => apply isText_inv in H0 as [? ->]
         end.

Section Edits.
Import View.

(* on a well-formed state, the handler of an editing control issues typed
   setters and nothing else *)
Lemma edit_trace (e : Wizard.editor) (c : control) (st : Wizard.stateOf e) :
  edits c = true -> wellFormed e st = true ->
  forallb (plain e) (handle e c st) = true.
Proof.
  intros Hc Hst. destruct e; cbn [handle Wizard.stateOf] in *.
  - destruct c as [n v|n b|[|i] code|b|p|v|v|v| |]; try discriminate Hc; reflexivity.
  - destruct c as [n v|n b|[|i] code|b|p|v|v|v| |]; try discriminate Hc; reflexivity.
  - take_apart st Hst.
    destruct c as [n v|n b|[|[|[|[|[|[|i]]]]]] code|b|p|v|v|v| |]; try discriminate Hc;
      try reflexivity.
    + destruct b; reflexivity.
    + destruct p; reflexivity.
    + unfold kubernetes, KubernetesSetup.handleDiskSizeChange.
      cbn [KubernetesSetup.persistentVolumeYaml KubernetesSetup.persistentVolumeClaimYaml
           replaceOn truthy].
      match goal with |- context [if ?b then _ else _] => destruct b end; reflexivity.
    + unfold kubernetes, KubernetesSetup.handleVolumePathChange.
      cbn [KubernetesSetup.persistentVolumeYaml KubernetesSetup.cloudProvider replaceOn truthy].
      match goal with |- context [if ?b then _ else _] => destruct b end; reflexivity.
  - destruct c as [n v|n b|[|[|[|i]]] code|b|p|v|v|v| |]; try discriminate Hc; reflexivity.
  - take_apart st Hst.
    destruct c as [n v|n b|[|[|[|[|i]]]] code|b|p|v|v|v| |]; try discriminate Hc;
      try reflexivity.
    + unfold monitoring, MonitoringSetup.handleSettingsChange.
      cbn [MonitoringSetup.prometheusYaml MonitoringSetup.grafanaYaml
           MonitoringSetup.settings replaceOn includesOn].
      repeat match goal with
             | |- context [if ?b then _ else _] => destruct b
             end; reflexivity.
    + unfold monitoring, MonitoringSetup.handleSettingsChange.
      cbn [MonitoringSetup.prometheusYaml MonitoringSetup.grafanaYaml
           MonitoringSetup.settings replaceOn includesOn].
      repeat match goal with
             | |- context [if ?b then _ else _] => destruct b
             end; reflexivity.
Qed.
End Edits.

Section Stores.
Import Wizard View App.

Lemma stepId_inj (e e' : editor) : stepId e = stepId e' -> e = e'.
Proof. destruct e, e'; first [reflexivity | discriminate]. Qed.

Lemma currentConfig_truthy (e : editor) (st : stateOf e) : truthy (currentConfig e st) = true.
Proof. by destruct e. Qed.

Lemma stored_initial : stored ConfigContext.initial.
Proof. intros k v H. unfold ConfigContext.initial in H. by rewrite lookup_empty in H. Qed.

Lemma stored_applyConfig (e : editor) (st : stateOf e) (configs : gmap string any) :
  wellFormed e st = true -> stored configs ->
  stored (ConfigContext.applyConfig (stepId e) (currentConfig e st) configs).
Proof.
  intros Hst Hc k v. unfold ConfigContext.applyConfig.
  destruct (decide (k = stepId e)) as [->|Hne].
  - rewrite lookup_insert_eq. intros [= <-]. by exists e, st.
  - rewrite lookup_insert_ne by done. apply Hc.
Qed.

(* what getConfig returns for an editor: the empty object, or what the
   editor applied from a well-formed state *)
Lemma stored_getConfig (e : editor) (configs : gmap string any) :
  stored configs ->
  ConfigContext.getConfig configs (stepId e) = VObj ∅
  \/ exists st : stateOf e,
       wellFormed e st = true
       /\ ConfigContext.getConfig configs (stepId e) = currentConfig e st.
Proof.
  intros Hc. unfold ConfigContext.getConfig, ConfigContext.read.
  destruct (configs !! stepId e) as [v|] eqn:Hv; [|left; by destruct e].
  destruct (Hc _ _ Hv) as (e' & st & He & -> & Hst).
  apply stepId_inj in He. subst e'. right. exists st. split; [exact Hst|].
  simpl. unfold or_else. by rewrite currentConfig_truthy.
Qed.

Lemma isText_or_else (v : any) (d : string) :
  isText v = true -> isText (or_else v (VStr d)) = true.
Proof. intros Hv. unfold or_else. by destruct (truthy v). Qed.

Lemma isProvider_or_else (v d : any) :
  isProvider v = true -> isProvider d = true -> isProvider (or_else v d) = true.
Proof. intros Hv Hd. unfold or_else. by destruct (truthy v). Qed.

Lemma isPrimitive_or_else (v d : any) :
  isPrimitive v = true -> isPrimitive d = true -> isPrimitive (or_else v d) = true.
Proof. intros Hv Hd. unfold or_else. by destruct (truthy v). Qed.

(* the first render of an editor on such a store is well formed *)
Lemma init_wellFormed (e : editor) (configs : gmap string any) :
  stored configs -> wellFormed e (init e configs) = true.
Proof.
  intros Hc. destruct (stored_getConfig e configs Hc) as [He|(st & Hst & He)].
  - destruct e; unfold init; cbn [stepId] in He;
      [unfold JenkinsfileSetup.init | unfold DockerfileSetup.init
      | unfold KubernetesSetup.init | unfold DeploymentConfig.init
      | unfold MonitoringSetup.init];
      cbv zeta; rewrite He; reflexivity.
  - destruct e; cbn [stepId currentConfig stateOf] in *; unfold init;
      [unfold JenkinsfileSetup.init | unfold DockerfileSetup.init
      | unfold KubernetesSetup.init | unfold DeploymentConfig.init
      | unfold MonitoringSetup.init];
      cbv zeta; rewrite He; take_apart st Hst; unfold wellFormed; cbn;
      repeat (apply andb_true_intro; split); try reflexivity;
      first [ apply isText_or_else; reflexivity
            | apply isProvider_or_else; [assumption | reflexivity]
            | apply isPrimitive_or_else; [assumption | reflexivity] ].
Qed.

Lemma mount_wellFormed (e : editor) (configs : gmap string any) :
  stored configs -> wellFormed e (mount e configs) = true.
Proof.
  intros Hc. pose proof (init_wellFormed e configs Hc) as Hi.
  destruct e; by apply (effect_wellFormed _ _ Hi).
Qed.
End Stores.

Section Steps.
Import Wizard View App.
Local Open Scope Z_scope.

Lemma handle_next (e : editor) (st : stateOf e) :
  handle e NextButton st = handleNextStep e st.
Proof. by destruct e. Qed.

Lemma handle_apply (e : editor) (st : stateOf e) :
  handle e ApplyButton st = handleApply (hasUnsavedChanges e st) (handleApplyChanges e st).
Proof. by destruct e. Qed.

Lemma perform_next (e : editor) (st : stateOf e) (w : world) :
  performAll w (calls (handleNextStep e st))
  = {| configs := if hasUnsavedChanges e st
                  then ConfigContext.applyConfig (stepId e) (currentConfig e st) (configs w)
                  else configs w;
       activeStep := Index.handleNextStep (activeStep w) |}.
Proof.
  rewrite handleNextStep_calls. by destruct (hasUnsavedChanges e st), e, w.
Qed.

Lemma perform_apply (e : editor) (st : stateOf e) (w : world) :
  performAll w (calls (handleApply true (handleApplyChanges e st)))
  = {| configs := ConfigContext.applyConfig (stepId e) (currentConfig e st) (configs w);
       activeStep := activeStep w |}.
Proof. by destruct e, w. Qed.

(* the apply button writes what the editor shows and clears the flag *)
Lemma apply_commit (e : editor) (st : stateOf e) :
  let st' := commit st (handleApply true (handleApplyChanges e st)) in
  currentConfig e st' = currentConfig e st
  /\ hasUnsavedChanges e st' = false
  /\ wellFormed e st' = wellFormed e st
  /\ existsb isThrow (handleApply true (handleApplyChanges e st)) = false.
Proof. by destruct e, st. Qed.

Lemma next_no_throw (e : editor) (st : stateOf e) :
  existsb isThrow (handleNextStep e st) = false.
Proof.
  destruct e; cbn [handleNextStep];
    [unfold JenkinsfileSetup.handleNextStep | unfold DockerfileSetup.handleNextStep
    | unfold KubernetesSetup.handleNextStep | unfold DeploymentConfig.handleNextStep
    | unfold MonitoringSetup.handleNextStep];
    match goal with |- context [if ?b then _ else _] => destruct b end; reflexivity.
Qed.

Lemma effect_flag (e : editor) (s : stateOf e) : hasUnsavedChanges e (runEffect s) = true.
Proof. by destruct e. Qed.

Lemma plain_Forall (e : editor) (trace : list (action (setterOf e))) :
  forallb (plain e) trace = true ->
  Forall (fun a => exists x, a = Set_ x /\ typed e x = true) trace.
Proof.
  induction trace as [|a trace IH]; [constructor|].
  cbn [forallb]. intros [Ha Ht]%andb_prop. constructor; [|by apply IH].
  destruct a as [x|c|]; try discriminate Ha. by exists x.
Qed.

(* an edit of a well-formed state: no call, no error, a well-formed state;
   and when the flag is clear afterwards, nothing has changed *)
Lemma edit_commit (e : editor) (c : control) (st : stateOf e) :
  edits c = true -> wellFormed e st = true ->
  let trace := handle e c st in
  calls trace = []
  /\ existsb isThrow trace = false
  /\ wellFormed e (commit st trace) = true
  /\ (hasUnsavedChanges e (commit st trace) = false -> commit st trace = st).
Proof.
  intros Hc Hst trace.
  pose proof (edit_trace e c st Hc Hst) as Hp. fold trace in Hp.
  pose proof (plain_Forall e trace Hp) as Hf.
  split; [|split; [|split]].
  - by apply (calls_plain (plain e)).
  - clear Hp. induction Hf as [|a t (x & -> & _) _ IH]; [reflexivity|exact IH].
  - apply (commit_preserves (fun s => wellFormed e s = true)); [| |exact Hst].
    + eapply Forall_impl; [exact Hf|]. intros a (x & -> & Hx) s Hs.
      by apply typed_wellFormed.
    + destruct e; (constructor; [|constructor]); intros s Hs;
        by apply (effect_wellFormed _ _ Hs).
  - intros Hflag.
    destruct (existsb (touches st) trace) eqn:Ht.
    + unfold commit in Hflag. rewrite Ht in Hflag. by rewrite effect_flag in Hflag.
    + apply commit_quiet; [|exact Ht].
      eapply Forall_impl; [exact Hf|]. intros a (x & -> & Hx) Hq.
      by apply typed_quiet.
Qed.

Lemma located_range (a : state) : located a -> 0 <= activeStep (shell a) <= 8.
Proof.
  unfold located. destruct (shown a) as [| |e ?| | |]; try (intros ->; lia); [|done].
  intros ->. destruct e; cbn; lia.
Qed.

(* the component mounted for an index within 0..8, on a store of applied
   configurations *)
Lemma enter_invariant (w : world) :
  0 <= activeStep w <= 8 -> stored (configs w) ->
  invariant {| shell := w; shown := enter w |}.
Proof.
  destruct w as [cfg n]. cbn [activeStep configs]. intros Hn Hs.
  assert (Hc : n = 0 \/ n = 1 \/ n = 2 \/ n = 3 \/ n = 4 \/ n = 5 \/ n = 6 \/ n = 7 \/ n = 8)
    by lia.
  destruct Hc as [->|[->|[->|[->|[->|[->|[->|[->| ->]]]]]]]];
    unfold invariant, located, saved, enter;
    cbn [shown shell activeStep configs Index.render];
    (split; [reflexivity|split; [exact Hs|]]); try exact I;
    (split; [by apply mount_wellFormed | intros Hf; by rewrite mount_flag in Hf]).
Qed.

Lemma land_same (a : state) (w : world) (same : screen) :
  activeStep w = activeStep (shell a) -> land a w same = {| shell := w; shown := same |}.
Proof. intros H. unfold land. by rewrite H, Z.eqb_refl. Qed.

Lemma land_other (a : state) (w : world) (same : screen) :
  activeStep w <> activeStep (shell a) -> land a w same = {| shell := w; shown := enter w |}.
Proof. intros H. unfold land. by rewrite (proj2 (Z.eqb_neq _ _) H). Qed.

Lemma step_invariant (a : state) (i : input) : invariant a -> invariant (step a i).
Proof.
  intros Ha. pose proof Ha as (Hl & Hs & Hv).
  pose proof (located_range a Hl) as Hr.
  destruct a as [[cfg n] s]. cbn [shell shown configs activeStep] in *.
  destruct i as [b| |i|c]; cbn [step shell shown configs activeStep].
  - (* the sidebar *)
    destruct (Z.eq_dec (Index.step n (Index.Navigate b)) n) as [He|Hne].
    + rewrite land_same by exact He. rewrite He. destruct s; exact Ha.
    + rewrite land_other by exact Hne.
      destruct s; apply enter_invariant; cbn [activeStep configs];
        first [by apply step_range | exact Hs].
  - (* get started *)
    destruct s; try exact Ha.
    unfold located in Hl. cbn in Hl. subst n.
    rewrite land_other by discriminate. by apply enter_invariant.
  - (* the repository step *)
    destruct s as [|st| | | |]; try exact Ha.
    unfold located in Hl. cbn in Hl. subst n.
    destruct i as [name value|].
    + rewrite land_same by reflexivity. split; [reflexivity|]. by split.
    + rewrite land_other by discriminate. by apply enter_invariant.
  - (* a control of the editor on screen *)
    destruct s as [| |e st| | |]; try exact Ha.
    unfold located in Hl. cbn in Hl. subst n.
    unfold saved in Hv. cbn [shown shell configs] in Hv. destruct Hv as [Hst Hflag].
    destruct (edits c) eqn:Hc.
    + destruct (edit_commit e c st Hc Hst) as (Hcalls & _ & Hwf & Hq).
      rewrite Hcalls. rewrite land_same by reflexivity.
      split; [reflexivity|]. split; [exact Hs|]. split; [exact Hwf|].
      intros Hf. cbn [shell configs performAll fold_left].
      rewrite (Hq Hf) in Hf |- *. by apply Hflag.
    + destruct c; try discriminate Hc.
      * (* apply *)
        rewrite handle_apply. destruct (hasUnsavedChanges e st) eqn:Hf.
        -- rewrite perform_apply. rewrite land_same by reflexivity.
           destruct (apply_commit e st) as (Hcur & Hclear & Hwf & _).
           split; [reflexivity|]. split; [by apply stored_applyConfig|].
           split; [by rewrite Hwf|]. intros _. cbn [shell configs].
           by rewrite read_applyConfig_same, Hcur.
        -- rewrite land_same by reflexivity.
           split; [reflexivity|]. split; [exact Hs|]. split; [exact Hst|].
           intros _. exact (Hflag eq_refl).
      * (* next *)
        rewrite handle_next, perform_next. cbn [configs activeStep].
        rewrite land_other by (destruct e; discriminate).
        apply enter_invariant; cbn [activeStep configs].
        -- by apply handleNextStep_range.
        -- destruct (hasUnsavedChanges e st); [by apply stored_applyConfig|exact Hs].
Qed.

Lemma initial_invariant : invariant initial.
Proof.
  apply enter_invariant; [cbn; unfold Index.initial; lia|exact stored_initial].
Qed.

Lemma run_invariant (inputs : list input) : invariant (run inputs).
Proof.
  unfold run.
  assert (H : forall a, invariant a -> invariant (fold_left step inputs a)).
  { induction inputs as [|i inputs IH]; intros a Ha; [exact Ha|].
    cbn [fold_left]. by apply IH, step_invariant. }
  apply H, initial_invariant.
Qed.
End Steps.

Section RoundTrips.
Import Wizard View App.

Lemma slots_mount (e : editor) (configs : gmap string any) :
  Revisit.slots e (mount e configs) = Revisit.slots e (init e configs).
Proof. by destruct e. Qed.

(* the first render on a store whose entry is what the editor showed *)
Lemma init_saved (e : editor) (st : stateOf e) (configs : gmap string any) :
  ConfigContext.getConfig configs (stepId e) = currentConfig e st ->
  Revisit.slots e (init e configs)
  = map (fun vd => or_else (fst vd) (snd vd)) (Revisit.seeds e st).
Proof.
  intros Hs.
  destruct e; cbn [stepId currentConfig stateOf] in *;
    unfold Revisit.slots, Revisit.seeds, init;
    [unfold JenkinsfileSetup.init | unfold DockerfileSetup.init
    | unfold KubernetesSetup.init | unfold DeploymentConfig.init
    | unfold MonitoringSetup.init];
    cbv zeta; rewrite Hs; reflexivity.
Qed.

Lemma navigate_back (e : editor) (n : Z) :
  Index.step n (Index.Navigate (button e)) = index e.
Proof. by destruct e. Qed.

Lemma navigate_to (n : Z) (b : nat) (item : Index.StepItem) :
  Index.steps !! b = Some item -> Index.step n (Index.Navigate b) = Index.id item.
Proof. intros H. unfold Index.step. by rewrite H. Qed.

Lemma enter_editor (e : editor) (configs : gmap string any) :
  enter {| configs := configs; activeStep := index e |} = Editor e (mount e configs).
Proof. by destruct e. Qed.

Lemma next_leaves (e : editor) : Index.handleNextStep (index e) <> index e.
Proof. by destruct e. Qed.

Lemma step_sidebar (a : state) (b : nat) :
  step a (SidebarButton b)
  = land a {| configs := configs (shell a);
              activeStep := Index.step (activeStep (shell a)) (Index.Navigate b) |}
      (shown a).
Proof. destruct a as [w s]. by destruct s. Qed.

(* from another step, the button of an editor mounts the editor on the store *)
Lemma back_to_editor (e : editor) (cfg : gmap string any) (n : Z) (s : screen) :
  n <> index e ->
  step {| shell := {| configs := cfg; activeStep := n |}; shown := s |}
    (SidebarButton (button e))
  = {| shell := {| configs := cfg; activeStep := index e |};
       shown := Editor e (mount e cfg) |}.
Proof.
  intros Hn. rewrite step_sidebar. cbn [shell shown configs activeStep].
  rewrite navigate_back, land_other by (cbn; congruence).
  by rewrite enter_editor.
Qed.
End RoundTrips.

(** X24: no handler of the wizard ever raises a TypeError.  Whatever the
    user did since the page was loaded (sidebar clicks, Get Started, the
    repository step, any control of any editor with any text), the handler
    of whatever is done next calls replace and includes on strings only. *)
Theorem wizard_raises_no_type_error (inputs : list App.input) (i : App.input) :
  App.raises (App.run inputs) i = false.
Proof.
  pose proof (run_invariant inputs) as (_ & _ & Hv).
  destruct (App.run inputs) as [w s]. unfold App.raises, App.saved in *.
  cbn [App.shown] in *.
  destruct i as [b| |r|c]; try reflexivity.
  destruct s as [| |e st| | |]; try reflexivity.
  destruct Hv as [Hst _].
  destruct (View.edits c) eqn:Hc.
  - by destruct (edit_commit e c st Hc Hst) as (_ & Ht & _).
  - destruct c; try discriminate Hc.
    + rewrite handle_apply. destruct (Wizard.hasUnsavedChanges e st); [|reflexivity].
      by destruct (apply_commit e st) as (_ & _ & _ & Ht).
    + rewrite handle_next. apply next_no_throw.
Qed.

(** X25: the editor on screen is always the one of the active step, and its
    state is well formed: every code buffer holds a string, and in the
    Kubernetes step the cloud provider is a key of storageClasses, so that
    the list of storage classes the view maps over exists. *)
Theorem editor_on_screen_is_well_formed
    (inputs : list App.input) (e : Wizard.editor) (st : Wizard.stateOf e) :
  App.shown (App.run inputs) = App.Editor e st ->
  activeStep (App.shell (App.run inputs)) = App.index e
  /\ View.wellFormed e st = true
  /\ Forall (fun v => exists s, v = VStr s) (View.code e st)
  /\ Forall (fun v => is_Some (KubernetesSetup.storageClasses !! toString v))
       (View.providers e st).
Proof.
  intros Hshown.
  pose proof (run_invariant inputs) as (Hl & _ & Hv).
  unfold App.located, App.saved in *. rewrite Hshown in Hl, Hv.
  destruct Hv as [Hst _]. split; [exact Hl|]. split; [exact Hst|].
  unfold View.wellFormed in Hst.
  apply andb_prop in Hst as [[Hcode Hprov]%andb_prop _]. split.
  - clear Hprov. induction (View.code e st) as [|v l IH]; [constructor|].
    cbn [forallb] in Hcode. apply andb_prop in Hcode as [Hv Hl'].
    constructor; [by apply isText_inv|by apply IH].
  - clear Hcode. induction (View.providers e st) as [|v l IH]; [constructor|].
    cbn [forallb] in Hprov. apply andb_prop in Hprov as [Hv Hl'].
    constructor; [|by apply IH].
    destruct v; try discriminate Hv. cbn [View.isProvider toString] in *.
    by destruct (KubernetesSetup.storageClasses !! s).
Qed.

Lemma editor_on_screen_is_well_formed_witness :
  let a := App.run [App.SidebarButton 4] in
  App.shown a = App.Editor Wizard.Kubernetes (KubernetesSetup.mount ∅)
  /\ activeStep (App.shell a) = App.index Wizard.Kubernetes
  /\ View.wellFormed Wizard.Kubernetes (KubernetesSetup.mount ∅) = true.
Proof.
  split; [reflexivity|].
  pose proof (editor_on_screen_is_well_formed [App.SidebarButton 4] Wizard.Kubernetes
                (KubernetesSetup.mount ∅) eq_refl) as (H1 & H2 & _).
  split; [exact H1|exact H2].
Defined.

(** X26: the store only ever holds what an editor applied: every entry is
    under the id of one of the five editors and is the object that editor
    builds from a well-formed state of its own. *)
Theorem store_holds_applied_configs (inputs : list App.input) (k : string) (v : any) :
  configs (App.shell (App.run inputs)) !! k = Some v ->
  exists (e : Wizard.editor) (st : Wizard.stateOf e),
    k = Wizard.stepId e /\ v = Wizard.currentConfig e st /\ View.wellFormed e st = true.
Proof.
  intros Hk. pose proof (run_invariant inputs) as (_ & Hs & _). by apply Hs.
Qed.

Lemma store_holds_applied_configs_witness :
  exists (e : Wizard.editor) (st : Wizard.stateOf e),
    "jenkinsfile" = Wizard.stepId e
    /\ JenkinsfileSetup.currentConfig (JenkinsfileSetup.mount ∅) = Wizard.currentConfig e st
    /\ View.wellFormed e st = true.
Proof.
  apply (store_holds_applied_configs [App.SidebarButton 2; App.Control View.NextButton]).
  apply lookup_insert_eq.
Defined.

(** X27: a clear flag means that nothing is unsaved: whenever the editor on
    screen shows the flag clear, the entry of the store under its id is
    exactly the object the editor would apply now. *)
Theorem clear_flag_means_saved
    (inputs : list App.input) (e : Wizard.editor) (st : Wizard.stateOf e) :
  App.shown (App.run inputs) = App.Editor e st ->
  Wizard.hasUnsavedChanges e st = false ->
  ConfigContext.read (configs (App.shell (App.run inputs))) (Wizard.stepId e)
  = Wizard.currentConfig e st.
Proof.
  intros Hshown Hflag.
  pose proof (run_invariant inputs) as (_ & _ & Hv).
  unfold App.saved in Hv. rewrite Hshown in Hv. by apply Hv.
Qed.

Lemma clear_flag_means_saved_witness :
  let inputs := [App.SidebarButton 3; App.Control View.ApplyButton] in
  let st := commit (DockerfileSetup.mount ∅)
              (View.handle Wizard.Dockerfile View.ApplyButton (DockerfileSetup.mount ∅)) in
  App.shown (App.run inputs) = App.Editor Wizard.Dockerfile st
  /\ DockerfileSetup.hasUnsavedChanges st = false
  /\ ConfigContext.read (configs (App.shell (App.run inputs))) "dockerfile"
     = DockerfileSetup.currentConfig st.
Proof.
  intros inputs st.
  split; [reflexivity|]. split; [reflexivity|].
  exact (clear_flag_means_saved inputs Wizard.Dockerfile st eq_refl eq_refl).
Defined.

(** X28: leaving an editor by the sidebar drops what was not applied: after a
    click on the button of another step and a click back, the store and the
    index are what they were and the editor is mounted afresh from the
    store, so that it shows nothing of the edits made since the last apply. *)
Theorem sidebar_round_trip_drops_edits
    (inputs : list App.input) (e : Wizard.editor) (st : Wizard.stateOf e)
    (button : nat) (item : Index.StepItem) :
  App.shown (App.run inputs) = App.Editor e st ->
  Index.steps !! button = Some item ->
  Index.id item <> App.index e ->
  let a := App.run inputs in
  App.step (App.step a (App.SidebarButton button)) (App.SidebarButton (App.button e))
  = {| App.shell := App.shell a;
       App.shown := App.Editor e (Wizard.mount e (configs (App.shell a))) |}.
Proof.
  intros Hshown Hb Hne a. subst a.
  pose proof (run_invariant inputs) as (Hl & _ & _).
  unfold App.located in Hl. rewrite Hshown in Hl.
  destruct (App.run inputs) as [[cfg n] s]. cbn [App.shell App.shown activeStep configs] in *.
  subst n s.
  rewrite (step_sidebar _ button). cbn [App.shell App.shown configs activeStep].
  rewrite (navigate_to _ _ _ Hb), land_other by (cbn; congruence).
  by apply back_to_editor.
Qed.

Lemma sidebar_round_trip_drops_edits_witness :
  let inputs := [App.SidebarButton 2; App.Control (View.CodeEditor 0 "pipeline { }")] in
  let st := commit (JenkinsfileSetup.mount ∅)
              (JenkinsfileSetup.handleCodeChange "pipeline { }" (JenkinsfileSetup.mount ∅)) in
  App.shown (App.run inputs) = App.Editor Wizard.Jenkinsfile st
  /\ JenkinsfileSetup.jenkinsfile st = VStr "pipeline { }"
  /\ App.shown (App.step (App.step (App.run inputs) (App.SidebarButton 0))
                  (App.SidebarButton (App.button Wizard.Jenkinsfile)))
     = App.Editor Wizard.Jenkinsfile (JenkinsfileSetup.mount ∅).
Proof.
  intros inputs st.
  split; [reflexivity|]. split; [reflexivity|].
  assert (Hne : Index.id {| Index.name := "Overview"; Index.id := 0 |}
                <> App.index Wizard.Jenkinsfile) by discriminate.
  exact (f_equal App.shown
           (sidebar_round_trip_drops_edits inputs Wizard.Jenkinsfile st 0 _
              eq_refl eq_refl Hne)).
Defined.

(** X29: leaving an editor by its next button keeps what it showed: after
    next and a click back on the step's sidebar button, the editor shows in
    every slot the value it had, or the slot's default where that value was
    falsy (an emptied buffer or field), whether or not the flag was set. *)
Theorem next_round_trip_keeps_edits
    (inputs : list App.input) (e : Wizard.editor) (st : Wizard.stateOf e) :
  App.shown (App.run inputs) = App.Editor e st ->
  let a := App.run inputs in
  exists st' : Wizard.stateOf e,
    App.shown (App.step (App.step a (App.Control View.NextButton))
                 (App.SidebarButton (App.button e)))
    = App.Editor e st'
    /\ Revisit.slots e st'
       = map (fun vd => or_else (fst vd) (snd vd)) (Revisit.seeds e st).
Proof.
  intros Hshown a. subst a.
  pose proof (run_invariant inputs) as (Hl & _ & Hv).
  unfold App.located, App.saved in *. rewrite Hshown in Hl, Hv.
  destruct Hv as [_ Hflag].
  destruct (App.run inputs) as [[cfg n] s]. cbn [App.shell App.shown activeStep configs] in *.
  subst n s.
  set (cfg' := if Wizard.hasUnsavedChanges e st
               then ConfigContext.applyConfig (Wizard.stepId e) (Wizard.currentConfig e st) cfg
               else cfg).
  exists (Wizard.mount e cfg'). split.
  - set (w' := {| configs := cfg'; activeStep := Index.handleNextStep (App.index e) |}).
    assert (H1 : App.step {| App.shell := {| configs := cfg; activeStep := App.index e |};
                             App.shown := App.Editor e st |} (App.Control View.NextButton)
                 = {| App.shell := w'; App.shown := App.enter w' |}).
    { cbn [App.step App.shell App.shown configs activeStep].
      rewrite handle_next, perform_next. cbn [configs activeStep]. fold cfg' w'.
      by rewrite land_other by (cbn; apply next_leaves). }
    rewrite H1. subst w'. by rewrite back_to_editor by apply next_leaves.
  - rewrite slots_mount. apply init_saved.
    unfold ConfigContext.getConfig, or_else. subst cfg'.
    destruct (Wizard.hasUnsavedChanges e st).
    + by rewrite read_applyConfig_same, currentConfig_truthy.
    + by rewrite (Hflag eq_refl), currentConfig_truthy.
Qed.

Lemma next_round_trip_keeps_edits_witness :
  let inputs := [App.SidebarButton 2; App.Control (View.CodeEditor 0 "pipeline { }")] in
  let st := commit (JenkinsfileSetup.mount ∅)
              (JenkinsfileSetup.handleCodeChange "pipeline { }" (JenkinsfileSetup.mount ∅)) in
  exists st' : JenkinsfileSetup.state,
    App.shown (App.step (App.step (App.run inputs) (App.Control View.NextButton))
                 (App.SidebarButton (App.button Wizard.Jenkinsfile)))
    = App.Editor Wizard.Jenkinsfile st'
    /\ Revisit.slots Wizard.Jenkinsfile st'
       = map (fun vd => or_else (fst vd) (snd vd)) (Revisit.seeds Wizard.Jenkinsfile st).
Proof.
  intros inputs st.
  exact (next_round_trip_keeps_edits inputs Wizard.Jenkinsfile st eq_refl).
Defined.
